(** * Discovery RAG Agent V2: context selection, token budgeting,
      retrieval and indexing

    A shallow embedding of
    - [server/app/rag/dynamic_context_selector.py] (class
      [DynamicContextSelector]): the pipeline [select_context], intent
      classification, source selection, relevance filters, token
      allocator, compression driver;
    - [server/app/rag/hierarchical_indexer.py]: class [EnhancedRetriever]
      ([retrieve], the vector query, the parent lookup,
      [_rerank_results]) and class [HierarchicalIndexer]
      ([index_document], the embeddings in batches, [delete_document]);
    - [server/app/rag/semantic_chunker.py]
      ([SemanticChunker._chunk_section]).

    Python values are rendered as follows.
    - [int] is [Z] (unbounded).
    - [float] is the kernel's binary64 type [float]; [+], [*], [/] and the
      comparisons are the IEEE 754 operations, as in CPython.
    - [str] is [string], a sequence of ASCII characters; [strip],
      [int()] and [float()] are those of Python on such strings.
    - a [dict] is an association list in insertion order; its keys are
      pairwise distinct ([wf_dict]).
    - a raised exception is the [Raise] outcome of the [result] monad.
    - the text a chat completion returns is an input of the function that
      requests it; so is the answer of every other service (embeddings,
      vector index, guidelines repository, tokenizer), and the requests
      a function sends are listed in the order in which it sends
      them. *)

From Stdlib Require Import ZArith List String Ascii Bool Lia Floats.
From Stdlib Require Import Permutation Sorted.
Import ListNotations.

#[local] Set Warnings "-inexact-float".
#[local] Open Scope Z_scope.

(* ================================================================== *)
(** ** Python run-time model *)
(* ================================================================== *)

Module Py.

(** The exceptions the modelled code can raise. *)
Inductive exn : Type :=
| ZeroDivisionError
| KeyError (key : string)
| IndexError
| ValueError
| OverflowError.

Inductive result (A : Type) : Type :=
| Ok (a : A)
| Raise (e : exn).
Arguments Ok {A} a.
Arguments Raise {A} e.

Definition bind {A B} (m : result A) (k : A -> result B) : result B :=
  match m with
  | Ok a => k a
  | Raise e => Raise e
  end.

Definition dict (V : Type) : Type := list (string * V).

Definition keys {V} (d : dict V) : list string := map fst d.
Definition values {V} (d : dict V) : list V := map snd d.

Fixpoint dict_get {V} (d : dict V) (k : string) : option V :=
  match d with
  | [] => None
  | (k', v) :: d' => if String.eqb k' k then Some v else dict_get d' k
  end.

(** [d[k]] *)
Definition getitem {V} (d : dict V) (k : string) : result V :=
  match dict_get d k with
  | Some v => Ok v
  | None => Raise (KeyError k)
  end.

Fixpoint nodupb (l : list string) : bool :=
  match l with
  | [] => true
  | k :: l' => negb (existsb (String.eqb k) l') && nodupb l'
  end.

(** Keys of a dictionary are pairwise distinct. *)
Definition wf_dict {V} (d : dict V) : Prop := nodupb (keys d) = true.

(** Truth value of a container: it is not empty. *)
Definition nonempty {A} (l : list A) : bool :=
  match l with
  | [] => false
  | _ :: _ => true
  end.

(** [len(l)] *)
Definition len {A} (l : list A) : Z := Z.of_nat (List.length l).

(** [l[i]] on a list; a negative index counts from the end. *)
Definition list_getitem {A} (l : list A) (i : Z) : result A :=
  let j := if i <? 0 then i + len l else i in
  if j <? 0 then Raise IndexError
  else match nth_error l (Z.to_nat j) with
       | Some x => Ok x
       | None => Raise IndexError
       end.

(** [list(range(n))] *)
Definition range (n : nat) : list Z := map Z.of_nat (seq 0 n).

End Py.
Export Py.

Declare Scope py_scope.
Delimit Scope py_scope with py.
Notation "x <- m ;; k" := (bind m (fun x => k))
  (at level 61, m at next level, right associativity) : py_scope.
Notation "' pat <- m ;; k" := (bind m (fun x => match x with pat => k end))
  (at level 61, pat pattern, m at next level, right associativity) : py_scope.
#[local] Open Scope py_scope.

Fixpoint filterM {A} (f : A -> result bool) (l : list A) : result (list A) :=
  match l with
  | [] => Ok []
  | x :: l' =>
      b <- f x ;;
      r <- filterM f l' ;;
      Ok (if b then x :: r else r)
  end.

Fixpoint mapM {A B} (f : A -> result B) (l : list A) : result (list B) :=
  match l with
  | [] => Ok []
  | x :: l' =>
      y <- f x ;;
      r <- mapM f l' ;;
      Ok (y :: r)
  end.

(* ------------------------------------------------------------------ *)
(** *** Strings *)

Module PyStr.

Definition code (c : ascii) : Z := Z.of_N (N_of_ascii c).

(** [c.isspace()] on ASCII: TAB..CR, FS..US and the blank. *)
Definition is_space (c : ascii) : bool :=
  ((9 <=? code c) && (code c <=? 13)) || ((28 <=? code c) && (code c <=? 32)).

Definition digit_of (c : ascii) : option Z :=
  if (48 <=? code c) && (code c <=? 57) then Some (code c - 48) else None.

Definition is_digit (c : ascii) : bool :=
  match digit_of c with
  | Some _ => true
  | None => false
  end.

Fixpoint lstrip (s : string) : string :=
  match s with
  | EmptyString => EmptyString
  | String c s' => if is_space c then lstrip s' else s
  end.

Fixpoint rstrip (s : string) : string :=
  match s with
  | EmptyString => EmptyString
  | String c s' =>
      match rstrip s' with
      | EmptyString => if is_space c then EmptyString else String c EmptyString
      | r => String c r
      end
  end.

(** [s.strip()] *)
Definition strip (s : string) : string := rstrip (lstrip s).

(** The white space that [int()] and [float()] skip around an ASCII
    literal: TAB..CR and the blank. *)
Definition is_blank (c : ascii) : bool :=
  ((9 <=? code c) && (code c <=? 13)) || (code c =? 32).

Fixpoint lskip (s : string) : string :=
  match s with
  | EmptyString => EmptyString
  | String c s' => if is_blank c then lskip s' else s
  end.

Fixpoint rskip (s : string) : string :=
  match s with
  | EmptyString => EmptyString
  | String c s' =>
      match rskip s' with
      | EmptyString => if is_blank c then EmptyString else String c EmptyString
      | r => String c r
      end
  end.

Definition skip_blanks (s : string) : string := rskip (lskip s).

(** Truth value of a string: it is not empty. *)
Definition truthy (s : string) : bool :=
  match s with
  | EmptyString => false
  | String _ _ => true
  end.

(** [s.split(sep)] for a separator of one character. *)
Fixpoint split (sep : ascii) (s : string) : list string :=
  match s with
  | EmptyString => [EmptyString]
  | String c s' =>
      if Ascii.eqb c sep then EmptyString :: split sep s'
      else match split sep s' with
           | [] => [String c EmptyString]
           | w :: ws => String c w :: ws
           end
  end.

(** [sep.join(parts)] *)
Fixpoint join (sep : string) (parts : list string) : string :=
  match parts with
  | [] => EmptyString
  | [w] => w
  | w :: ws => w ++ sep ++ join sep ws
  end.

(** A run of digits in which single underscores may separate digits:
    the value read on top of [acc], the number of digits read on top of
    [count], and the text left. *)
Fixpoint scan_digits (s : string) (acc count : Z) : Z * Z * string :=
  match s with
  | EmptyString => (acc, count, s)
  | String c s' =>
      match digit_of c with
      | Some d => scan_digits s' (10 * acc + d) (count + 1)
      | None =>
          if Ascii.eqb c "_"%char && (0 <? count) then
            match s' with
            | String c' _ =>
                if is_digit c' then scan_digits s' acc count
                else (acc, count, s)
            | EmptyString => (acc, count, s)
            end
          else (acc, count, s)
      end
  end.

(** An optional sign: whether it is a minus, and the text after it. *)
Definition scan_sign (s : string) : bool * string :=
  match s with
  | String c s' =>
      if Ascii.eqb c "-"%char then (true, s')
      else if Ascii.eqb c "+"%char then (false, s')
      else (false, s)
  | EmptyString => (false, s)
  end.

(** [sys.get_int_max_str_digits()], as CPython sets it. *)
Definition max_str_digits : Z := 4300.

(** [int(s)] in base 10; [ValueError] when [s] is not an integer literal,
    and when it has more digits than [max_str_digits]. *)
Definition to_int (s : string) : result Z :=
  let '(neg, body) := scan_sign (skip_blanks s) in
  match scan_digits body 0 0 with
  | (v, n, EmptyString) =>
      if 0 <? n then
        if max_str_digits <? n then Raise ValueError
        else Ok (if neg then - v else v)
      else Raise ValueError
  | _ => Raise ValueError
  end.

Definition lower_char (c : ascii) : ascii :=
  if (65 <=? code c) && (code c <=? 90)
  then ascii_of_N (Z.to_N (code c + 32)) else c.

Fixpoint lower (s : string) : string :=
  match s with
  | EmptyString => EmptyString
  | String c s' => String (lower_char c) (lower s')
  end.

(** The binary64 value nearest to [(-1)^neg * m * 10^e10] (ties to even). *)
Definition decimal (neg : bool) (m e10 : Z) : float :=
  match m with
  | Zpos p =>
      if 0 <=? e10 then
        SF2Prim (binary_normalize prec emax
                   ((if neg then Zneg p else Zpos p) * 10 ^ e10) 0 false)
      else
        SF2Prim (SFdiv prec emax (S754_finite neg p 0)
                   (S754_finite false (Z.to_pos (10 ^ (- e10))) 0))
  | _ => if neg then (-0)%float else 0%float
  end.

(** The exponent part of a float literal, possibly absent. *)
Definition scan_exponent (s : string) : option Z :=
  match s with
  | EmptyString => Some 0
  | String c s' =>
      if Ascii.eqb (lower_char c) "e"%char then
        let '(neg, body) := scan_sign s' in
        match scan_digits body 0 0 with
        | (v, n, EmptyString) =>
            if 0 <? n then Some (if neg then - v else v) else None
        | _ => None
        end
      else None
  end.

(** [float(s)]; [ValueError] when [s] is not a float literal. *)
Definition to_float (s : string) : result float :=
  let '(neg, body) := scan_sign (skip_blanks s) in
  let low := lower body in
  if String.eqb low "inf" || String.eqb low "infinity" then
    Ok (if neg then neg_infinity else infinity)
  else if String.eqb low "nan" then Ok nan
  else
    let '(ip, ni, r1) := scan_digits body 0 0 in
    let '(m, nf, r2) :=
      match r1 with
      | String c r =>
          if Ascii.eqb c "."%char then scan_digits r ip 0 else (ip, 0, r1)
      | EmptyString => (ip, 0, r1)
      end in
    if ni + nf =? 0 then Raise ValueError
    else match scan_exponent r2 with
         | Some e => Ok (decimal neg m (e - nf))
         | None => Raise ValueError
         end.

End PyStr.

(* ------------------------------------------------------------------ *)
(** *** Floating point *)

Module PyFloat.

(** [float(n)] for an [int]: round to nearest even; an [int] beyond the
    binary64 range raises [OverflowError]. *)
Definition of_int (n : Z) : result float :=
  let x := SF2Prim (binary_normalize prec emax n 0 false) in
  match Prim2SF x with
  | S754_infinity _ => Raise OverflowError
  | _ => Ok x
  end.

(** [int(x)]: truncation towards zero; NaN raises [ValueError], an
    infinity [OverflowError]. *)
Definition to_int (x : float) : result Z :=
  match Prim2SF x with
  | S754_zero _ => Ok 0
  | S754_finite s m e =>
      let a := if 0 <=? e then Z.shiftl (Zpos m) e
               else Z.shiftr (Zpos m) (- e) in
      Ok (if s then - a else a)
  | S754_infinity _ => Raise OverflowError
  | S754_nan => Raise ValueError
  end.

(** [x / y] on floats. *)
Definition truediv (x y : float) : result float :=
  if (y =? 0)%float then Raise ZeroDivisionError else Ok (x / y)%float.

(** [x * n] with [x] a float and [n] an int. *)
Definition mul_int (x : float) (n : Z) : result float :=
  y <- of_int n ;;
  Ok (x * y)%float.

(** [sum(xs)] over floats: accumulation from the integer 0, left to
    right, one binary64 addition per item (CPython up to 3.11; see
    [sum_compensated] for later versions, which agrees with it on every
    sum that is exact). *)
Definition sum (xs : list float) : float :=
  fold_left PrimFloat.add xs 0%float.

(** [sum(xs)] as CPython computes it from version 3.12 on: the rounding
    errors of the additions are accumulated apart and added at the end,
    when they are finite and not zero. *)
Definition sum_compensated (xs : list float) : float :=
  let step (acc : float * float) (x : float) :=
    let '(total, c) := acc in
    let t := (total + x)%float in
    if (abs x <=? abs total)%float
    then (t, (c + ((total - t) + x))%float)
    else (t, (c + ((x - t) + total))%float) in
  let '(total, c) := fold_left step xs (0%float, 0%float) in
  if (c =? 0)%float || is_nan c || is_infinity c then total
  else (total + c)%float.

(** [max(d, key=d.get)] keeps the first key whose value no later value
    exceeds: the running maximum is replaced only on a strict [>]. *)
Fixpoint max_item (best : string * float) (d : dict float)
  : string * float :=
  match d with
  | [] => best
  | kv :: d' =>
      max_item (if (snd best <? snd kv)%float then kv else best) d'
  end.

Definition max_key (d : dict float) : result string :=
  match d with
  | [] => Raise ValueError
  | kv :: d' => Ok (fst (max_item kv d'))
  end.

End PyFloat.

(* ================================================================== *)
(** ** Token budget allocator ([_allocate_tokens]) *)
(* ================================================================== *)

(** The dictionary [allocation] holds exactly the keys of [priorities]
    (lines 545-550) and is only read and updated at those keys; it is
    kept as its value function and listed over the keys of [priorities]
    when returned. *)
Definition alloc : Type := string -> Z.

Definition alloc_set (a : alloc) (k : string) (v : Z) : alloc :=
  fun x => if String.eqb x k then v else a x.

(** [allocation[k] += d] *)
Definition alloc_add (a : alloc) (k : string) (d : Z) : alloc :=
  alloc_set a k (a k + d).

(** [sum(allocation.values())] *)
Definition alloc_sum (ks : list string) (a : alloc) : Z :=
  fold_left (fun acc k => acc + a k) ks 0.

Definition render (ks : list string) (a : alloc) : dict Z :=
  map (fun k => (k, a k)) ks.

(** The value function of a dictionary of integers. *)
Definition alloc_of (d : dict Z) : alloc :=
  fun k => match dict_get d k with
           | Some v => v
           | None => 0
           end.

(** Line 534: [{k: v for k, v in priorities.items() if initial_tokens[k] > 0}] *)
Definition active_of (priorities : dict float) (initial_tokens : dict Z)
  : result (dict float) :=
  filterM (fun kv => t <- getitem initial_tokens (fst kv) ;; Ok (0 <? t))
          priorities.

(** Line 542: [{k: v / total_priority for k, v in active_priorities.items()}] *)
Definition normalize (total_priority : float) (active_priorities : dict float)
  : result (dict float) :=
  mapM (fun kv => q <- PyFloat.truediv (snd kv) total_priority ;;
                  Ok (fst kv, q))
       active_priorities.

(** Lines 545-550: the proportional first pass. *)
Fixpoint first_pass (available_tokens : Z) (normalized_priorities : dict float)
    (sources : list string) (allocation : alloc) : result alloc :=
  match sources with
  | [] => Ok allocation
  | source :: rest =>
      match dict_get normalized_priorities source with
      | Some w =>
          x <- PyFloat.mul_int w available_tokens ;;
          n <- PyFloat.to_int x ;;
          first_pass available_tokens normalized_priorities rest
                     (alloc_set allocation source n)
      | None =>
          first_pass available_tokens normalized_priorities rest
                     (alloc_set allocation source 0)
      end
  end.

(** Lines 553-557: the rounding adjustment goes to the active source of
    largest priority. *)
Definition adjust (available_tokens : Z) (sources : list string)
    (active_priorities : dict float) (allocation : alloc) : result alloc :=
  let adjustment := available_tokens - alloc_sum sources allocation in
  if negb (adjustment =? 0) && nonempty active_priorities
  then
    max_priority_source <- PyFloat.max_key active_priorities ;;
    Ok (alloc_add allocation max_priority_source adjustment)
  else Ok allocation.

(** Lines 540-557 together: the allocation as it stands when the cap loop
    of line 560 starts. *)
Definition proportional_allocation (available_tokens : Z)
    (priorities active_priorities : dict float) : result alloc :=
  let total_priority := PyFloat.sum (values active_priorities) in
  normalized_priorities <- normalize total_priority active_priorities ;;
  allocation <- first_pass available_tokens normalized_priorities
                           (keys priorities) (fun _ => 0) ;;
  adjust available_tokens (keys priorities) active_priorities allocation.

(** Lines 567-568: the sources that may take part of an excess. *)
Definition candidates_of (initial_tokens : dict Z)
    (active_priorities : dict float) (source : string) (allocation : alloc)
  : result (dict float) :=
  filterM (fun kv =>
             if String.eqb (fst kv) source then Ok false
             else t <- getitem initial_tokens (fst kv) ;;
                  Ok (allocation (fst kv) <? t))
          active_priorities.

(** Lines 573-577: one proportional share per candidate, each taken from
    what is left of the excess. *)
Fixpoint distribute (total_candidate_priority : float)
    (candidates : dict float) (allocation : alloc) (excess : Z)
  : result (alloc * Z) :=
  match candidates with
  | [] => Ok (allocation, excess)
  | (candidate, priority) :: rest =>
      q <- PyFloat.truediv priority total_candidate_priority ;;
      x <- PyFloat.mul_int q excess ;;
      share <- PyFloat.to_int x ;;
      distribute total_candidate_priority rest
                 (alloc_add allocation candidate share) (excess - share)
  end.

(** Lines 561-582: the body of the cap loop for one source. *)
Definition cap_source (initial_tokens : dict Z)
    (active_priorities : dict float) (allocation : alloc) (source : string)
  : result alloc :=
  let tokens := allocation source in
  limit <- getitem initial_tokens source ;;
  if limit <? tokens then
    let excess := tokens - limit in
    let allocation := alloc_set allocation source limit in
    candidates <- candidates_of initial_tokens active_priorities source
                                allocation ;;
    match candidates with
    | [] => Ok allocation
    | _ :: _ =>
        let total_candidate_priority := PyFloat.sum (values candidates) in
        '(allocation, excess) <- distribute total_candidate_priority
                                            candidates allocation excess ;;
        if 0 <? excess then
          max_candidate <- PyFloat.max_key candidates ;;
          Ok (alloc_add allocation max_candidate excess)
        else Ok allocation
    end
  else Ok allocation.

(** Line 560: the loop visits the sources in dictionary order and reads
    each allocation as it stands when its turn comes. *)
Fixpoint enforce_caps (initial_tokens : dict Z)
    (active_priorities : dict float) (sources : list string)
    (allocation : alloc) : result alloc :=
  match sources with
  | [] => Ok allocation
  | source :: rest =>
      allocation' <- cap_source initial_tokens active_priorities
                                allocation source ;;
      enforce_caps initial_tokens active_priorities rest allocation'
  end.

Definition _allocate_tokens (available_tokens : Z)
    (priorities : dict float) (initial_tokens : dict Z) : result (dict Z) :=
  active_priorities <- active_of priorities initial_tokens ;;
  match active_priorities with
  | [] => Ok (map (fun kv => (fst kv, 0)) priorities)
  | _ :: _ =>
      allocation <- proportional_allocation available_tokens priorities
                                            active_priorities ;;
      allocation <- enforce_caps initial_tokens active_priorities
                                 (keys priorities) allocation ;;
      Ok (render (keys priorities) allocation)
  end.

(** The five sources, in the order every dictionary of the selector
    lists them. *)
Definition sources5 {V} (c p d b o : V) : dict V :=
  [ ("chunks"%string, c); ("product_guidelines"%string, p);
    ("design_guidelines"%string, d); ("benchmarks"%string, b);
    ("team_objectives"%string, o) ].

(** Lines 483-512. *)
Definition informative_priorities : dict float :=
  sources5 0.85%float 0.15%float 0.0%float 0.0%float 0.0%float.

Definition priority_matrix : dict (dict float) :=
  [ ("informative"%string, informative_priorities);
    ("hypothesis"%string,
      sources5 0.5%float 0.25%float 0.25%float 0.0%float 0.0%float);
    ("benchmark"%string,
      sources5 0.5%float 0.15%float 0.25%float 0.1%float 0.0%float);
    ("objectives"%string,
      sources5 0.5%float 0.25%float 0.0%float 0.0%float 0.25%float) ].

(** Line 514: [priority_matrix.get(objective, priority_matrix["informative"])] *)
Definition _get_priorities_by_objective (objective : string) : dict float :=
  match dict_get priority_matrix objective with
  | Some row => row
  | None => informative_priorities
  end.

(* ================================================================== *)
(** ** Source selector ([_select_relevant_sources]) *)
(* ================================================================== *)

(** Lines 160-189. *)
Definition informative_sources : dict bool :=
  sources5 true true false false false.

Definition selection_matrix : dict (dict bool) :=
  [ ("informative"%string, informative_sources);
    ("hypothesis"%string, sources5 true true true true false);
    ("benchmark"%string, sources5 true true true true false);
    ("objectives"%string, sources5 true true false false true) ].

(** Line 191: [selection_matrix.get(objective, selection_matrix["informative"])] *)
Definition _select_relevant_sources (objective : string) : dict bool :=
  match dict_get selection_matrix objective with
  | Some row => row
  | None => informative_sources
  end.

(* ================================================================== *)
(** ** Relevance filters *)
(* ================================================================== *)

(** Lines 267-270 and 325-328: the loop over the comma-separated parts of
    the reply; [n] is the number of items. *)
Fixpoint collect_indices (n : Z) (parts : list string)
    (relevant_indices : list Z) : result (list Z) :=
  match parts with
  | [] => Ok relevant_indices
  | part :: rest =>
      v <- PyStr.to_int (PyStr.strip part) ;;
      let idx := v - 1 in
      collect_indices n rest
        (if (0 <=? idx) && (idx <? n) then relevant_indices ++ [idx]
         else relevant_indices)
  end.

(** Lines 262-273 and 320-331: from the reply to the list of indices; a
    [ValueError] of the conversion selects every index. *)
Definition relevant_indices_of (n : nat) (content : string)
  : result (list Z) :=
  let sections_str := PyStr.strip content in
  match (if String.eqb sections_str "0" then Ok []
         else collect_indices (Z.of_nat n)
                              (PyStr.split ","%char sections_str) []) with
  | Raise ValueError => Ok (range n)
  | r => r
  end.

(** [content] is the text of the completion requested at line 255; it is
    requested only when [sections] is not empty. *)
Definition _filter_relevant_sections (content : string)
    (sections : list string) : result (list string) :=
  match sections with
  | [] => Ok []
  | _ :: _ =>
      relevant_indices <- relevant_indices_of (List.length sections) content ;;
      mapM (list_getitem sections) relevant_indices
  end.

(** [content] is the text of the completion requested at line 313; it is
    requested only when there are more than five chunks. *)
Definition _filter_relevant_chunks {Chunk : Type} (content : string)
    (chunks : list Chunk) : result (list Chunk) :=
  if len chunks <=? 5 then Ok chunks
  else
    relevant_indices <- relevant_indices_of (List.length chunks) content ;;
    mapM (list_getitem chunks) relevant_indices.

(* ================================================================== *)
(** ** Retrieved passages and reranking ([_rerank_results]) *)
(* ================================================================== *)

(** A record of [_vector_search] (hierarchical_indexer.py, lines 600-609). *)
Record passage : Type := {
  text : string;
  title : string;
  document_title : string;
  document_source : string;
  type_ : string;
  category : string;
  position : float;
  similarity_score : float
}.

(** The same record once [_rerank_results] has set its two scores. *)
Record reranked : Type := {
  base : passage;
  rerank_score : float;
  combined_score : float
}.

(** Lines 681-687: one score per line that converts; other lines are
    skipped. *)
Fixpoint parse_scores (lines : list string) (scores : list float)
  : result (list float) :=
  match lines with
  | [] => Ok scores
  | line :: rest =>
      match PyStr.to_float (PyStr.strip line) with
      | Ok score => parse_scores rest (scores ++ [score])
      | Raise ValueError => parse_scores rest scores
      | Raise e => Raise e
      end
  end.

(** Lines 690-692. *)
Definition pad_scores (n : nat) (scores : list float) : list float :=
  if (List.length scores <? n)%nat
  then scores ++ repeat 0%float (n - List.length scores)
  else scores.

(** Lines 696-702: the body of the scoring loop at index [i]. *)
Definition score_result (scores : list float) (i : nat) (result : passage)
  : reranked :=
  match nth_error scores i with
  | Some s =>
      {| base := result;
         rerank_score := s;
         combined_score :=
           (0.3 * similarity_score result + 0.7 * (s / 10))%float |}
  | None =>
      {| base := result;
         rerank_score := 0%float;
         combined_score := (0.3 * similarity_score result)%float |}
  end.

Fixpoint score_results (scores : list float) (i : nat)
    (results : list passage) : list reranked :=
  match results with
  | [] => []
  | result :: rest =>
      score_result scores i result :: score_results scores (S i) rest
  end.

(** Line 705: [sorted(..., key=combined_score, reverse=True)].  The sort
    is stable: a record goes in front of the first record whose key does
    not exceed its own.  On keys that [<] orders totally, that is without
    NaN, this is the list Python returns; so it is on a list in which no
    record is directly followed by one of larger key, which both leave
    as it is (Python finds a single run). *)
Fixpoint insert_desc (x : reranked) (l : list reranked) : list reranked :=
  match l with
  | [] => [x]
  | y :: l' =>
      if (combined_score x <? combined_score y)%float
      then y :: insert_desc x l'
      else x :: y :: l'
  end.

Definition sorted_desc (l : list reranked) : list reranked :=
  fold_right insert_desc [] l.

(** [content] is the text of the completion requested at line 671; it is
    requested only when [initial_results] is not empty. *)
Definition _rerank_results (content : string)
    (initial_results : list passage) : result (list reranked) :=
  match initial_results with
  | [] => Ok []
  | _ :: _ =>
      let scores_text := PyStr.strip content in
      scores <- parse_scores (PyStr.split "010"%char scores_text) [] ;;
      let scores := pad_scores (List.length initial_results) scores in
      Ok (sorted_desc (score_results scores 0 initial_results))
  end.

(* ================================================================== *)
(** ** Compression driver ([_compress_context]) *)
(* ================================================================== *)

(** Lines 645-649. *)
Definition _count_tokens (text : string) : Z :=
  match text with
  | EmptyString => 0
  | _ => Z.of_nat (String.length text) / 4
  end.

(** What a run does that the specification counts: a run of the
    allocator, and a completion request of [_compress_component]. *)
Inductive event : Type :=
| Allocation (available_tokens : Z) (priorities : dict float)
             (initial_tokens : dict Z)
| Completion (component_name : string) (text : string) (max_tokens : Z).

(** A computation that may raise and that appends to the trace of events. *)
Definition io (A : Type) : Type := list event -> result A * list event.

Definition io_ret {A} (a : A) : io A := fun tr => (Ok a, tr).

Definition io_bind {A B} (m : io A) (k : A -> io B) : io B :=
  fun tr =>
    match m tr with
    | (Ok a, tr') => k a tr'
    | (Raise e, tr') => (Raise e, tr')
    end.

Definition io_lift {A} (r : result A) : io A := fun tr => (r, tr).

Definition io_emit (e : event) : io unit := fun tr => (Ok tt, tr ++ [e]).

Notation "x <~ m ;; k" := (io_bind m (fun x => k))
  (at level 61, m at next level, right associativity) : py_scope.

(** The five blocks and their size, as [_compress_context] returns them. *)
Record compressed : Type := {
  c_chunks : string;
  c_product_guidelines : string;
  c_design_guidelines : string;
  c_benchmarks : string;
  c_team_objectives : string;
  c_total_tokens : Z
}.

Definition sep2 : string := String "010"%char (String "010"%char EmptyString).

Section Selector.

(** [self.max_total_tokens] *)
Variable max_total_tokens : Z.

(** The text of the completion [_compress_component] requests, from the
    query, the component name, the text and the bound on its length. *)
Variable complete : string -> string -> string -> Z -> string.

(** Lines 586-631. *)
Definition _compress_component (query text component_name : string)
    (max_tokens : Z) : io string :=
  if _count_tokens text <=? max_tokens then io_ret text
  else
    _ <~ io_emit (Completion component_name text max_tokens) ;;
    io_ret (PyStr.strip (complete query component_name text max_tokens)).

(** One of the five blocks of lines 404-457:
    [if text and token_allocation[key] > 0: ... else ""]. *)
Definition compress_block (query text component_name key : string)
    (token_allocation : dict Z) : io string :=
  if PyStr.truthy text then
    n <~ io_lift (getitem token_allocation key) ;;
    if 0 <? n then _compress_component query text component_name n
    else io_ret EmptyString
  else io_ret EmptyString.

(** Lines 336-470. *)
Definition _compress_context (query : string) (chunks : list passage)
    (product_guidelines design_guidelines benchmarks team_objectives
       : list string)
    (objective : string) : io compressed :=
  let priorities := _get_priorities_by_objective objective in
  let chunks_text := PyStr.join sep2 (map text chunks) in
  let product_text := PyStr.join sep2 product_guidelines in
  let design_text := PyStr.join sep2 design_guidelines in
  let benchmarks_text := PyStr.join sep2 benchmarks in
  let objectives_text := PyStr.join sep2 team_objectives in
  let initial_tokens :=
    sources5 (_count_tokens chunks_text) (_count_tokens product_text)
             (_count_tokens design_text) (_count_tokens benchmarks_text)
             (_count_tokens objectives_text) in
  let total_initial_tokens := fold_left Z.add (values initial_tokens) 0 in
  if total_initial_tokens <=? max_total_tokens then
    io_ret {| c_chunks := chunks_text;
              c_product_guidelines := product_text;
              c_design_guidelines := design_text;
              c_benchmarks := benchmarks_text;
              c_team_objectives := objectives_text;
              c_total_tokens := total_initial_tokens |}
  else
    _ <~ io_emit (Allocation max_total_tokens priorities initial_tokens) ;;
    token_allocation <~
      io_lift (_allocate_tokens max_total_tokens priorities initial_tokens) ;;
    c <~ compress_block query chunks_text "chunks recuperados" "chunks"
                        token_allocation ;;
    p <~ compress_block query product_text "diretrizes de produto"
                        "product_guidelines" token_allocation ;;
    d <~ compress_block query design_text "diretrizes de design"
                        "design_guidelines" token_allocation ;;
    b <~ compress_block query benchmarks_text "benchmarks" "benchmarks"
                        token_allocation ;;
    o <~ compress_block query objectives_text "objetivos do time"
                        "team_objectives" token_allocation ;;
    io_ret {| c_chunks := c;
              c_product_guidelines := p;
              c_design_guidelines := d;
              c_benchmarks := b;
              c_team_objectives := o;
              c_total_tokens :=
                fold_left Z.add
                  [ _count_tokens c; _count_tokens p; _count_tokens d;
                    _count_tokens b; _count_tokens o ] 0 |}.

End Selector.

(* ================================================================== *)
(** ** Requests sent out by the pipeline *)
(* ================================================================== *)

(** A computation that may raise and that lists, in order, the requests
    it sends to the services it depends on. *)
Definition act (E A : Type) : Type := (result A * list E)%type.

Definition act_ret {E A} (a : A) : act E A := (Ok a, []).

Definition act_bind {E A B} (m : act E A) (k : A -> act E B) : act E B :=
  match m with
  | (Ok a, w) => let '(r, w') := k a in (r, w ++ w')
  | (Raise e, w) => (Raise e, w)
  end.

Definition act_lift {E A} (r : result A) : act E A := (r, []).

Definition act_emit {E} (e : E) : act E unit := (Ok tt, [e]).

Notation "x <~~ m ;; k" := (act_bind m (fun x => k))
  (at level 61, m at next level, right associativity) : py_scope.

Fixpoint act_mapM {E A B} (f : A -> act E B) (l : list A) : act E (list B) :=
  match l with
  | [] => act_ret []
  | x :: l' =>
      y <~~ f x ;;
      r <~~ act_mapM f l' ;;
      act_ret (y :: r)
  end.

(** [range(start, stop, step)] *)
Definition range3 (start stop step : Z) : result (list Z) :=
  if step =? 0 then Raise ValueError
  else
    let count :=
      if 0 <? step then (stop - start + step - 1) / step
      else (start - stop - step - 1) / (- step) in
    Ok (map (fun j => start + Z.of_nat j * step) (seq 0 (Z.to_nat count))).

(** A bound of a slice, brought into [0 .. n]. *)
Definition clamp (n i : Z) : Z :=
  if i <? 0 then Z.max 0 (i + n) else Z.min i n.

(** [l[i:j]] *)
Definition slice {A} (l : list A) (i j : Z) : list A :=
  let a := clamp (len l) i in
  let b := clamp (len l) j in
  firstn (Z.to_nat (b - a)) (skipn (Z.to_nat a) l).

(** [d.get(k, default)] *)
Definition dict_get_default {V} (d : dict V) (k : string) (default : V) : V :=
  match dict_get d k with
  | Some v => v
  | None => default
  end.

(* ================================================================== *)
(** ** The selector pipeline ([select_context]) *)
(* ================================================================== *)

(** The requests of [DynamicContextSelector]: the completion of
    [_classify_intent], a read of the guidelines repository, the
    completions of the two filters, and what [_compress_context] does. *)
Inductive call : Type :=
| ClassifyIntent (query : string)
| GetGuidelines (guideline_type : string)
| FilterSections (query : string) (sections : list string)
| FilterChunks (query : string) (chunks : list passage)
| Compress (e : event).

(** A computation on the trace of [_compress_context], run from an empty
    trace, as a computation that lists its requests. *)
Definition act_of_io {A} (m : io A) : act call A :=
  let '(r, events) := m [] in (r, map Compress events).

(** The dictionary [select_context] returns (lines 99-107). *)
Record selected : Type := {
  sc_objective : string;
  sc_chunks : string;
  sc_product_guidelines : string;
  sc_design_guidelines : string;
  sc_benchmarks : string;
  sc_team_objectives : string;
  sc_total_tokens : Z
}.

(** Line 143. *)
Definition valid_intents : list string :=
  ["informative"; "hypothesis"; "benchmark"; "objectives"]%string.

Section SelectContext.

(** [self.max_total_tokens] and [self.guidelines_repo]; the repository
    is [None] or answers [get_guidelines(guideline_type)]. *)
Variable max_total_tokens : Z.
Variable guidelines_repo : option (string -> list string).

(** The texts the completions return: for the classification of a
    query, for the filter of sections, for the filter of chunks and for
    a compression. *)
Variable classify_reply : string -> string.
Variable sections_reply : string -> list string -> string.
Variable chunks_reply : string -> list passage -> string.
Variable complete : string -> string -> string -> Z -> string.

(** Lines 109-147. *)
Definition _classify_intent (query : string) : act call string :=
  _ <~~ act_emit (ClassifyIntent query) ;;
  let intent := PyStr.lower (PyStr.strip (classify_reply query)) in
  act_ret (if existsb (String.eqb intent) valid_intents then intent
           else "informative"%string).

(** Lines 221-276 with their completion: none is requested for an empty
    list. *)
Definition filter_sections (query : string) (sections : list string)
  : act call (list string) :=
  match sections with
  | [] => act_ret []
  | _ :: _ =>
      _ <~~ act_emit (FilterSections query sections) ;;
      act_lift (_filter_relevant_sections (sections_reply query sections)
                                          sections)
  end.

(** Lines 278-334 with their completion: none is requested for five
    chunks or fewer. *)
Definition filter_chunks (query : string) (chunks : list passage)
  : act call (list passage) :=
  if len chunks <=? 5 then act_ret chunks
  else
    _ <~~ act_emit (FilterChunks query chunks) ;;
    act_lift (_filter_relevant_chunks (chunks_reply query chunks) chunks).

(** Lines 193-219. *)
Definition _get_relevant_guidelines (query guideline_type : string)
    (include : bool) : act call (list string) :=
  match include, guidelines_repo with
  | true, Some get_guidelines =>
      _ <~~ act_emit (GetGuidelines guideline_type) ;;
      let guidelines := get_guidelines guideline_type in
      filter_sections query guidelines
  | _, _ => act_ret []
  end.

(** Lines 44-107; [objective] is [None], or a string that counts as
    absent when it is empty. *)
Definition select_context (query : string) (retrieved_chunks : list passage)
    (objective : option string) : act call selected :=
  objective <~~
    match objective with
    | Some o => if PyStr.truthy o then act_ret o else _classify_intent query
    | None => _classify_intent query
    end ;;
  let relevant_sources := _select_relevant_sources objective in
  product_guidelines <~~
    _get_relevant_guidelines query "product"
      (dict_get_default relevant_sources "product_guidelines" false) ;;
  design_guidelines <~~
    _get_relevant_guidelines query "design"
      (dict_get_default relevant_sources "design_guidelines" false) ;;
  benchmarks <~~
    _get_relevant_guidelines query "benchmark"
      (dict_get_default relevant_sources "benchmarks" false) ;;
  team_objectives <~~
    _get_relevant_guidelines query "objectives"
      (dict_get_default relevant_sources "team_objectives" false) ;;
  filtered_chunks <~~ filter_chunks query retrieved_chunks ;;
  compressed_context <~~
    act_of_io (_compress_context max_total_tokens complete query
                 filtered_chunks product_guidelines design_guidelines
                 benchmarks team_objectives objective) ;;
  act_ret {| sc_objective := objective;
             sc_chunks := c_chunks compressed_context;
             sc_product_guidelines := c_product_guidelines compressed_context;
             sc_design_guidelines := c_design_guidelines compressed_context;
             sc_benchmarks := c_benchmarks compressed_context;
             sc_team_objectives := c_team_objectives compressed_context;
             sc_total_tokens := c_total_tokens compressed_context |}.

End SelectContext.

(* ================================================================== *)
(** ** Retrieval ([EnhancedRetriever]) *)
(* ================================================================== *)

Definition embedding : Type := list float.

#[local] Set Warnings "-register-all".

(** The [where] argument of a query of the vector index (lines 556-581):
    the empty dictionary, an equality on a path, a conjunction. *)
Inductive where_filter : Type :=
| WEmpty
| WEqual (path : list string) (valueString : string)
| WAnd (operands : list where_filter).

(** Lines 556-581. *)
Definition build_where_filter (filters : option (dict string))
  : option where_filter :=
  match filters with
  | Some f =>
      if nonempty f then
        let where_filter := WEmpty in
        let where_filter :=
          match dict_get f "type" with
          | Some v => WEqual ["type"%string] v
          | None => where_filter
          end in
        let where_filter :=
          match dict_get f "category" with
          | Some v =>
              let category_filter := WEqual ["category"%string] v in
              match dict_get f "type" with
              | Some _ => WAnd [where_filter; category_filter]
              | None => category_filter
              end
          | None => where_filter
          end in
        Some where_filter
      else None
  | None => None
  end.

(** One object of the answer to the query of line 584: the properties
    asked for, each possibly absent, and [_additional]. *)
Record hit : Type := {
  h_text : option string;
  h_title : option string;
  h_document_id : option string;
  h_document_title : option string;
  h_position : option float;
  h_type : option string;
  h_category : option string;
  h_additional : option (dict float)
}.

(** The requests of [EnhancedRetriever]. *)
Inductive rcall : Type :=
| EmbeddingsCreate (input : string)
| NearVector (vector : embedding) (where_ : option where_filter) (limit : Z)
| GetById (doc_id : string)
| RerankCompletion (query : string) (results : list passage).

(** [d[k]] on a property that may be absent. *)
Definition required {A} (key : string) (v : option A) : result A :=
  match v with
  | Some a => Ok a
  | None => Raise (KeyError key)
  end.

Definition or_default {A} (v : option A) (default : A) : A :=
  match v with
  | Some a => a
  | None => default
  end.

Section EnhancedRetriever.

(** The services: the embeddings of a text ([response.data]); the
    objects under [data.Get.<chunk_class>] of a nearest-neighbour query
    and those under [data.Get.<document_class>] of a query by
    identifier, [None] when the answer lacks that path; the text of the
    reranking completion. *)
Variable embeddings_create : string -> list embedding.
Variable near_vector :
  embedding -> option where_filter -> Z -> option (list hit).
Variable get_by_id : string -> option (list (dict string)).
Variable rerank_reply : string -> list passage -> string.

(** Lines 520-534. *)
Definition _generate_embedding (text : string) : act rcall embedding :=
  _ <~~ act_emit (EmbeddingsCreate text) ;;
  act_lift (list_getitem (embeddings_create text) 0).

(** Lines 613-631. *)
Definition _get_parent_document (doc_id : string)
  : act rcall (dict string) :=
  _ <~~ act_emit (GetById doc_id) ;;
  match get_by_id doc_id with
  | Some documents => act_lift (list_getitem documents 0)
  | None => act_ret []
  end.

(** Lines 596-609: the record built for one object of the answer. *)
Definition result_of_hit (chunk : hit) : act rcall passage :=
  doc_id <~~ act_lift (required "document_id" (h_document_id chunk)) ;;
  parent_doc <~~ _get_parent_document doc_id ;;
  chunk_text <~~ act_lift (required "text" (h_text chunk)) ;;
  act_ret
    {| text := chunk_text;
       title := or_default (h_title chunk) EmptyString;
       document_title :=
         or_default (h_document_title chunk)
                    (dict_get_default parent_doc "title" EmptyString);
       document_source := dict_get_default parent_doc "source" EmptyString;
       type_ :=
         or_default (h_type chunk) (dict_get_default parent_doc "type" EmptyString);
       category :=
         or_default (h_category chunk)
                    (dict_get_default parent_doc "category" EmptyString);
       position := or_default (h_position chunk) 0%float;
       similarity_score :=
         dict_get_default (or_default (h_additional chunk) [])
                          "score" 0%float |}.

(** Lines 536-611. *)
Definition _initial_retrieval (query : string) (query_embedding : embedding)
    (filters : option (dict string)) (top_k : Z)
  : act rcall (list passage) :=
  let where_filter := build_where_filter filters in
  _ <~~ act_emit (NearVector query_embedding where_filter top_k) ;;
  match near_vector query_embedding where_filter top_k with
  | Some chunks => act_mapM result_of_hit chunks
  | None => act_ret []
  end.

(** Lines 633-707 with their completion: none is requested for an empty
    list. *)
Definition rerank (query : string) (initial_results : list passage)
  : act rcall (list reranked) :=
  match initial_results with
  | [] => act_ret []
  | _ :: _ =>
      _ <~~ act_emit (RerankCompletion query initial_results) ;;
      act_lift (_rerank_results (rerank_reply query initial_results)
                                initial_results)
  end.

(** Lines 487-518. *)
Definition retrieve (query : string) (filters : option (dict string))
    (top_k rerank_top_k : Z) : act rcall (list reranked) :=
  query_embedding <~~ _generate_embedding query ;;
  initial_results <~~
    _initial_retrieval query query_embedding filters top_k ;;
  reranked_results <~~ rerank query initial_results ;;
  let final_results := slice reranked_results 0 rerank_top_k in
  act_ret final_results.

End EnhancedRetriever.

(* ================================================================== *)
(** ** Indexing ([HierarchicalIndexer]) *)
(* ================================================================== *)

(** [s[:n]] for [n >= 0] *)
Fixpoint str_prefix (n : nat) (s : string) : string :=
  match n, s with
  | S n', String c s' => String c (str_prefix n' s')
  | _, _ => EmptyString
  end.

(** The tags of a document: a list of strings or one string (line 291). *)
Inductive tags_value : Type :=
| TagList (tags : list string)
| TagText (tags : string).

(** A document as the indexer reads it: each key may be absent; the
    values are strings, the tags apart. *)
Record document : Type := {
  d_id : option string;
  d_title : option string;
  d_content : option string;
  d_source : option string;
  d_type : option string;
  d_category : option string;
  d_author : option string;
  d_created_at : option string;
  d_tags : option tags_value
}.

(** The metadata of a chunk, at the keys the indexer reads or sets. *)
Record metadata : Type := {
  m_section_title : option string;
  m_document_id : option string;
  m_document_title : option string;
  m_position : option float;
  m_type : option string;
  m_category : option string;
  m_tags : option (list string)
}.

Definition no_metadata : metadata :=
  {| m_section_title := None; m_document_id := None;
     m_document_title := None; m_position := None; m_type := None;
     m_category := None; m_tags := None |}.

(** A chunk: [id], [text] and [metadata] as the caller gives them,
    [embedding] and [document_id] as [index_document] sets them on its
    copy. *)
Record chunk_record : Type := {
  ch_id : option string;
  ch_text : option string;
  ch_metadata : option metadata;
  ch_embedding : option embedding;
  ch_document_id : option string
}.

(** A value of a property of a stored object, and its truth value. *)
Inductive value : Type :=
| VStr (s : string)
| VNum (x : float)
| VList (l : list string).

Definition truthy_value (v : value) : bool :=
  match v with
  | VStr s => PyStr.truthy s
  | VNum x => negb (x =? 0)%float
  | VList l => nonempty l
  end.

Definition value_of_tags (t : tags_value) : value :=
  match t with
  | TagList l => VList l
  | TagText s => VStr s
  end.

(** The requests of [HierarchicalIndexer]: the embedding of one text
    or of a list of texts, the creation of an object, the query for the
    chunks of a document, the deletion of an object. *)
Inductive icall : Type :=
| EmbeddingsCreateText (input : string)
| EmbeddingsCreateBatch (input : list string)
| CreateObject (properties : dict value) (class_name : string)
               (uuid : string) (vector : embedding)
| ChunksOfDocument (document_id : string)
| DeleteObject (class_name : string) (uuid : string).

(** What [index_document] returns. *)
Record indexed : Type := {
  ix_document_id : string;
  ix_chunk_ids : list string;
  ix_chunks_count : Z
}.

Definition nl : string := String "010"%char EmptyString.

(** Lines 267-299. *)
Definition _create_document_summary (document : document) : string :=
  let title := or_default (d_title document) EmptyString in
  let content := or_default (d_content document) EmptyString in
  let summary := (title ++ nl ++ nl)%string in
  let summary :=
    match d_type document with
    | Some t => (summary ++ "Type: " ++ t ++ nl)%string
    | None => summary
    end in
  let summary :=
    match d_category document with
    | Some c => (summary ++ "Category: " ++ c ++ nl)%string
    | None => summary
    end in
  let summary :=
    match d_tags document with
    | Some t =>
        if truthy_value (value_of_tags t) then
          let tags :=
            match t with
            | TagList l => PyStr.join ", " l
            | TagText s => s
            end in
          (summary ++ "Tags: " ++ tags ++ nl)%string
        else summary
    | None => summary
    end in
  let summary := (summary ++ nl ++ str_prefix 1000 content)%string in
  if 1000 <? Z.of_nat (String.length content)
  then (summary ++ "...")%string
  else summary.

(** Lines 335 and 379: [{k: v for k, v in properties.items() if v}] *)
Definition drop_empty (properties : dict value) : dict value :=
  filter (fun kv => truthy_value (snd kv)) properties.

(** What [delete_document] returns. *)
Record deletion : Type := {
  del_document_id : string;
  del_chunks_deleted : Z;
  del_success : bool
}.

Module HierarchicalIndexer.

Section Indexer.

(** [self.document_class], [self.chunk_class]; the embeddings the
    service answers with, for one text and for a list of texts, one per
    item of [response.data]; the identifier derived from a string
    ([generate_uuid5]) and the random ones ([uuid.uuid4]), numbered in
    the order in which they are drawn; the objects under
    [data.Get.<chunk_class>] of the query for the chunks of a document,
    each with its ["id"] if it has one, [None] when the answer lacks
    that path. *)
Variable document_class : string.
Variable chunk_class : string.
Variable embeddings_create : string -> list embedding.
Variable embeddings_create_batch : list string -> list embedding.
Variable generate_uuid5 : string -> string.
Variable uuid4 : nat -> string.
Variable chunks_of_document : string -> option (list (option string)).

(** Lines 222-236. *)
Definition _generate_embedding (text : string)
  : act icall embedding :=
  _ <~~ act_emit (EmbeddingsCreateText text) ;;
  act_lift (list_getitem (embeddings_create text) 0).

(** Lines 238-265. *)
Definition _generate_embeddings_batch (texts : list string)
    (batch_size : Z) : act icall (list embedding) :=
  starts <~~ act_lift (range3 0 (len texts) batch_size) ;;
  batches <~~
    act_mapM (fun i =>
                let batch := slice texts i (i + batch_size) in
                _ <~~ act_emit (EmbeddingsCreateBatch batch) ;;
                let batch_embeddings := embeddings_create_batch batch in
                act_ret batch_embeddings)
             starts ;;
  act_ret (List.concat batches).

(** Lines 317-320 and 358-361; [drawn] counts the random identifiers
    drawn so far. *)
Definition uuid_of (id : option string) (drawn : nat) : string * nat :=
  match id with
  | Some i => (generate_uuid5 i, drawn)
  | None => (uuid4 drawn, S drawn)
  end.

(** Lines 301-345. *)
Definition _index_document_entry (document : document)
    (embedding : embedding) (drawn : nat) : act icall (string * nat) :=
  let '(doc_uuid, drawn) := uuid_of (d_id document) drawn in
  let properties :=
    [ ("title"%string, VStr (or_default (d_title document) EmptyString));
      ("summary"%string, VStr (_create_document_summary document));
      ("source"%string, VStr (or_default (d_source document) EmptyString));
      ("type"%string, VStr (or_default (d_type document) EmptyString));
      ("category"%string,
        VStr (or_default (d_category document) EmptyString));
      ("author"%string, VStr (or_default (d_author document) EmptyString));
      ("created_at"%string,
        VStr (or_default (d_created_at document) EmptyString));
      ("tags"%string,
        match d_tags document with
        | Some t => value_of_tags t
        | None => VList []
        end) ] in
  let properties := drop_empty properties in
  _ <~~ act_emit (CreateObject properties document_class doc_uuid embedding) ;;
  act_ret (doc_uuid, drawn).

(** Lines 347-389. *)
Definition _index_chunk_entry (chunk : chunk_record) (drawn : nat)
  : act icall (string * nat) :=
  let '(chunk_uuid, drawn) := uuid_of (ch_id chunk) drawn in
  let metadata := or_default (ch_metadata chunk) no_metadata in
  chunk_text <~~ act_lift (required "text" (ch_text chunk)) ;;
  let properties :=
    [ ("text"%string, VStr chunk_text);
      ("title"%string,
        VStr (or_default (m_section_title metadata) EmptyString));
      ("document_id"%string,
        VStr (or_default (m_document_id metadata) EmptyString));
      ("document_title"%string,
        VStr (or_default (m_document_title metadata) EmptyString));
      ("position"%string, VNum (or_default (m_position metadata) 0%float));
      ("type"%string, VStr (or_default (m_type metadata) EmptyString));
      ("category"%string,
        VStr (or_default (m_category metadata) EmptyString));
      ("tags"%string, VList (or_default (m_tags metadata) [])) ] in
  let properties := drop_empty properties in
  vector <~~ act_lift (required "embedding" (ch_embedding chunk)) ;;
  _ <~~ act_emit (CreateObject properties chunk_class chunk_uuid vector) ;;
  act_ret (chunk_uuid, drawn).

(** Lines 192-208: the copy of a chunk that is indexed. *)
Definition chunk_with_embedding (document : document) (doc_id : string)
    (embedding : embedding) (chunk : chunk_record) : chunk_record :=
  let metadata := or_default (ch_metadata chunk) no_metadata in
  let metadata :=
    {| m_section_title := m_section_title metadata;
       m_document_id := Some doc_id;
       m_document_title :=
         Some (or_default (d_title document) EmptyString);
       m_position := m_position metadata;
       m_type :=
         match m_type metadata, d_type document with
         | None, Some t => Some t
         | own, _ => own
         end;
       m_category :=
         match m_category metadata, d_category document with
         | None, Some c => Some c
         | own, _ => own
         end;
       m_tags := m_tags metadata |} in
  {| ch_id := ch_id chunk;
     ch_text := ch_text chunk;
     ch_metadata := Some metadata;
     ch_embedding := Some embedding;
     ch_document_id := Some doc_id |}.

(** Lines 190-211: the loop over [enumerate(chunks)]. *)
Fixpoint index_chunks (document : document) (doc_id : string)
    (chunk_embeddings : list embedding) (i : Z) (chunks : list chunk_record)
    (chunk_ids : list string) (drawn : nat) : act icall (list string * nat) :=
  match chunks with
  | [] => act_ret (chunk_ids, drawn)
  | chunk :: rest =>
      embedding <~~ act_lift (list_getitem chunk_embeddings i) ;;
      r <~~ _index_chunk_entry
              (chunk_with_embedding document doc_id embedding chunk) drawn ;;
      let '(chunk_id, drawn) := r in
      index_chunks document doc_id chunk_embeddings (i + 1) rest
                   (chunk_ids ++ [chunk_id]) drawn
  end.

(** Lines 161-220.  The metadata of the copy is the dictionary of the
    caller's chunk, updated in place; what is modelled is what the call
    sends and returns. *)
Definition index_document (document : document) (chunks : list chunk_record)
    (drawn : nat) : act icall (indexed * nat) :=
  let doc_summary := _create_document_summary document in
  doc_embedding <~~ _generate_embedding doc_summary ;;
  r <~~ _index_document_entry document doc_embedding drawn ;;
  let '(doc_id, drawn) := r in
  chunk_texts <~~
    act_lift (mapM (fun chunk => required "text" (ch_text chunk)) chunks) ;;
  chunk_embeddings <~~ _generate_embeddings_batch chunk_texts 100 ;;
  r <~~ index_chunks document doc_id chunk_embeddings 0 chunks [] drawn ;;
  let '(chunk_ids, drawn) := r in
  act_ret ({| ix_document_id := doc_id;
              ix_chunk_ids := chunk_ids;
              ix_chunks_count := len chunks |}, drawn).

(** Lines 432-437: the loop over the chunks found. *)
Fixpoint delete_chunks (chunks : list (option string)) (chunks_deleted : Z)
  : act icall Z :=
  match chunks with
  | [] => act_ret chunks_deleted
  | chunk :: rest =>
      chunk_id <~~ act_lift (required "id" chunk) ;;
      _ <~~ act_emit (DeleteObject chunk_class chunk_id) ;;
      delete_chunks rest (chunks_deleted + 1)
  end.

(** Lines 408-449. *)
Definition delete_document (document_id : string) : act icall deletion :=
  _ <~~ act_emit (ChunksOfDocument document_id) ;;
  let chunks_deleted := 0 in
  chunks_deleted <~~
    match chunks_of_document document_id with
    | Some chunks => delete_chunks chunks chunks_deleted
    | None => act_ret chunks_deleted
    end ;;
  _ <~~ act_emit (DeleteObject document_class document_id) ;;
  act_ret {| del_document_id := document_id;
             del_chunks_deleted := chunks_deleted;
             del_success := true |}.

End Indexer.

End HierarchicalIndexer.

(* ================================================================== *)
(** ** Chunks of a section ([SemanticChunker._chunk_section]) *)
(* ================================================================== *)

(** [l[i:]] *)
Definition slice_from {A} (l : list A) (i : Z) : list A :=
  skipn (Z.to_nat (clamp (len l) i)) l.

(** A chunk as [_chunk_section] builds it: [{"title": ..., "content": ...}]. *)
Record section_chunk : Type := {
  k_title : string;
  k_content : string
}.

Section SemanticChunker.

(** [self.max_tokens]; [self.tokenizer.encode]; the paragraphs of a text
    (lines 205-219, a regular expression). *)
Variable max_tokens : Z.
Variable encode : string -> list Z.
Variable _split_into_paragraphs : string -> list string.

(** Lines 180-201: the loop over the paragraphs and the last chunk. *)
Fixpoint group_paragraphs (section_title : string) (paragraphs : list string)
    (chunks : list section_chunk) (current_chunk : list string)
    (current_tokens : Z) : list section_chunk :=
  match paragraphs with
  | [] =>
      if nonempty current_chunk then
        let chunk_content := PyStr.join sep2 current_chunk in
        chunks ++ [{| k_title := section_title; k_content := chunk_content |}]
      else chunks
  | para :: rest =>
      let para_tokens := encode para in
      let '(chunks, current_chunk, current_tokens) :=
        if (max_tokens <? current_tokens + len para_tokens)
           && nonempty current_chunk
        then
          let chunk_content := PyStr.join sep2 current_chunk in
          let chunks :=
            chunks ++ [{| k_title := section_title;
                          k_content := chunk_content |}] in
          let overlap_start := Z.max 0 (len current_chunk - 1) in
          let current_chunk := slice_from current_chunk overlap_start in
          let current_tokens :=
            fold_left Z.add (map (fun p => len (encode p)) current_chunk) 0 in
          (chunks, current_chunk, current_tokens)
        else (chunks, current_chunk, current_tokens) in
      group_paragraphs section_title rest chunks (current_chunk ++ [para])
                       (current_tokens + len para_tokens)
  end.

(** Lines 150-203. *)
Definition _chunk_section (section_title section_content : string)
  : list section_chunk :=
  let tokens := encode section_content in
  if len tokens <=? max_tokens then
    [{| k_title := section_title; k_content := section_content |}]
  else
    let paragraphs := _split_into_paragraphs section_content in
    group_paragraphs section_title paragraphs [] [] 0.

End SemanticChunker.

(* ================================================================== *)
(** ** Vocabulary of the statements *)
(* ================================================================== *)

(** Signs of a weight, with the comparisons of Python. *)
Definition is_zero (w : float) : Prop := (w =? 0)%float = true.
Definition is_nonneg (w : float) : Prop := (0 <=? w)%float = true.
Definition is_pos (w : float) : Prop := (0 <? w)%float = true.

(** A value that is a number: NaN is the one value not equal to itself. *)
Definition not_nan (x : float) : Prop := (x =? x)%float = true.

(** The same on the unpacked form of a binary64 value. *)
Definition SF_zero (x : spec_float) : Prop :=
  match x with
  | S754_zero _ => True
  | _ => False
  end.

Definition SF_nonneg (x : spec_float) : Prop :=
  match x with
  | S754_zero _ => True
  | S754_infinity s | S754_finite s _ _ => s = false
  | S754_nan => False
  end.

Definition SF_pos (x : spec_float) : Prop :=
  match x with
  | S754_infinity s | S754_finite s _ _ => s = false
  | _ => False
  end.

Definition SF_not_nan (x : spec_float) : Prop :=
  match x with
  | S754_nan => False
  | _ => True
  end.

(** An allocation as the dictionary it is returned as. *)
Definition rendered (ks : list string) (r : result alloc) : result (dict Z) :=
  a <- r ;; Ok (render ks a).

(** An index that [0 <= idx < n] accepts. *)
Definition in_range (n idx : Z) : bool := (0 <=? idx) && (idx <? n).

(** The items at the given indices, in the order of the indices. *)
Definition pick {A} (items : list A) (idxs : list Z) : list A :=
  flat_map (fun i => match nth_error items (Z.to_nat i) with
                     | Some x => [x]
                     | None => []
                     end) idxs.

(** What a reply whose parts convert to [vs] selects: item [v - 1] for
    each [v] between 1 and the number of items, in the order of [vs]. *)
Definition selection {A} (items : list A) (vs : list Z) : list A :=
  pick items (filter (in_range (len items)) (map (fun v => v - 1) vs)).

(** Whether [l1] is a subsequence of [l2]. *)
Fixpoint subseqb (l1 l2 : list string) : bool :=
  match l1, l2 with
  | [], _ => true
  | _ :: _, [] => false
  | x :: l1', y :: l2' =>
      if String.eqb x y then subseqb l1' l2' else subseqb l1 l2'
  end.

(** The scores a reply holds: the lines that convert, in order. *)
Definition numeric_lines (lines : list string) : list float :=
  flat_map (fun line => match PyStr.to_float (PyStr.strip line) with
                        | Ok score => [score]
                        | Raise _ => []
                        end) lines.

(** The record at index [i] with its scores: the [i]-th score of the
    reply, 0 when the reply has no [i]-th score. *)
Definition scored_at (scores : list float) (i : nat) (r : passage)
  : reranked :=
  let s := nth i scores 0%float in
  {| base := r;
     rerank_score := s;
     combined_score := (0.3 * similarity_score r + 0.7 * (s / 10))%float |}.

Fixpoint scored_from (scores : list float) (i : nat) (results : list passage)
  : list reranked :=
  match results with
  | [] => []
  | r :: rest => scored_at scores i r :: scored_from scores (S i) rest
  end.

(** Descending order of the combined score. *)
Definition combined_ge (x y : reranked) : Prop :=
  (combined_score y <=? combined_score x)%float = true.

(** No record is directly followed by one of larger combined score. *)
Fixpoint no_ascent (l : list reranked) : bool :=
  match l with
  | x :: (y :: _) as l' =>
      negb (combined_score x <? combined_score y)%float && no_ascent l'
  | _ => true
  end.

(** Sample inputs. *)

(** The decimal numeral made of [n] digits 9. *)
Definition nines (n : nat) : string :=
  string_of_list_ascii (repeat "9"%char n).

Definition sample_passage (body : string) : passage :=
  {| text := body; title := ""; document_title := ""; document_source := "";
     type_ := ""; category := ""; position := 0%float;
     similarity_score := 0.5%float |}.

Definition sample_weights : dict float :=
  sources5 0.5%float 0.125%float 0.125%float 0.125%float 0.125%float.

Definition sample_allocation : alloc :=
  match proportional_allocation 6000 sample_weights sample_weights with
  | Ok a => a
  | Raise _ => fun _ => 0
  end.

(** The five blocks of a result, by source. *)
Definition blocks (c : compressed) : dict string :=
  sources5 (c_chunks c) (c_product_guidelines c) (c_design_guidelines c)
           (c_benchmarks c) (c_team_objectives c).

Definition sc_blocks (s : selected) : dict string :=
  sources5 (sc_chunks s) (sc_product_guidelines s) (sc_design_guidelines s)
           (sc_benchmarks s) (sc_team_objectives s).

(** A completion request that asks for a text to be shortened to a
    positive number of tokens below its estimate. *)
Definition compresses (e : event) : bool :=
  match e with
  | Completion _ text max_tokens =>
      (0 <? max_tokens) && (max_tokens <? _count_tokens text)
  | Allocation _ _ _ => false
  end.

(** [tr'] is [tr] with at most [n] compression requests added. *)
Definition reaches (n : nat) (tr tr' : list event) : Prop :=
  exists es, tr' = tr ++ es /\ (List.length es <= n)%nat /\
             forallb compresses es = true.

(** The guideline types [select_context] asks the repository for, each
    with the source it fills. *)
Definition guideline_sources : list (string * string) :=
  [ ("product"%string, "product_guidelines"%string);
    ("design"%string, "design_guidelines"%string);
    ("benchmark"%string, "benchmarks"%string);
    ("objectives"%string, "team_objectives"%string) ].

Definition is_classification (e : call) : bool :=
  match e with
  | ClassifyIntent _ => true
  | _ => false
  end.

Definition is_guidelines_request (guideline_type : string) (e : call) : bool :=
  match e with
  | GetGuidelines t => String.eqb t guideline_type
  | _ => false
  end.

(** A result of [select_context] on the single chunk [abcdefgh]. *)
Definition sample_selected (objective product : string) (total : Z)
  : selected :=
  {| sc_objective := objective; sc_chunks := "abcdefgh";
     sc_product_guidelines := product; sc_design_guidelines := "";
     sc_benchmarks := ""; sc_team_objectives := "";
     sc_total_tokens := total |}.

(** A hit of the vector index, of document [d1], and a retrieval that
    finds two of them and keeps one. *)
Definition sample_hit (body : string) : hit :=
  {| h_text := Some body; h_title := None; h_document_id := Some "d1"%string;
     h_document_title := None; h_position := None; h_type := None;
     h_category := None; h_additional := Some [("score"%string, 0.5%float)] |}.

Definition sample_retrieve
    (get_by_id : string -> option (list (dict string)))
  : act rcall (list reranked) :=
  retrieve (fun _ => [[0.5%float]])
           (fun _ _ _ => Some [sample_hit "a"; sample_hit "b"])
           get_by_id
           (fun _ _ => "1
9"%string)
           "consulta" None 20 1.

Definition sample_parent (doc_id : string) : option (list (dict string)) :=
  Some [[("title"%string, "Doc"%string)]].

Definition sample_retrieved : list reranked :=
  match fst (sample_retrieve sample_parent) with
  | Ok out => out
  | Raise _ => []
  end.

(** Groups of paragraphs put end to end, the first paragraph of every
    group after the first left out. *)
Definition without_overlap (groups : list (list string)) : list string :=
  match groups with
  | [] => []
  | g :: rest => g ++ flat_map (@tl string) rest
  end.

(** Every group after the first starts with the last paragraph of the
    group before it. *)
Fixpoint chained (groups : list (list string)) : Prop :=
  match groups with
  | g :: (g' :: _) as rest =>
      hd EmptyString g' = last g EmptyString /\ chained rest
  | _ => True
  end.

(** The number of tokens of a group of paragraphs, paragraph by
    paragraph. *)
Definition group_tokens (encode : string -> list Z) (g : list string) : Z :=
  fold_left Z.add (map (fun p => len (encode p)) g) 0.

(** The objects a run creates: class and identifier, in order. *)
Definition objects (tr : list icall) : list (string * string) :=
  flat_map (fun c => match c with
                     | CreateObject _ class_name uuid _ => [(class_name, uuid)]
                     | _ => []
                     end) tr.

(** A request that stores no object, or an object whose [document_id]
    is [doc_id]. *)
Definition links_to (doc_id : string) (c : icall) : Prop :=
  match c with
  | CreateObject properties _ _ _ =>
      dict_get properties "document_id" = Some (VStr doc_id)
  | _ => True
  end.

(** A request that stores no object, or an object all of whose
    properties have a true truth value. *)
Definition stores_no_empty_value (c : icall) : bool :=
  match c with
  | CreateObject properties _ _ _ =>
      forallb (fun kv => truthy_value (snd kv)) properties
  | _ => true
  end.

(** A document and two chunks of it, the first at position 0. *)
Definition sample_document : document :=
  {| d_id := Some "doc"%string; d_title := Some "Guia"%string;
     d_content := Some "texto"%string; d_source := None;
     d_type := Some "guideline"%string; d_category := None;
     d_author := None; d_created_at := None; d_tags := None |}.

Definition sample_chunk (id body : string) (position : float)
  : chunk_record :=
  {| ch_id := Some id; ch_text := Some body;
     ch_metadata :=
       Some {| m_section_title := None; m_document_id := None;
               m_document_title := None; m_position := Some position;
               m_type := None; m_category := None; m_tags := None |};
     ch_embedding := None; ch_document_id := None |}.

Definition sample_index (chunks : list chunk_record)
  : act icall (indexed * nat) :=
  HierarchicalIndexer.index_document "Document" "Chunk"
                 (fun _ => [[0.5%float]])
                 (map (fun _ => [0.25%float]))
                 (fun id => ("u-" ++ id)%string) (fun _ => "random"%string)
                 sample_document chunks 0.

Definition sample_chunks : list chunk_record :=
  [sample_chunk "c0" "primeiro" 0%float; sample_chunk "c1" "segundo" 0.5%float].

Definition sample_indexed : indexed :=
  {| ix_document_id := "u-doc";
     ix_chunk_ids := ["u-c0"%string; "u-c1"%string];
     ix_chunks_count := 2 |}.

(** One token per character. *)
Definition sample_encode (s : string) : list Z :=
  repeat 0 (String.length s).

(* ================================================================== *)
(** * Properties *)
(* ================================================================== *)

(* ------------------------------------------------------------------ *)
(** ** Facts on binary64 values *)

Module FloatFacts.

Lemma is_zero_SF w : is_zero w <-> SF_zero (Prim2SF w).
Proof.
  unfold is_zero. rewrite eqb_spec.
  change (Prim2SF 0) with (S754_zero false).
  destruct (Prim2SF w) as [s|s| |s m e]; cbn;
    try (destruct s); intuition discriminate.
Qed.

Lemma is_nonneg_SF w : is_nonneg w <-> SF_nonneg (Prim2SF w).
Proof.
  unfold is_nonneg. rewrite leb_spec.
  change (Prim2SF 0) with (S754_zero false).
  destruct (Prim2SF w) as [s|s| |s m e]; cbn;
    try (destruct s); intuition discriminate.
Qed.

Lemma is_pos_SF w : is_pos w <-> SF_pos (Prim2SF w).
Proof.
  unfold is_pos. rewrite ltb_spec.
  change (Prim2SF 0) with (S754_zero false).
  destruct (Prim2SF w) as [s|s| |s m e]; cbn;
    try (destruct s); intuition discriminate.
Qed.

Lemma is_zero_dec w : {is_zero w} + {~ is_zero w}.
Proof.
  unfold is_zero. destruct (w =? 0)%float; [left|right]; congruence.
Qed.

Lemma is_zero_cases w : is_zero w -> w = 0%float \/ w = (-0)%float.
Proof.
  intros H. apply is_zero_SF in H.
  rewrite <- (SF2Prim_Prim2SF w).
  destruct (Prim2SF w) as [[|]| | |]; try contradiction;
    [right|left]; reflexivity.
Qed.

Lemma is_zero_nonneg w : is_zero w -> is_nonneg w.
Proof.
  rewrite is_zero_SF, is_nonneg_SF. destruct (Prim2SF w); cbn; tauto.
Qed.

Lemma is_pos_nonneg w : is_pos w -> is_nonneg w.
Proof.
  rewrite is_pos_SF, is_nonneg_SF. destruct (Prim2SF w); cbn; tauto.
Qed.

Lemma is_pos_not_zero w : is_pos w -> ~ is_zero w.
Proof.
  rewrite is_pos_SF, is_zero_SF. destruct (Prim2SF w); cbn; tauto.
Qed.

Lemma nonneg_not_zero_pos w : is_nonneg w -> ~ is_zero w -> is_pos w.
Proof.
  rewrite is_pos_SF, is_zero_SF, is_nonneg_SF.
  destruct (Prim2SF w); cbn; tauto.
Qed.

Lemma zero_ltb_pos a b : is_zero a -> is_pos b -> (a <? b)%float = true.
Proof.
  rewrite is_zero_SF, is_pos_SF, ltb_spec.
  destruct (Prim2SF a), (Prim2SF b); cbn; intros Ha Hb;
    try contradiction; subst; reflexivity.
Qed.

Lemma pos_ltb_zero a b : is_pos a -> is_zero b -> (a <? b)%float = false.
Proof.
  rewrite is_zero_SF, is_pos_SF, ltb_spec.
  destruct (Prim2SF a), (Prim2SF b); cbn; intros Ha Hb;
    try contradiction; subst; reflexivity.
Qed.

(** *** Sign of a rounded sum *)

Lemma shr_1_nonneg mrs : 0 <= shr_m mrs -> 0 <= shr_m (shr_1 mrs).
Proof.
  destruct mrs as [m r s]; destruct m as [|[p|p|]|[p|p|]]; cbn; lia.
Qed.

Lemma iter_pos_shr_1_nonneg p mrs :
  0 <= shr_m mrs -> 0 <= shr_m (iter_pos shr_1 p mrs).
Proof.
  revert mrs; induction p as [p IH|p IH|]; intros mrs H; cbn.
  - apply IH, IH, shr_1_nonneg, H.
  - apply IH, IH, H.
  - apply shr_1_nonneg, H.
Qed.

Lemma shr_fexp_nonneg m e l :
  0 <= m -> 0 <= shr_m (fst (shr_fexp prec emax m e l)).
Proof.
  intros H. unfold shr_fexp, shr.
  assert (H0 : 0 <= shr_m (shr_record_of_loc m l))
    by (destruct l as [|[ | | ]]; exact H).
  destruct (fexp prec emax (Zdigits2 m + e) - e); cbn [fst]; auto.
  apply iter_pos_shr_1_nonneg, H0.
Qed.

Lemma round_nearest_even_nonneg m l : 0 <= m -> 0 <= round_nearest_even m l.
Proof.
  intros H. destruct l as [|[ | | ]]; cbn; try lia.
  destruct (Z.even m); lia.
Qed.

Lemma binary_round_aux_nonneg mx ex lx :
  0 <= mx -> SF_nonneg (binary_round_aux prec emax false mx ex lx).
Proof.
  intros H. unfold binary_round_aux.
  pose proof (shr_fexp_nonneg mx ex lx H) as H1.
  destruct (shr_fexp prec emax mx ex lx) as [mrs' e']. cbn [fst] in H1.
  pose proof (shr_fexp_nonneg _ e' loc_Exact
                (round_nearest_even_nonneg _ (loc_of_shr_record mrs') H1))
    as H2.
  destruct (shr_fexp prec emax _ e' loc_Exact) as [mrs'' e''].
  cbn [fst] in H2.
  destruct (shr_m mrs'') as [|m|m]; try lia; [exact I|].
  destruct (e'' <=? emax - prec); reflexivity.
Qed.

Lemma binary_normalize_nonneg m e :
  0 <= m -> SF_nonneg (binary_normalize prec emax m e false).
Proof.
  intros H. destruct m as [|p|p]; [exact I| |lia].
  cbn [binary_normalize]. unfold binary_round.
  destruct (shl_align _ _ _) as [mz ez].
  apply binary_round_aux_nonneg. lia.
Qed.

Lemma SFadd_nonneg x y :
  SF_nonneg x -> SF_nonneg y -> SF_nonneg (SFadd prec emax x y).
Proof.
  destruct x as [sx|sx| |sx mx ex], y as [sy|sy| |sy my ey]; cbn;
    intros Hx Hy; subst; try contradiction; try reflexivity;
    try (destruct sx, sy; exact I).
  apply binary_normalize_nonneg. cbn [cond_Zopp]. lia.
Qed.

Lemma add_nonneg x y : is_nonneg x -> is_nonneg y -> is_nonneg (x + y)%float.
Proof.
  rewrite !is_nonneg_SF, add_spec. apply SFadd_nonneg.
Qed.

(** *** [sum] over weights *)

Lemma fold_add_nonneg xs acc :
  is_nonneg acc -> Forall is_nonneg xs ->
  is_nonneg (fold_left PrimFloat.add xs acc).
Proof.
  revert acc; induction xs as [|x xs IH]; intros acc Ha Hxs; cbn; auto.
  inversion Hxs; subst. apply IH; auto using add_nonneg.
Qed.

Lemma sum_nonneg xs : Forall is_nonneg xs -> is_nonneg (PyFloat.sum xs).
Proof. apply fold_add_nonneg. reflexivity. Qed.

Lemma sum_zeros xs : Forall is_zero xs -> PyFloat.sum xs = 0%float.
Proof.
  unfold PyFloat.sum. induction xs as [|x xs IH]; intros H; cbn; auto.
  inversion H as [|? ? Hx Hxs]; subst.
  destruct (is_zero_cases x Hx); subst; apply IH, Hxs.
Qed.

Lemma sum_not_zero xs :
  ~ is_zero (PyFloat.sum xs) -> exists x, In x xs /\ ~ is_zero x.
Proof.
  intros H.
  destruct (Forall_Exists_dec is_zero is_zero_dec xs) as [Hall|Hex].
  - exfalso. apply H. rewrite (sum_zeros xs Hall). reflexivity.
  - apply Exists_exists in Hex. exact Hex.
Qed.

Lemma sum_pos xs :
  Forall is_nonneg xs -> ~ is_zero (PyFloat.sum xs) -> is_pos (PyFloat.sum xs).
Proof.
  intros Hn Hz. apply nonneg_not_zero_pos; auto using sum_nonneg.
Qed.

(** *** The share of a weight that is zero *)

Lemma truediv_Ok x y q :
  PyFloat.truediv x y = Ok q -> ~ is_zero y /\ q = (x / y)%float.
Proof.
  unfold PyFloat.truediv, is_zero. destruct (y =? 0)%float; intros H.
  - discriminate.
  - injection H as <-. split; congruence.
Qed.

Lemma truediv_zero x y :
  is_zero y -> PyFloat.truediv x y = Raise ZeroDivisionError.
Proof. unfold PyFloat.truediv, is_zero. intros ->. reflexivity. Qed.

Lemma zero_share w total n q x v :
  is_zero w ->
  PyFloat.truediv w total = Ok q ->
  PyFloat.mul_int q n = Ok x ->
  PyFloat.to_int x = Ok v ->
  v = 0.
Proof.
  intros Hw Hq Hx Hv.
  apply truediv_Ok in Hq. destruct Hq as [Ht ->].
  rewrite is_zero_SF in Hw, Ht.
  unfold PyFloat.mul_int, PyFloat.of_int in Hx.
  set (y := SF2Prim (binary_normalize prec emax n 0 false)) in Hx.
  destruct (Prim2SF y) as [sy|sy| |sy my ey] eqn:Ey; cbn in Hx;
    try discriminate; injection Hx as <-;
    unfold PyFloat.to_int in Hv; rewrite mul_spec, div_spec, Ey in Hv;
    destruct (Prim2SF w) as [sw|sw| |sw mw ew]; try contradiction;
    destruct (Prim2SF total) as [st|st| |st mt et]; try contradiction;
    cbn in Hv; congruence.
Qed.

End FloatFacts.
(* ------------------------------------------------------------------ *)
(** ** Facts on the run-time model *)

Import FloatFacts.

Lemma bind_Ok {A B} (m : result A) (k : A -> result B) b :
  bind m k = Ok b -> exists a, m = Ok a /\ k a = Ok b.
Proof. destruct m; cbn; intros H; [eauto|discriminate]. Qed.

Tactic Notation "inv_bind" hyp(H) "as" ident(a) ident(E) :=
  apply bind_Ok in H; destruct H as [a [E H]].

Ltac inv_Ok H := injection H as H; try subst.

Lemma filterM_In {A} (f : A -> result bool) l r :
  filterM f l = Ok r -> forall x, In x r -> In x l /\ f x = Ok true.
Proof.
  revert r; induction l as [|y l IH]; cbn; intros r H x Hx.
  - inv_Ok H. contradiction.
  - inv_bind H as b Eb. inv_bind H as r' Er. inv_Ok H.
    destruct b.
    + destruct Hx as [<-|Hx]; [auto|].
      destruct (IH _ Er x Hx); auto.
    + destruct (IH _ Er x Hx); auto.
Qed.

Lemma filterM_kept {A} (f : A -> result bool) l r :
  filterM f l = Ok r -> forall x, In x l -> f x = Ok true -> In x r.
Proof.
  revert r; induction l as [|y l IH]; cbn; intros r H x Hx Hf.
  - contradiction.
  - inv_bind H as b Eb. inv_bind H as r' Er. inv_Ok H.
    destruct Hx as [<-|Hx].
    + rewrite Hf in Eb. inv_Ok Eb. left; reflexivity.
    + destruct b; [right|]; eapply IH; eauto.
Qed.

Lemma filterM_defined {A} (f : A -> result bool) l r :
  filterM f l = Ok r -> forall x, In x l -> exists b, f x = Ok b.
Proof.
  revert r; induction l as [|y l IH]; cbn; intros r H x Hx.
  - contradiction.
  - inv_bind H as b Eb. inv_bind H as r' Er.
    destruct Hx as [<-|Hx]; [eauto|]. eapply IH; eauto.
Qed.

Lemma filterM_total {A} (f : A -> result bool) l :
  (forall x, In x l -> exists b, f x = Ok b) -> exists r, filterM f l = Ok r.
Proof.
  induction l as [|y l IH]; cbn; intros H; [eauto|].
  destruct (H y (or_introl eq_refl)) as [b ->]. cbn.
  destruct IH as [r ->]; [auto|]. cbn. eauto.
Qed.

Lemma existsb_eqb_In k l : existsb (String.eqb k) l = true <-> In k l.
Proof.
  rewrite existsb_exists. split.
  - intros [x [Hx Hk]]. apply String.eqb_eq in Hk. subst; auto.
  - intros H. exists k. split; [auto|apply String.eqb_refl].
Qed.

Lemma nodupb_NoDup l : nodupb l = true <-> NoDup l.
Proof.
  induction l as [|k l IH]; cbn.
  - split; [constructor|reflexivity].
  - rewrite andb_true_iff, negb_true_iff, IH. split.
    + intros [Hk Hl]. constructor; [|assumption].
      rewrite <- existsb_eqb_In. congruence.
    + intros H. inversion H as [|? ? Hk Hl]; subst. split; [|assumption].
      destruct (existsb (String.eqb k) l) eqn:E; [|reflexivity].
      apply existsb_eqb_In in E. contradiction.
Qed.

Lemma In_keys {V} (d : dict V) k v : In (k, v) d -> In k (keys d).
Proof. intros H. apply (in_map fst) in H. exact H. Qed.

Lemma wf_unique {V} (d : dict V) k v v' :
  wf_dict d -> In (k, v) d -> In (k, v') d -> v = v'.
Proof.
  unfold wf_dict. rewrite nodupb_NoDup.
  induction d as [|[k0 v0] d IH]; cbn; intros Hd H H'; [contradiction|].
  inversion Hd as [|? ? Hk Hd']; subst.
  destruct H as [H|H], H' as [H'|H'].
  - congruence.
  - inv_Ok H. apply In_keys in H'. contradiction.
  - inv_Ok H'. apply In_keys in H. contradiction.
  - auto.
Qed.

Lemma dict_get_In {V} (d : dict V) k v : dict_get d k = Some v -> In (k, v) d.
Proof.
  induction d as [|[k0 v0] d IH]; cbn; [discriminate|].
  destruct (String.eqb_spec k0 k); intros H.
  - inv_Ok H. left; reflexivity.
  - right; auto.
Qed.

Lemma getitem_Ok {V} (d : dict V) k v : getitem d k = Ok v <-> dict_get d k = Some v.
Proof.
  unfold getitem. destruct (dict_get d k); split; congruence.
Qed.

Lemma alloc_set_same a k v : alloc_set a k v k = v.
Proof. unfold alloc_set. rewrite String.eqb_refl. reflexivity. Qed.

Lemma alloc_set_other a k v x : x <> k -> alloc_set a k v x = a x.
Proof.
  unfold alloc_set. intros H. destruct (String.eqb_spec x k); congruence.
Qed.

Lemma alloc_add_other a k d x : x <> k -> alloc_add a k d x = a x.
Proof. apply alloc_set_other. Qed.

Lemma alloc_add_same a k d : alloc_add a k d k = a k + d.
Proof. apply alloc_set_same. Qed.

Lemma dict_get_render ks a k : In k ks -> dict_get (render ks a) k = Some (a k).
Proof.
  induction ks as [|k0 ks IH]; cbn; [contradiction|].
  destruct (String.eqb_spec k0 k); intros H; [congruence|].
  destruct H; [contradiction|auto].
Qed.

(** *** The key of largest weight *)

Lemma max_item_In best d : In (PyFloat.max_item best d) (best :: d).
Proof.
  revert best; induction d as [|kv d IH]; intros best; cbn [PyFloat.max_item].
  - left; reflexivity.
  - specialize (IH (if (snd best <? snd kv)%float then kv else best)).
    destruct (snd best <? snd kv)%float; cbn in IH |- *; tauto.
Qed.

Lemma max_item_pos best d :
  Forall (fun kv => is_nonneg (snd kv)) (best :: d) ->
  Exists (fun kv => is_pos (snd kv)) (best :: d) ->
  is_pos (snd (PyFloat.max_item best d)).
Proof.
  revert best; induction d as [|kv d IH]; intros best Hn Hp;
    cbn [PyFloat.max_item].
  - inversion Hp as [? ? H|? ? H]; subst; [exact H|inversion H].
  - inversion Hn as [|? ? Hb Hn']; subst.
    inversion Hn' as [|? ? Hk Hd]; subst.
    apply IH.
    + destruct (snd best <? snd kv)%float; constructor; assumption.
    + destruct (snd best <? snd kv)%float eqn:E.
      * inversion Hp as [? ? H|? ? H]; subst.
        -- left. apply nonneg_not_zero_pos; [assumption|].
           intros Hz. rewrite (pos_ltb_zero _ _ H Hz) in E. discriminate.
        -- exact H.
      * inversion Hp as [? ? H|? ? H]; subst; [left; exact H|].
        inversion H as [? ? H'|? ? H']; subst; [|right; exact H'].
        left. apply nonneg_not_zero_pos; [assumption|].
        intros Hz. rewrite (zero_ltb_pos _ _ Hz H') in E. discriminate.
Qed.

Lemma max_key_pos d k :
  Forall (fun kv => is_nonneg (snd kv)) d ->
  Exists (fun kv => is_pos (snd kv)) d ->
  PyFloat.max_key d = Ok k ->
  exists w, In (k, w) d /\ is_pos w.
Proof.
  destruct d as [|kv d]; cbn; intros Hn Hp H; [discriminate|].
  inv_Ok H. exists (snd (PyFloat.max_item kv d)). split.
  - rewrite <- surjective_pairing. apply (max_item_In kv d).
  - apply max_item_pos; assumption.
Qed.

Lemma max_key_In d k : PyFloat.max_key d = Ok k -> In k (keys d).
Proof.
  destruct d as [|kv d]; cbn [PyFloat.max_key]; intros H; [discriminate|].
  inv_Ok H. apply (in_map fst), (max_item_In kv d).
Qed.
(* ------------------------------------------------------------------ *)
(** ** The allocator: stage by stage *)

Lemma active_of_incl p t active :
  active_of p t = Ok active -> incl active p.
Proof. intros H kv Hkv. exact (proj1 (filterM_In _ _ _ H kv Hkv)). Qed.

Lemma active_of_positive p t active k v :
  active_of p t = Ok active -> In (k, v) active ->
  exists n, dict_get t k = Some n /\ 0 < n.
Proof.
  intros H Hkv. destruct (filterM_In _ _ _ H _ Hkv) as [_ Hf].
  cbn in Hf. inv_bind Hf as n En. inv_Ok Hf.
  exists n. split; [apply getitem_Ok, En|apply Z.ltb_lt, Hf].
Qed.

Lemma active_of_defined p t active k :
  active_of p t = Ok active -> In k (keys p) -> exists n, getitem t k = Ok n.
Proof.
  intros H Hk. apply in_map_iff in Hk. destruct Hk as [kv [<- Hkv]].
  destruct (filterM_defined _ _ _ H _ Hkv) as [b Hb].
  inv_bind Hb as n En. eauto.
Qed.

Lemma candidates_of_incl t active source a cands :
  candidates_of t active source a = Ok cands -> incl cands active.
Proof. intros H kv Hkv. exact (proj1 (filterM_In _ _ _ H kv Hkv)). Qed.

Lemma normalize_not_zero total active nz :
  normalize total active = Ok nz -> active <> [] -> ~ is_zero total.
Proof.
  destruct active as [|kv active]; [congruence|]. intros H _.
  cbn in H. inv_bind H as y Ey. inv_bind Ey as q Eq.
  apply truediv_Ok in Eq. tauto.
Qed.

Lemma normalize_get total active nz k q :
  normalize total active = Ok nz -> dict_get nz k = Some q ->
  exists v, In (k, v) active /\ PyFloat.truediv v total = Ok q.
Proof.
  revert nz; induction active as [|[k0 v0] active IH]; cbn; intros nz H Hq.
  - inv_Ok H. discriminate.
  - inv_bind H as y Ey. inv_bind H as r Er. inv_Ok H.
    inv_bind Ey as q0 Eq0. inv_Ok Ey.
    cbn in Hq. destruct (String.eqb_spec k0 k).
    + inv_Ok Hq. eauto.
    + destruct (IH _ Er Hq) as [v [Hv Hd]]. eauto.
Qed.

Lemma distribute_not_zero total cands a e r :
  distribute total cands a e = Ok r -> cands <> [] -> ~ is_zero total.
Proof.
  destruct cands as [|[k v] cands]; [congruence|]. intros H _.
  cbn in H. inv_bind H as q Eq. apply truediv_Ok in Eq. tauto.
Qed.

Lemma weights_pos_of_sum (d : dict float) :
  Forall (fun kv => is_nonneg (snd kv)) d ->
  ~ is_zero (PyFloat.sum (values d)) ->
  Exists (fun kv => is_pos (snd kv)) d.
Proof.
  intros Hn Hz. destruct (sum_not_zero _ Hz) as [x [Hx Hnz]].
  apply in_map_iff in Hx. destruct Hx as [kv [<- Hkv]].
  apply Exists_exists. exists kv. split; [assumption|].
  apply nonneg_not_zero_pos; [|assumption].
  rewrite Forall_forall in Hn. auto.
Qed.

Lemma Forall_incl {A} (P : A -> Prop) l l' :
  incl l l' -> Forall P l' -> Forall P l.
Proof. rewrite !Forall_forall. unfold incl. auto. Qed.

(** *** A source of weight zero keeps an allocation of zero *)

Section ZeroWeight.

Variable priorities : dict float.
Variable initial_tokens : dict Z.
Variable s : string.
Variable w : float.

Hypothesis Hwf : wf_dict priorities.
Hypothesis Hnonneg : Forall (fun kv => is_nonneg (snd kv)) priorities.
Hypothesis Hs : In (s, w) priorities.
Hypothesis Hw : is_zero w.
Hypothesis Hcount : forall n, dict_get initial_tokens s = Some n -> 0 <= n.

Lemma weight_of_s d v : incl d priorities -> In (s, v) d -> is_zero v.
Proof.
  intros Hd Hv. rewrite (wf_unique priorities s v w Hwf (Hd _ Hv) Hs).
  exact Hw.
Qed.

Lemma max_key_not_s d m :
  incl d priorities -> ~ is_zero (PyFloat.sum (values d)) ->
  PyFloat.max_key d = Ok m -> m <> s.
Proof.
  intros Hd Hz Hm ->.
  assert (Hn : Forall (fun kv => is_nonneg (snd kv)) d)
    by (eapply Forall_incl; eauto).
  destruct (max_key_pos d s Hn (weights_pos_of_sum d Hn Hz) Hm)
    as [v [Hv Hp]].
  exact (is_pos_not_zero v Hp (weight_of_s d v Hd Hv)).
Qed.

Lemma first_pass_keeps_zero B total active nz :
  incl active priorities ->
  normalize total active = Ok nz ->
  forall ks a a',
    a s = 0 -> first_pass B nz ks a = Ok a' -> a' s = 0.
Proof.
  intros Hd Hnz. induction ks as [|source ks IH]; cbn; intros a a' Ha H.
  - inv_Ok H. exact Ha.
  - destruct (dict_get nz source) as [q|] eqn:Eq.
    + inv_bind H as x Ex. inv_bind H as n En. refine (IH _ _ _ H).
      destruct (String.eqb_spec s source) as [<-|Hne].
      * rewrite alloc_set_same.
        destruct (normalize_get _ _ _ _ _ Hnz Eq) as [v [Hv Hq]].
        exact (zero_share v total B q x n (weight_of_s active v Hd Hv)
                          Hq Ex En).
      * rewrite alloc_set_other; assumption.
    + refine (IH _ _ _ H).
      destruct (String.eqb_spec s source) as [<-|Hne].
      * apply alloc_set_same.
      * rewrite alloc_set_other; assumption.
Qed.

Lemma adjust_keeps_zero B ks active a a' :
  incl active priorities ->
  ~ is_zero (PyFloat.sum (values active)) ->
  a s = 0 -> adjust B ks active a = Ok a' -> a' s = 0.
Proof.
  intros Hd Hz Ha H. unfold adjust in H.
  destruct (negb (B - alloc_sum ks a =? 0) && nonempty active).
  - inv_bind H as m Em. inv_Ok H.
    rewrite alloc_add_other; [assumption|].
    apply not_eq_sym. exact (max_key_not_s active m Hd Hz Em).
  - inv_Ok H. exact Ha.
Qed.

Lemma proportional_keeps_zero B active a :
  incl active priorities -> active <> [] ->
  proportional_allocation B priorities active = Ok a -> a s = 0.
Proof.
  intros Hd Hne H. unfold proportional_allocation in H.
  inv_bind H as nz Enz. inv_bind H as a0 Ea0.
  pose proof (normalize_not_zero _ _ _ Enz Hne) as Hz.
  refine (adjust_keeps_zero _ _ _ _ _ Hd Hz _ H).
  exact (first_pass_keeps_zero _ _ _ _ Hd Enz _ _ _ eq_refl Ea0).
Qed.

Lemma distribute_keeps_zero total cands :
  incl cands priorities ->
  forall a e a' e',
    a s = 0 -> distribute total cands a e = Ok (a', e') -> a' s = 0.
Proof.
  induction cands as [|[k v] cands IH]; cbn; intros Hd a e a' e' Ha H.
  - inv_Ok H. exact Ha.
  - inv_bind H as q Eq. inv_bind H as x Ex. inv_bind H as share Es.
    refine (IH _ _ _ _ _ _ H).
    + intros kv Hkv. apply Hd. right; exact Hkv.
    + destruct (String.eqb_spec s k) as [<-|Hne].
      * rewrite alloc_add_same, Ha.
        assert (Hv : is_zero v)
          by (apply (weight_of_s ((s, v) :: cands)); [exact Hd|left; reflexivity]).
        rewrite (zero_share v total e q x share Hv Eq Ex Es). reflexivity.
      * rewrite alloc_add_other; assumption.
Qed.

Lemma cap_source_keeps_zero active a source a' :
  incl active priorities ->
  a s = 0 -> cap_source initial_tokens active a source = Ok a' -> a' s = 0.
Proof.
  intros Hd Ha H. unfold cap_source in H.
  inv_bind H as limit El.
  destruct (limit <? a source) eqn:Elt; [|inv_Ok H; exact Ha].
  apply Z.ltb_lt in Elt.
  assert (Hne : s <> source).
  { intros <-. apply getitem_Ok in El. specialize (Hcount _ El). lia. }
  assert (Ha1 : alloc_set a source limit s = 0)
    by (rewrite alloc_set_other; assumption).
  inv_bind H as cands Ec.
  assert (Hc : incl cands priorities).
  { intros kv Hkv. apply Hd. exact (candidates_of_incl _ _ _ _ _ Ec kv Hkv). }
  destruct cands as [|c cands]; [inv_Ok H; exact Ha1|].
  inv_bind H as r Er. destruct r as [a2 e2].
  pose proof (distribute_not_zero _ _ _ _ _ Er ltac:(discriminate)) as Hz.
  pose proof (distribute_keeps_zero _ _ Hc _ _ _ _ Ha1 Er) as Ha2.
  destruct (0 <? e2).
  - inv_bind H as m Em. inv_Ok H.
    rewrite alloc_add_other; [assumption|].
    apply not_eq_sym. exact (max_key_not_s _ m Hc Hz Em).
  - inv_Ok H. exact Ha2.
Qed.

Lemma enforce_caps_keeps_zero active :
  incl active priorities ->
  forall ks a a',
    a s = 0 -> enforce_caps initial_tokens active ks a = Ok a' -> a' s = 0.
Proof.
  intros Hd. induction ks as [|source ks IH]; cbn; intros a a' Ha H.
  - inv_Ok H. exact Ha.
  - inv_bind H as a1 E1.
    exact (IH _ _ (cap_source_keeps_zero _ _ _ _ Hd Ha E1) H).
Qed.

Lemma allocate_keeps_zero B r :
  _allocate_tokens B priorities initial_tokens = Ok r ->
  dict_get r s = Some 0.
Proof.
  intros H. unfold _allocate_tokens in H.
  inv_bind H as active Ea.
  pose proof (active_of_incl _ _ _ Ea) as Hd.
  pose proof (In_keys _ _ _ Hs) as Hk.
  destruct active as [|kv active].
  - inv_Ok H. clear - Hk. unfold keys in Hk.
    induction priorities as [|[k0 v0] d IH]; cbn in *; [contradiction|].
    destruct (String.eqb_spec k0 s); [reflexivity|].
    destruct Hk; [contradiction|auto].
  - inv_bind H as a0 E0. inv_bind H as a1 E1. inv_Ok H.
    rewrite (dict_get_render _ _ _ Hk). f_equal.
    refine (enforce_caps_keeps_zero _ Hd _ _ _ _ E1).
    refine (proportional_keeps_zero _ _ _ Hd _ E0). discriminate.
Qed.

End ZeroWeight.

(** *** The sum of an allocation *)

Lemma fold_alloc_sum (ks : list string) (a : alloc) z :
  fold_left (fun acc k => acc + a k) ks z
  = z + fold_right Z.add 0 (map a ks).
Proof.
  revert z; induction ks as [|k ks IH]; intros z; cbn; [lia|].
  rewrite IH. lia.
Qed.

Lemma alloc_sum_map ks a : alloc_sum ks a = fold_right Z.add 0 (map a ks).
Proof. unfold alloc_sum. rewrite fold_alloc_sum. lia. Qed.

Lemma fold_add_values (l : list Z) z :
  fold_left Z.add l z = z + fold_right Z.add 0 l.
Proof.
  revert z; induction l as [|x l IH]; intros z; cbn; [lia|].
  rewrite IH. lia.
Qed.

Lemma alloc_sum_render ks a :
  fold_left Z.add (values (render ks a)) 0 = alloc_sum ks a.
Proof.
  rewrite fold_add_values, alloc_sum_map. unfold values, render.
  rewrite map_map. cbn. reflexivity.
Qed.

Lemma alloc_sum_add_out ks a m d :
  ~ In m ks -> alloc_sum ks (alloc_add a m d) = alloc_sum ks a.
Proof.
  rewrite !alloc_sum_map. induction ks as [|k ks IH]; cbn; intros H; [reflexivity|].
  rewrite IH by tauto. rewrite alloc_add_other; [reflexivity|].
  intros E. apply H. left. congruence.
Qed.

Lemma alloc_sum_add ks a m d :
  NoDup ks -> In m ks -> alloc_sum ks (alloc_add a m d) = alloc_sum ks a + d.
Proof.
  intros Hnd. induction Hnd as [|k ks Hk Hnd IH]; intros Hm; [contradiction|].
  assert (Hcons : forall b, alloc_sum (k :: ks) b = b k + alloc_sum ks b)
    by (intros b; rewrite !alloc_sum_map; reflexivity).
  rewrite !Hcons. destruct Hm as [<-|Hm].
  - rewrite alloc_add_same, alloc_sum_add_out by assumption. lia.
  - rewrite IH by assumption. rewrite alloc_add_other; [lia|].
    intros <-. contradiction.
Qed.

Lemma adjust_sum B priorities active a0 a :
  wf_dict priorities -> incl active priorities -> active <> [] ->
  adjust B (keys priorities) active a0 = Ok a ->
  alloc_sum (keys priorities) a = B.
Proof.
  intros Hwf Hd Hne H. unfold adjust in H.
  destruct active as [|kv active]; [congruence|]. cbn [nonempty] in H.
  rewrite andb_true_r in H.
  destruct (B - alloc_sum (keys priorities) a0 =? 0) eqn:E; cbn [negb] in H.
  - inv_Ok H. apply Z.eqb_eq in E. lia.
  - inv_bind H as m Em. inv_Ok H.
    rewrite alloc_sum_add; [lia|apply nodupb_NoDup, Hwf|].
    apply max_key_In in Em. apply in_map_iff in Em.
    destruct Em as [kv' [<- Hkv']]. apply (in_map fst), Hd, Hkv'.
Qed.

(** *** The cap loop *)

Lemma enforce_caps_app t active pre post a :
  enforce_caps t active (pre ++ post) a
  = bind (enforce_caps t active pre a) (enforce_caps t active post).
Proof.
  revert a; induction pre as [|k pre IH]; intros a; cbn; [reflexivity|].
  destruct (cap_source t active a k); cbn; auto.
Qed.

Lemma cap_source_within t active a source limit :
  getitem t source = Ok limit -> a source <= limit ->
  cap_source t active a source = Ok a.
Proof.
  intros Hl Hle. unfold cap_source. rewrite Hl. cbn.
  destruct (Z.ltb_spec limit (a source)); [lia|reflexivity].
Qed.

Lemma enforce_caps_within t active ks a :
  (forall k, In k ks -> exists n, getitem t k = Ok n /\ a k <= n) ->
  enforce_caps t active ks a = Ok a.
Proof.
  induction ks as [|k ks IH]; cbn; intros H; [reflexivity|].
  destruct (H k (or_introl eq_refl)) as [n [Hn Hle]].
  rewrite (cap_source_within _ _ _ _ _ Hn Hle). cbn. auto.
Qed.

Lemma distribute_zero_raises total cands a e :
  is_zero total -> cands <> [] ->
  distribute total cands a e = Raise ZeroDivisionError.
Proof.
  intros Hz Hne. destruct cands as [|[k v] cands]; [congruence|].
  cbn [distribute]. rewrite (truediv_zero _ _ Hz). reflexivity.
Qed.

Lemma cap_source_zero_raises t active a source limit cands :
  getitem t source = Ok limit -> limit < a source ->
  candidates_of t active source (alloc_set a source limit) = Ok cands ->
  cands <> [] -> Forall is_zero (values cands) ->
  cap_source t active a source = Raise ZeroDivisionError.
Proof.
  intros Hl Hlt Hc Hne Hz. unfold cap_source. rewrite Hl. cbn [bind].
  destruct (Z.ltb_spec limit (a source)); [|lia].
  rewrite Hc. cbn [bind]. destruct cands as [|c cands]; [congruence|].
  rewrite distribute_zero_raises; [reflexivity| |assumption].
  rewrite (sum_zeros _ Hz). reflexivity.
Qed.

Lemma cap_source_divisor t active a source a' limit cands :
  cap_source t active a source = Ok a' ->
  getitem t source = Ok limit -> limit < a source ->
  candidates_of t active source (alloc_set a source limit) = Ok cands ->
  cands <> [] ->
  ~ is_zero (PyFloat.sum (values cands)).
Proof.
  intros H Hl Hlt Hc Hne. unfold cap_source in H. rewrite Hl in H.
  cbn [bind] in H.
  destruct (Z.ltb_spec limit (a source)); [|lia].
  rewrite Hc in H. cbn [bind] in H.
  destruct cands as [|c cands]; [congruence|].
  inv_bind H as r Er. exact (distribute_not_zero _ _ _ _ _ Er Hne).
Qed.

Lemma normalize_zero_raises active :
  active <> [] -> Forall is_zero (values active) ->
  normalize (PyFloat.sum (values active)) active = Raise ZeroDivisionError.
Proof.
  intros Hne Hz. rewrite (sum_zeros _ Hz).
  destruct active as [|[k v] active]; [congruence|].
  unfold normalize. cbn [mapM snd].
  rewrite truediv_zero by reflexivity. reflexivity.
Qed.

(* ------------------------------------------------------------------ *)
(** ** The allocator on the scenario of the specification *)

(** C3. Budget 6000, priorities chunks 0.85 and product_guidelines 0.15
    (the others 0), contents chunks 8000 and product_guidelines 500 (the
    others 0): the first pass gives 5100 and 900, which already sum to
    6000, so there is no rounding adjustment; chunks is within its cap;
    product_guidelines is clipped to 500 with an excess of 400; chunks is
    the only candidate and takes the whole excess; [_allocate_tokens]
    returns chunks 5500, product_guidelines 500 and 0 elsewhere, which
    sum to 6000. *)
Theorem C3_scenario_6000 :
  let p := sources5 0.85%float 0.15%float 0%float 0%float 0%float in
  let t := sources5 8000 500 0 0 0 in
  let active :=
    [("chunks"%string, 0.85%float); ("product_guidelines"%string, 0.15%float)] in
  let first := alloc_of (sources5 5100 900 0 0 0) in
  active_of p t = Ok active /\
  rendered (keys p)
    (n <- normalize (PyFloat.sum (values active)) active ;;
     first_pass 6000 n (keys p) (fun _ => 0))
  = Ok (sources5 5100 900 0 0 0) /\
  6000 - alloc_sum (keys p) first = 0 /\
  rendered (keys p) (proportional_allocation 6000 p active)
  = Ok (sources5 5100 900 0 0 0) /\
  rendered (keys p) (cap_source t active first "chunks")
  = Ok (sources5 5100 900 0 0 0) /\
  first "product_guidelines"%string - 500 = 400 /\
  candidates_of t active "product_guidelines"
                (alloc_set first "product_guidelines" 500)
  = Ok [("chunks"%string, 0.85%float)] /\
  rendered (keys p) (cap_source t active first "product_guidelines")
  = Ok (sources5 5500 500 0 0 0) /\
  _allocate_tokens 6000 p t = Ok (sources5 5500 500 0 0 0) /\
  fold_left Z.add (values (sources5 5500 500 0 0 0)) 0 = 6000.
Proof.
  cbv zeta; repeat split; vm_compute; reflexivity.
Qed.

(** The two ways of [sum] agree on the weights that take part in the
    scenarios evaluated in this file. *)
Example sums_agree_on_scenarios :
  Forall (fun ws => PyFloat.sum ws = PyFloat.sum_compensated ws)
         [ [0.85; 0.15]; [0.85]; [0.5; 0.25; 0.25]; [0.5; 0.25];
           [0.5; 0.25; 0.25; 0]; [0.5; 0.25; 0]; [0.5; 0]; [0];
           [0.5; 0.125; 0.125; 0.125; 0.125] ]%float.
Proof. repeat constructor. Qed.

Lemma Forall_values {V} (P : V -> Prop) (d : dict V) :
  Forall (fun kv => P (snd kv)) d -> Forall P (values d).
Proof. intros H. unfold values. apply Forall_map. exact H. Qed.

(* ------------------------------------------------------------------ *)
(** ** The allocator: properties *)

(** C1 (the code departs from it): the allocator is meant never to grant
    a source more tokens than its content holds, [a[s] <= t[s]].  With
    budget 6000, the priorities of objective hypothesis and contents
    chunks 3100, product_guidelines 100, design_guidelines 5000, the cap
    loop passes chunks (3000 <= 3100), then clips product_guidelines and
    hands 933 + 312 of its excess to chunks, which is not visited again:
    chunks is returned with 4245 tokens for a content of 3100.  The
    contents sum to 8200, past the budget, so [_compress_context] does
    call the allocator on them. *)
Theorem C1_allocation_exceeds_content :
  let p := _get_priorities_by_objective "hypothesis" in
  let t := sources5 3100 100 5000 0 0 in
  let first := alloc_of (sources5 3000 1500 1500 0 0) in
  (exists active,
     active_of p t = Ok active /\
     rendered (keys p) (proportional_allocation 6000 p active)
     = Ok (sources5 3000 1500 1500 0 0) /\
     rendered (keys p) (cap_source t active first "chunks")
     = Ok (sources5 3000 1500 1500 0 0) /\
     rendered (keys p) (cap_source t active first "product_guidelines")
     = Ok (sources5 4245 100 1655 0 0)) /\
  6000 < fold_left Z.add (values t) 0 /\
  _allocate_tokens 6000 p t = Ok (sources5 4245 100 1655 0 0) /\
  dict_get t "chunks" = Some 3100 /\
  3100 < 4245.
Proof.
  cbv zeta. split; [eexists|]; repeat split; vm_compute; reflexivity.
Qed.

(** C2. When at least one source has content, every weight is strictly
    positive and the allocation [a] with which the cap loop starts
    (proportional floors, then the rounding adjustment) already has
    [a[s] <= t[s]] for every source, [_allocate_tokens] returns [a] and
    its values sum to the budget. *)
Theorem C2_uncapped_allocation_sums_to_budget
    (B : Z) (priorities : dict float) (initial_tokens : dict Z)
    (active : dict float) (a : alloc) :
  wf_dict priorities ->
  Forall (fun kv => (0 <? snd kv)%float = true) priorities ->
  active_of priorities initial_tokens = Ok active ->
  active <> [] ->
  proportional_allocation B priorities active = Ok a ->
  (forall k n, In k (keys priorities) ->
               dict_get initial_tokens k = Some n -> a k <= n) ->
  _allocate_tokens B priorities initial_tokens
  = Ok (render (keys priorities) a) /\
  fold_left Z.add (values (render (keys priorities) a)) 0 = B.
Proof.
  intros Hwf _ Ha Hne Hp Hcap. split.
  - unfold _allocate_tokens. rewrite Ha. cbn [bind].
    destruct active as [|kv active']; [congruence|].
    rewrite Hp. cbn [bind].
    rewrite enforce_caps_within; [reflexivity|].
    intros k Hk. destruct (active_of_defined _ _ _ k Ha Hk) as [n Hn].
    exists n. split; [assumption|].
    apply (Hcap k n Hk). apply getitem_Ok, Hn.
  - rewrite alloc_sum_render.
    unfold proportional_allocation in Hp.
    inv_bind Hp as nz Enz. inv_bind Hp as a0 E0.
    exact (adjust_sum B priorities active a0 a Hwf
             (active_of_incl _ _ _ Ha) Hne Hp).
Qed.

Lemma C2_witness :
  _allocate_tokens 6000 sample_weights (sources5 4000 1000 1000 1000 1000)
  = Ok (render (keys sample_weights) sample_allocation) /\
  fold_left Z.add (values (render (keys sample_weights) sample_allocation)) 0
  = 6000.
Proof.
  apply (C2_uncapped_allocation_sums_to_budget 6000 sample_weights
           (sources5 4000 1000 1000 1000 1000) sample_weights
           sample_allocation).
  - reflexivity.
  - repeat constructor.
  - vm_compute. reflexivity.
  - discriminate.
  - vm_compute. reflexivity.
  - intros k n Hk. cbn in Hk.
    repeat (destruct Hk as [<-|Hk]; [vm_compute; intros [= <-]; discriminate|]).
    contradiction.
Defined.

(** With no content at all, line 538 returns zeros before any
    proportional pass: nothing is allocated, whatever the budget. *)
Example no_content_returns_zeros :
  _allocate_tokens 6000 sample_weights (sources5 0 0 0 0 0)
  = Ok (sources5 0 0 0 0 0).
Proof. vm_compute. reflexivity. Qed.

(** C2, without a source that has content.  Every weight is strictly
    positive and no source is cap-constrained: no source is active, the
    proportional floors and the rounding adjustment over no active
    source give 0 everywhere, within every cap.  The guard of lines
    537-538 returns zeros and the allocations sum to 0, not to the
    budget of 6000. *)
Lemma C2_counterexample :
  exists a,
    wf_dict sample_weights /\
    Forall (fun kv => (0 <? snd kv)%float = true) sample_weights /\
    active_of sample_weights (sources5 0 0 0 0 0) = Ok [] /\
    proportional_allocation 6000 sample_weights [] = Ok a /\
    (forall k n, In k (keys sample_weights) ->
                 dict_get (sources5 0 0 0 0 0) k = Some n -> a k <= n) /\
    _allocate_tokens 6000 sample_weights (sources5 0 0 0 0 0)
    = Ok (render (keys sample_weights) a) /\
    fold_left Z.add (values (render (keys sample_weights) a)) 0 = 0 /\
    0 < 6000.
Proof.
  eexists.
  split; [reflexivity|].
  split; [repeat constructor|].
  split; [vm_compute; reflexivity|].
  split; [reflexivity|].
  split; [|split; [|split]]; try (vm_compute; reflexivity).
  intros k n Hk. cbn in Hk.
  repeat (destruct Hk as [<-|Hk]; [vm_compute; intros [= <-]; discriminate|]).
  contradiction.
Qed.

(** C5. Whenever [_allocate_tokens] returns, a source whose priority
    weight is 0 is allocated 0, whatever the size of its content;
    weights are non-negative and token counts are counts. *)
Theorem C5_zero_weight_gets_zero
    (B : Z) (priorities : dict float) (initial_tokens r : dict Z)
    (s : string) (w : float) :
  wf_dict priorities ->
  Forall (fun kv => (0 <=? snd kv)%float = true) priorities ->
  Forall (fun kn => 0 <= snd kn) initial_tokens ->
  _allocate_tokens B priorities initial_tokens = Ok r ->
  In (s, w) priorities ->
  (w =? 0)%float = true ->
  dict_get r s = Some 0.
Proof.
  intros Hwf Hn Ht Hr Hs Hw.
  refine (allocate_keeps_zero priorities initial_tokens s w
            Hwf Hn Hs Hw _ B r Hr).
  intros n Hg. apply dict_get_In in Hg.
  rewrite Forall_forall in Ht. exact (Ht _ Hg).
Qed.

Lemma C5_witness :
  dict_get (sources5 4245 100 1655 0 0) "benchmarks" = Some 0.
Proof.
  apply (C5_zero_weight_gets_zero 6000
           (_get_priorities_by_objective "hypothesis")
           (sources5 3100 100 5000 700 0)
           (sources5 4245 100 1655 0 0) "benchmarks" 0%float).
  - reflexivity.
  - repeat constructor.
  - repeat constructor; cbn; lia.
  - vm_compute. reflexivity.
  - cbn. tauto.
  - reflexivity.
Defined.

(** Weights are meant to be non-negative.  Among negative weights a
    weight of 0 is the largest, and its source takes the rounding
    adjustment. *)
Example negative_weights_give_zero_weight_a_token :
  _allocate_tokens 11
    [("a"%string, 0%float); ("b"%string, (-1)%float); ("c"%string, (-1)%float)]
    [("a"%string, 100); ("b"%string, 100); ("c"%string, 100)]
  = Ok [("a"%string, 1); ("b"%string, 5); ("c"%string, 5)].
Proof. vm_compute. reflexivity. Qed.

Lemma allocate_raises_on_zero_active B p t :
  (forall k, In k (keys p) -> exists n, dict_get t k = Some n) ->
  (exists k v n, In (k, v) p /\ dict_get t k = Some n /\ 0 < n) ->
  (forall k v n, In (k, v) p -> dict_get t k = Some n -> 0 < n -> is_zero v) ->
  _allocate_tokens B p t = Raise ZeroDivisionError.
Proof.
  intros Hdef [k [v [n [Hkv [Hn Hpos]]]]] Hall.
  destruct (filterM_total
              (fun kv => t0 <- getitem t (fst kv) ;; Ok (0 <? t0)) p)
    as [active Ha].
  { intros [k' v'] Hx. destruct (Hdef k' (In_keys _ _ _ Hx)) as [n' Hn'].
    exists (0 <? n'). cbn. apply getitem_Ok in Hn'. rewrite Hn'. reflexivity. }
  assert (Hin : In (k, v) active).
  { apply (filterM_kept _ _ _ Ha); [assumption|]. cbn.
    apply getitem_Ok in Hn. rewrite Hn. cbn.
    apply Z.ltb_lt in Hpos. rewrite Hpos. reflexivity. }
  assert (Hz : Forall is_zero (values active)).
  { apply Forall_values, Forall_forall. intros [k' v'] Hx.
    destruct (active_of_positive _ _ _ _ _ Ha Hx) as [n' [Hn' Hp']].
    exact (Hall k' v' n' (active_of_incl _ _ _ Ha _ Hx) Hn' Hp'). }
  unfold _allocate_tokens. fold (active_of p t) in Ha. rewrite Ha.
  cbn [bind]. destruct active as [|kv active']; [contradiction|].
  unfold proportional_allocation.
  rewrite normalize_zero_raises; [reflexivity|discriminate|assumption].
Qed.

Lemma allocate_raises_on_zero_candidates
    B p t active a0 pre source post a limit cands :
  active_of p t = Ok active -> active <> [] ->
  proportional_allocation B p active = Ok a0 ->
  keys p = pre ++ source :: post ->
  enforce_caps t active pre a0 = Ok a ->
  getitem t source = Ok limit -> limit < a source ->
  candidates_of t active source (alloc_set a source limit) = Ok cands ->
  cands <> [] ->
  Forall (fun kv => is_zero (snd kv)) cands ->
  _allocate_tokens B p t = Raise ZeroDivisionError.
Proof.
  intros Ha Hne Hp Hk Hpre Hl Hlt Hc Hcne Hz.
  unfold _allocate_tokens. rewrite Ha. cbn [bind].
  destruct active as [|kv active']; [congruence|].
  rewrite Hp. cbn [bind]. rewrite Hk at 1.
  rewrite enforce_caps_app, Hpre. cbn [bind enforce_caps].
  rewrite (cap_source_zero_raises _ _ _ _ _ _ Hl Hlt Hc Hcne
             (Forall_values _ _ Hz)).
  reflexivity.
Qed.

Lemma allocate_returns_nonzero B p t r :
  _allocate_tokens B p t = Ok r ->
  exists active,
    active_of p t = Ok active /\
    (active <> [] ->
     ~ is_zero (PyFloat.sum (values active)) /\
     exists a0,
       proportional_allocation B p active = Ok a0 /\
       forall pre source post a limit cands,
         keys p = pre ++ source :: post ->
         enforce_caps t active pre a0 = Ok a ->
         getitem t source = Ok limit -> limit < a source ->
         candidates_of t active source (alloc_set a source limit)
         = Ok cands ->
         cands <> [] ->
         ~ is_zero (PyFloat.sum (values cands))).
Proof.
  intros H. unfold _allocate_tokens in H.
  inv_bind H as active Ea. exists active. split; [exact Ea|].
  intros Hne. destruct active as [|kv active']; [congruence|].
  inv_bind H as a0 E0. inv_bind H as a1 E1.
  split.
  - unfold proportional_allocation in E0. inv_bind E0 as nz Enz.
    exact (normalize_not_zero _ _ _ Enz Hne).
  - exists a0. split; [exact E0|].
    intros pre source post a limit cands Hk Hpre Hl Hlt Hc Hcne.
    rewrite Hk, enforce_caps_app, Hpre in E1. cbn [bind enforce_caps] in E1.
    inv_bind E1 as a' Ea'.
    exact (cap_source_divisor _ _ _ _ _ _ _ Ea' Hl Hlt Hc Hcne).
Qed.

Lemma allocate_returns_divisors B p t r :
  Forall (fun kv => is_nonneg (snd kv)) p ->
  _allocate_tokens B p t = Ok r ->
  exists active,
    active_of p t = Ok active /\
    (active <> [] ->
     is_pos (PyFloat.sum (values active)) /\
     exists a0,
       proportional_allocation B p active = Ok a0 /\
       forall pre source post a limit cands,
         keys p = pre ++ source :: post ->
         enforce_caps t active pre a0 = Ok a ->
         getitem t source = Ok limit -> limit < a source ->
         candidates_of t active source (alloc_set a source limit)
         = Ok cands ->
         cands <> [] ->
         is_pos (PyFloat.sum (values cands))).
Proof.
  intros Hn H.
  destruct (allocate_returns_nonzero B p t r H) as [active [Ea Hrest]].
  exists active. split; [exact Ea|]. intros Hne.
  destruct (Hrest Hne) as [Hz [a0 [E0 Hc]]].
  assert (Hna : Forall (fun kv => is_nonneg (snd kv)) active)
    by (eapply Forall_incl; [exact (active_of_incl _ _ _ Ea)|exact Hn]).
  split; [apply sum_pos; [apply Forall_values, Hna|exact Hz]|].
  exists a0. split; [exact E0|].
  intros pre source post a limit cands Hk Hpre Hl Hlt Hcands Hcne.
  apply sum_pos.
  - apply Forall_values. eapply Forall_incl; [|exact Hna].
    exact (candidates_of_incl _ _ _ _ _ Hcands).
  - exact (Hc pre source post a limit cands Hk Hpre Hl Hlt Hcands Hcne).
Qed.

Lemma not_is_zero_false x : ~ is_zero x <-> (x =? 0)%float = false.
Proof. unfold is_zero. apply not_true_iff_false. Qed.

(** C6. [_allocate_tokens] raises [ZeroDivisionError] on some inputs.
    (1) When some source has content and every source with content has
    weight 0, the normalisation of line 542 divides by a sum that is 0.
    (2) When the cap loop clips a source and every candidate for its
    excess has weight 0, the share of line 575 divides by a sum that is
    0.  (3) Whenever the function returns, each of these sums was not
    zero where it was used as a divisor, and positive when the weights
    are non-negative. *)
Theorem C6_division_by_zero :
  _allocate_tokens 6000 (_get_priorities_by_objective "hypothesis")
                   (sources5 0 0 0 7000 0)
  = Raise ZeroDivisionError /\
  _allocate_tokens 6000 (_get_priorities_by_objective "hypothesis")
                   (sources5 100 0 0 7000 0)
  = Raise ZeroDivisionError /\
  (forall B p t,
     (forall k, In k (keys p) -> exists n, dict_get t k = Some n) ->
     (exists k v n, In (k, v) p /\ dict_get t k = Some n /\ 0 < n) ->
     (forall k v n, In (k, v) p -> dict_get t k = Some n -> 0 < n ->
                    (v =? 0)%float = true) ->
     _allocate_tokens B p t = Raise ZeroDivisionError) /\
  (forall B p t active a0 pre source post a limit cands,
     active_of p t = Ok active -> active <> [] ->
     proportional_allocation B p active = Ok a0 ->
     keys p = pre ++ source :: post ->
     enforce_caps t active pre a0 = Ok a ->
     getitem t source = Ok limit -> limit < a source ->
     candidates_of t active source (alloc_set a source limit) = Ok cands ->
     cands <> [] ->
     Forall (fun kv => (snd kv =? 0)%float = true) cands ->
     _allocate_tokens B p t = Raise ZeroDivisionError) /\
  (forall B p t r,
     _allocate_tokens B p t = Ok r ->
     exists active,
       active_of p t = Ok active /\
       (active <> [] ->
        (PyFloat.sum (values active) =? 0)%float = false /\
        exists a0,
          proportional_allocation B p active = Ok a0 /\
          forall pre source post a limit cands,
            keys p = pre ++ source :: post ->
            enforce_caps t active pre a0 = Ok a ->
            getitem t source = Ok limit -> limit < a source ->
            candidates_of t active source (alloc_set a source limit)
            = Ok cands ->
            cands <> [] ->
            (PyFloat.sum (values cands) =? 0)%float = false)) /\
  (forall B p t r,
     Forall (fun kv => (0 <=? snd kv)%float = true) p ->
     _allocate_tokens B p t = Ok r ->
     exists active,
       active_of p t = Ok active /\
       (active <> [] ->
        (0 <? PyFloat.sum (values active))%float = true /\
        exists a0,
          proportional_allocation B p active = Ok a0 /\
          forall pre source post a limit cands,
            keys p = pre ++ source :: post ->
            enforce_caps t active pre a0 = Ok a ->
            getitem t source = Ok limit -> limit < a source ->
            candidates_of t active source (alloc_set a source limit)
            = Ok cands ->
            cands <> [] ->
            (0 <? PyFloat.sum (values cands))%float = true)).
Proof.
  split; [vm_compute; reflexivity|].
  split; [vm_compute; reflexivity|].
  split; [exact allocate_raises_on_zero_active|].
  split; [exact allocate_raises_on_zero_candidates|].
  split; [|exact allocate_returns_divisors].
  intros B p t r H.
  destruct (allocate_returns_nonzero B p t r H) as [active [Ea Hrest]].
  exists active. split; [exact Ea|]. intros Hne.
  destruct (Hrest Hne) as [Hz [a0 [E0 Hc]]].
  split; [apply not_is_zero_false, Hz|].
  exists a0. split; [exact E0|].
  intros pre source post a limit cands Hk Hpre Hl Hlt Hcands Hcne.
  apply not_is_zero_false.
  exact (Hc pre source post a limit cands Hk Hpre Hl Hlt Hcands Hcne).
Qed.

Lemma C6_witness :
  _allocate_tokens 6000 (_get_priorities_by_objective "objectives")
                   (sources5 0 0 900 0 0)
  = Raise ZeroDivisionError.
Proof.
  apply (proj1 (proj2 (proj2 C6_division_by_zero))).
  - intros k Hk. cbn in Hk.
    repeat (destruct Hk as [<-|Hk]; [eexists; reflexivity|]).
    contradiction.
  - exists "design_guidelines"%string, 0%float, 900.
    split; [do 2 right; left; reflexivity|].
    split; [reflexivity|lia].
  - intros k v n Hkv. cbn in Hkv.
    repeat (destruct Hkv as [[= <- <-]|Hkv];
            [vm_compute; intros [= <-] H; try reflexivity; discriminate|]).
    contradiction.
Defined.

(* ------------------------------------------------------------------ *)
(** ** Relevance filters *)

Lemma str_to_int_raises s e : PyStr.to_int s = Raise e -> e = ValueError.
Proof.
  unfold PyStr.to_int. destruct (PyStr.scan_sign (PyStr.skip_blanks s)) as [neg body].
  destruct (PyStr.scan_digits body 0 0) as [[v n] [|c rest]];
    [destruct (0 <? n); [destruct (PyStr.max_str_digits <? n)|]|]; congruence.
Qed.

Lemma collect_indices_raises n parts acc :
  (exists part, In part parts /\
                PyStr.to_int (PyStr.strip part) = Raise ValueError) ->
  collect_indices n parts acc = Raise ValueError.
Proof.
  revert acc; induction parts as [|p parts IH]; intros acc [part [Hin Hr]].
  - contradiction.
  - cbn [collect_indices].
    destruct (PyStr.to_int (PyStr.strip p)) as [v|e] eqn:E; cbn [bind].
    + apply IH. destruct Hin as [<-|Hin]; [congruence|eauto].
    + rewrite (str_to_int_raises _ _ E). reflexivity.
Qed.

Lemma collect_indices_Ok n parts vs acc :
  mapM (fun part => PyStr.to_int (PyStr.strip part)) parts = Ok vs ->
  collect_indices n parts acc
  = Ok (acc ++ filter (in_range n) (map (fun v => v - 1) vs)).
Proof.
  revert vs acc; induction parts as [|p parts IH]; cbn; intros vs acc H.
  - inv_Ok H. cbn. rewrite app_nil_r. reflexivity.
  - inv_bind H as v Ev. inv_bind H as vs' Evs. inv_Ok H.
    rewrite Ev. cbn [bind]. rewrite (IH _ _ Evs). cbn [map filter].
    unfold in_range at 2.
    destruct ((0 <=? v - 1) && (v - 1 <? n)); [|reflexivity].
    rewrite <- app_assoc. reflexivity.
Qed.

Lemma list_getitem_in_range {A} (l : list A) i :
  in_range (len l) i = true ->
  exists x, list_getitem l i = Ok x /\ nth_error l (Z.to_nat i) = Some x.
Proof.
  unfold in_range, len, list_getitem. intros H.
  apply andb_true_iff in H. destruct H as [H0 H1].
  apply Z.leb_le in H0. apply Z.ltb_lt in H1.
  destruct (Z.ltb_spec i 0); [lia|].
  destruct (Z.ltb_spec i 0); [lia|].
  destruct (nth_error l (Z.to_nat i)) as [x|] eqn:E; [eauto|].
  apply nth_error_None in E. lia.
Qed.

Lemma mapM_getitem_pick {A} (l : list A) idxs :
  Forall (fun i => in_range (len l) i = true) idxs ->
  mapM (list_getitem l) idxs = Ok (pick l idxs).
Proof.
  induction 1 as [|i idxs Hi _ IH]; cbn; [reflexivity|].
  destruct (list_getitem_in_range l i Hi) as [x [Hx Hn]].
  rewrite Hx, Hn. cbn [bind]. rewrite IH. reflexivity.
Qed.

Lemma mapM_getitem_selection {A} (l : list A) vs :
  mapM (list_getitem l) (filter (in_range (len l)) (map (fun v => v - 1) vs))
  = Ok (selection l vs).
Proof.
  apply mapM_getitem_pick. apply Forall_forall. intros i Hi.
  apply filter_In in Hi. tauto.
Qed.

Lemma mapM_getitem_range_aux {A} (suf pre : list A) :
  mapM (list_getitem (pre ++ suf))
       (map Z.of_nat (seq (List.length pre) (List.length suf)))
  = Ok suf.
Proof.
  revert pre; induction suf as [|x suf IH]; intros pre; cbn; [reflexivity|].
  assert (Hx : list_getitem (pre ++ x :: suf) (Z.of_nat (List.length pre))
               = Ok x).
  { unfold list_getitem. destruct (Z.ltb_spec (Z.of_nat (List.length pre)) 0); [lia|].
    destruct (Z.ltb_spec (Z.of_nat (List.length pre)) 0); [lia|].
    rewrite Nat2Z.id, nth_error_app2, Nat.sub_diag by lia. reflexivity. }
  rewrite Hx. cbn [bind].
  specialize (IH (pre ++ [x])).
  rewrite <- app_assoc, length_app in IH. cbn in IH.
  rewrite Nat.add_1_r in IH. rewrite IH. reflexivity.
Qed.

Lemma mapM_getitem_range {A} (l : list A) :
  mapM (list_getitem l) (range (List.length l)) = Ok l.
Proof. exact (mapM_getitem_range_aux l []). Qed.

Lemma mapM_getitem_In {A} (l : list A) idxs out :
  mapM (list_getitem l) idxs = Ok out -> forall x, In x out -> In x l.
Proof.
  revert out; induction idxs as [|i idxs IH]; cbn; intros out H x Hx.
  - inv_Ok H. contradiction.
  - inv_bind H as y Ey. inv_bind H as out' Eo. inv_Ok H.
    destruct Hx as [<-|Hx]; [|eauto].
    unfold list_getitem in Ey.
    destruct (_ <? 0); [discriminate|].
    destruct (nth_error l _) eqn:E; [|discriminate].
    inv_Ok Ey. eapply nth_error_In; eauto.
Qed.

Lemma relevant_indices_zero n content :
  PyStr.strip content = "0"%string -> relevant_indices_of n content = Ok [].
Proof. unfold relevant_indices_of. intros ->. reflexivity. Qed.

Lemma relevant_indices_fallback n content :
  (exists part, In part (PyStr.split ","%char (PyStr.strip content)) /\
                PyStr.to_int (PyStr.strip part) = Raise ValueError) ->
  relevant_indices_of n content = Ok (range n).
Proof.
  intros H. unfold relevant_indices_of.
  destruct (String.eqb_spec (PyStr.strip content) "0") as [E|E].
  - exfalso. rewrite E in H. destruct H as [part [Hin Hr]].
    cbn in Hin. destruct Hin as [<-|[]]. discriminate.
  - rewrite (collect_indices_raises _ _ _ H). reflexivity.
Qed.

Lemma relevant_indices_parsed n content vs :
  mapM (fun part => PyStr.to_int (PyStr.strip part))
       (PyStr.split ","%char (PyStr.strip content)) = Ok vs ->
  relevant_indices_of n content
  = Ok (filter (in_range (Z.of_nat n)) (map (fun v => v - 1) vs)).
Proof.
  intros H. unfold relevant_indices_of.
  destruct (String.eqb_spec (PyStr.strip content) "0") as [E|E].
  - rewrite E in H. vm_compute in H. inv_Ok H. reflexivity.
  - rewrite (collect_indices_Ok _ _ _ _ H). reflexivity.
Qed.

Lemma len_pos_cons {A} (l : list A) : 5 < len l -> (len l <=? 5) = false.
Proof. intros H. apply Z.leb_gt. exact H. Qed.

(** C4. For a list that reaches the completion request (sections: not
    empty; chunks: more than five), a reply that is "0" once trimmed
    selects nothing, and a reply one of whose comma-separated parts fails
    the conversion to an integer, such as "1, x, 3", returns every item,
    in the order of the input. *)
Theorem C4_asymmetric_fallback :
  (forall content sections,
     sections <> [] ->
     (PyStr.strip content = "0"%string ->
      _filter_relevant_sections content sections = Ok []) /\
     ((exists part,
         In part (PyStr.split ","%char (PyStr.strip content)) /\
         PyStr.to_int (PyStr.strip part) = Raise ValueError) ->
      _filter_relevant_sections content sections = Ok sections)) /\
  (forall (Chunk : Type) content (chunks : list Chunk),
     5 < len chunks ->
     (PyStr.strip content = "0"%string ->
      _filter_relevant_chunks content chunks = Ok []) /\
     ((exists part,
         In part (PyStr.split ","%char (PyStr.strip content)) /\
         PyStr.to_int (PyStr.strip part) = Raise ValueError) ->
      _filter_relevant_chunks content chunks = Ok chunks)) /\
  _filter_relevant_sections "1, x, 3" ["a"; "b"; "c"]%string
  = Ok ["a"; "b"; "c"]%string /\
  _filter_relevant_sections " 0 " ["a"; "b"; "c"]%string = Ok [].
Proof.
  split; [|split; [|split; reflexivity]].
  - intros content sections Hne.
    destruct sections as [|x sections]; [congruence|].
    unfold _filter_relevant_sections. split; intros H.
    + rewrite (relevant_indices_zero _ _ H). reflexivity.
    + rewrite (relevant_indices_fallback _ _ H). cbn [bind].
      apply mapM_getitem_range.
  - intros Chunk content chunks Hlen.
    unfold _filter_relevant_chunks. rewrite (len_pos_cons _ Hlen).
    split; intros H.
    + rewrite (relevant_indices_zero _ _ H). reflexivity.
    + rewrite (relevant_indices_fallback _ _ H). cbn [bind].
      apply mapM_getitem_range.
Qed.

Lemma C4_witness :
  _filter_relevant_sections "2, dois" ["a"; "b"; "c"]%string
  = Ok ["a"; "b"; "c"]%string.
Proof.
  apply (proj1 C4_asymmetric_fallback "2, dois"%string
               ["a"; "b"; "c"]%string);
    [discriminate|].
  exists " dois"%string. split; [cbn; tauto|reflexivity].
Defined.

(** C10. When every comma-separated part of the reply converts to an
    integer, the filters return the items the reply numbers, in the
    order of the reply: a number outside 1..n is dropped, a number that
    occurs twice gives its item twice.  Every item returned is an item of
    the input; the output need not be a subsequence of the input ("3,1")
    and can be longer than the set of items it selects ("1,1"). *)
Theorem C10_filter_follows_reply :
  (forall content sections vs,
     sections <> [] ->
     mapM (fun part => PyStr.to_int (PyStr.strip part))
          (PyStr.split ","%char (PyStr.strip content)) = Ok vs ->
     _filter_relevant_sections content sections
     = Ok (selection sections vs)) /\
  (forall (Chunk : Type) content (chunks : list Chunk) vs,
     5 < len chunks ->
     mapM (fun part => PyStr.to_int (PyStr.strip part))
          (PyStr.split ","%char (PyStr.strip content)) = Ok vs ->
     _filter_relevant_chunks content chunks = Ok (selection chunks vs)) /\
  (forall content sections out,
     _filter_relevant_sections content sections = Ok out ->
     forall x, In x out -> In x sections) /\
  (forall (Chunk : Type) content (chunks out : list Chunk),
     _filter_relevant_chunks content chunks = Ok out ->
     forall x, In x out -> In x chunks) /\
  _filter_relevant_sections "3,1" ["a"; "b"; "c"]%string
  = Ok ["c"; "a"]%string /\
  subseqb ["c"; "a"]%string ["a"; "b"; "c"]%string = false /\
  _filter_relevant_sections "1,1" ["a"; "b"; "c"]%string
  = Ok ["a"; "a"]%string /\
  _filter_relevant_sections "2, 7, 0, -1" ["a"; "b"; "c"]%string
  = Ok ["b"]%string.
Proof.
  split; [|split; [|split; [|split; [|repeat split; reflexivity]]]].
  - intros content sections vs Hne Hvs.
    destruct sections as [|x sections]; [congruence|].
    unfold _filter_relevant_sections.
    rewrite (relevant_indices_parsed _ _ _ Hvs). cbn [bind].
    apply mapM_getitem_selection.
  - intros Chunk content chunks vs Hlen Hvs.
    unfold _filter_relevant_chunks. rewrite (len_pos_cons _ Hlen).
    rewrite (relevant_indices_parsed _ _ _ Hvs). cbn [bind].
    apply mapM_getitem_selection.
  - intros content sections out H x Hx.
    destruct sections as [|y sections]; [inv_Ok H; contradiction|].
    unfold _filter_relevant_sections in H. inv_bind H as idxs Ei.
    exact (mapM_getitem_In _ _ _ H x Hx).
  - intros Chunk content chunks out H x Hx.
    unfold _filter_relevant_chunks in H.
    destruct (len chunks <=? 5); [inv_Ok H; exact Hx|].
    inv_bind H as idxs Ei.
    exact (mapM_getitem_In _ _ _ H x Hx).
Qed.

Lemma C10_witness :
  _filter_relevant_sections " 3, 1,3 " ["a"; "b"; "c"]%string
  = Ok (selection ["a"; "b"; "c"]%string [3; 1; 3]).
Proof.
  apply (proj1 C10_filter_follows_reply " 3, 1,3 "%string
               ["a"; "b"; "c"]%string [3; 1; 3]).
  - discriminate.
  - reflexivity.
Defined.

(** [int()] converts a numeral of up to 4300 digits and raises
    [ValueError] on a longer one; a reply with such a part is handled as
    one that does not parse, and the section filter returns every item. *)
Example filter_keeps_all_on_a_numeral_too_long :
  (exists v, PyStr.to_int (nines 4300) = Ok v) /\
  PyStr.to_int (nines 4301) = Raise ValueError /\
  _filter_relevant_sections ("2," ++ nines 4400) ["a"; "b"; "c"]%string
  = Ok ["a"; "b"; "c"]%string.
Proof.
  split; [|split].
  - eexists. vm_compute. reflexivity.
  - vm_compute. reflexivity.
  - vm_compute. reflexivity.
Qed.

(* ------------------------------------------------------------------ *)
(** ** Source selector *)

(** C9. [_select_relevant_sources] is the fixed table: informative
    selects chunks and product_guidelines only; hypothesis and benchmark
    select all but team_objectives; objectives selects chunks,
    product_guidelines and team_objectives; any other objective gets the
    row of informative. *)
Theorem C9_select_relevant_sources :
  _select_relevant_sources "informative"
  = sources5 true true false false false /\
  _select_relevant_sources "hypothesis"
  = sources5 true true true true false /\
  _select_relevant_sources "benchmark"
  = sources5 true true true true false /\
  _select_relevant_sources "objectives"
  = sources5 true true false false true /\
  (forall objective : string,
     objective <> "informative"%string ->
     objective <> "hypothesis"%string ->
     objective <> "benchmark"%string ->
     objective <> "objectives"%string ->
     _select_relevant_sources objective
     = _select_relevant_sources "informative").
Proof.
  repeat split.
  intros objective H1 H2 H3 H4.
  unfold _select_relevant_sources, selection_matrix. cbn [dict_get].
  repeat match goal with
         | |- context [String.eqb ?a objective] =>
             destruct (String.eqb_spec a objective); [congruence|]
         end.
  reflexivity.
Qed.

Lemma C9_witness :
  _select_relevant_sources "comparison"
  = _select_relevant_sources "informative".
Proof.
  apply (proj2 (proj2 (proj2 (proj2 C9_select_relevant_sources))));
    discriminate.
Defined.

(* ------------------------------------------------------------------ *)
(** ** Compression driver *)

(** C7. When the estimated sizes of the five blocks sum to at most
    [max_total_tokens], [_compress_context] returns each block as it
    was joined, with [total_tokens] the sum of the estimates, and the
    trace is left as it was: the allocator is not run and no completion
    is requested. *)
Theorem C7_within_budget_skips_compression
    (max_total_tokens : Z)
    (complete : string -> string -> string -> Z -> string)
    (query : string) (chunks : list passage)
    (product_guidelines design_guidelines benchmarks team_objectives
       : list string)
    (objective : string) (trace : list event) :
  let chunks_text := PyStr.join sep2 (map text chunks) in
  let product_text := PyStr.join sep2 product_guidelines in
  let design_text := PyStr.join sep2 design_guidelines in
  let benchmarks_text := PyStr.join sep2 benchmarks in
  let objectives_text := PyStr.join sep2 team_objectives in
  let total :=
    _count_tokens chunks_text + _count_tokens product_text
    + _count_tokens design_text + _count_tokens benchmarks_text
    + _count_tokens objectives_text in
  total <= max_total_tokens ->
  _compress_context max_total_tokens complete query chunks
                    product_guidelines design_guidelines benchmarks
                    team_objectives objective trace
  = (Ok {| c_chunks := chunks_text;
           c_product_guidelines := product_text;
           c_design_guidelines := design_text;
           c_benchmarks := benchmarks_text;
           c_team_objectives := objectives_text;
           c_total_tokens := total |},
     trace).
Proof.
  cbv zeta. intros H. unfold _compress_context.
  cbn [sources5 values map snd fold_left].
  rewrite (proj2 (Z.leb_le _ _)) by lia.
  unfold io_ret. repeat f_equal.
Qed.

Lemma C7_witness :
  _compress_context 6000 (fun _ _ _ _ => "resumo"%string) "consulta"
                    [sample_passage "abcdefgh"; sample_passage "ijkl"]
                    ["diretriz"%string] [] [] [] "informative" []
  = (Ok {| c_chunks :=
             PyStr.join sep2 ["abcdefgh"%string; "ijkl"%string];
           c_product_guidelines := "diretriz";
           c_design_guidelines := "";
           c_benchmarks := "";
           c_team_objectives := "";
           c_total_tokens := 3 + 2 + 0 + 0 + 0 |},
     []).
Proof.
  apply (C7_within_budget_skips_compression 6000
           (fun _ _ _ _ => "resumo"%string) "consulta"
           [sample_passage "abcdefgh"; sample_passage "ijkl"]
           ["diretriz"%string] [] [] [] "informative" []).
  vm_compute. discriminate.
Defined.

(** Past the budget the allocator runs and a block larger than its share
    is sent for compression: with a budget of 2 tokens, chunks (3 tokens)
    is allocated 2 and compressed, product_guidelines is allocated 0 and
    dropped. *)
Example over_budget_runs_allocator :
  _compress_context 2 (fun _ _ _ _ => " resumo "%string) "consulta"
                    [sample_passage "abcdefgh"; sample_passage "ijkl"]
                    ["diretriz"%string] [] [] [] "informative" []
  = (Ok {| c_chunks := "resumo";
           c_product_guidelines := "";
           c_design_guidelines := "";
           c_benchmarks := "";
           c_team_objectives := "";
           c_total_tokens := 1 |},
     [ Allocation 2 (_get_priorities_by_objective "informative")
                  (sources5 3 2 0 0 0);
       Completion "chunks recuperados"
                  (PyStr.join sep2 ["abcdefgh"%string; "ijkl"%string]) 2 ]).
Proof. vm_compute. reflexivity. Qed.

(* ------------------------------------------------------------------ *)
(** ** The order of binary64 values *)

Module FloatOrder.

Lemma not_nan_SF x : not_nan x <-> SF_not_nan (Prim2SF x).
Proof.
  unfold not_nan. rewrite eqb_spec. unfold SFeqb.
  destruct (Prim2SF x) as [s|s| |s m e]; cbn;
    try (destruct s); try (intuition discriminate).
  - rewrite Z.compare_refl.
    change (Pos.compare_cont Eq m m) with (Pos.compare m m).
    rewrite Pos.compare_refl. cbn. tauto.
  - rewrite Z.compare_refl.
    change (Pos.compare_cont Eq m m) with (Pos.compare m m).
    rewrite Pos.compare_refl. tauto.
Qed.

Ltac crunch_cmp :=
  repeat match goal with
         | H : context [Z.compare ?a ?b] |- _ =>
             destruct (Z.compare_spec a b); subst
         | |- context [Z.compare ?a ?b] =>
             destruct (Z.compare_spec a b); subst
         | H : context [Pos.compare ?a ?b] |- _ =>
             destruct (Pos.compare_spec a b); subst
         | |- context [Pos.compare ?a ?b] =>
             destruct (Pos.compare_spec a b); subst
         end;
  cbn in *; try reflexivity; try discriminate; try lia.

Lemma SFleb_trans x y z :
  SFleb x y = true -> SFleb y z = true -> SFleb x z = true.
Proof.
  unfold SFleb.
  destruct x as [sx|sx| |sx mx ex], y as [sy|sy| |sy my ey],
           z as [sz|sz| |sz mz ez]; cbn;
    try discriminate; try reflexivity;
    try (destruct sx); try (destruct sy); try (destruct sz);
    cbn; try discriminate; try reflexivity;
    change (Pos.compare_cont Eq) with Pos.compare;
    intros H1 H2; crunch_cmp.
Qed.

Lemma SFltb_leb x y : SFltb x y = true -> SFleb x y = true.
Proof. unfold SFltb, SFleb. destruct (SFcompare x y) as [[ | | ]|]; auto. Qed.

Lemma SFltb_false_leb x y :
  SF_not_nan x -> SF_not_nan y -> SFltb x y = false -> SFleb y x = true.
Proof.
  unfold SFltb, SFleb.
  destruct x as [sx|sx| |sx mx ex], y as [sy|sy| |sy my ey]; cbn;
    try contradiction; intros _ _;
    try (destruct sx); try (destruct sy);
    cbn; try discriminate; try reflexivity;
    change (Pos.compare_cont Eq) with Pos.compare;
    intros H1; crunch_cmp.
Qed.

Lemma leb_trans x y z :
  (x <=? y)%float = true -> (y <=? z)%float = true -> (x <=? z)%float = true.
Proof. rewrite !leb_spec. apply SFleb_trans. Qed.

Lemma ltb_leb x y : (x <? y)%float = true -> (x <=? y)%float = true.
Proof. rewrite ltb_spec, leb_spec. apply SFltb_leb. Qed.

Lemma ltb_false_leb x y :
  not_nan x -> not_nan y -> (x <? y)%float = false -> (y <=? x)%float = true.
Proof. rewrite !not_nan_SF, ltb_spec, leb_spec. apply SFltb_false_leb. Qed.

Lemma leb_not_nan x y : (x <=? y)%float = true -> not_nan x /\ not_nan y.
Proof.
  rewrite leb_spec, !not_nan_SF. unfold SFleb.
  destruct (Prim2SF x) as [sx|sx| |sx mx ex],
           (Prim2SF y) as [sy|sy| |sy my ey]; cbn;
    intros H; try discriminate; split; exact I.
Qed.

End FloatOrder.

(* ------------------------------------------------------------------ *)
(** ** Reranking *)

Import FloatOrder.

Lemma str_to_float_raises s e : PyStr.to_float s = Raise e -> e = ValueError.
Proof.
  unfold PyStr.to_float.
  destruct (PyStr.scan_sign (PyStr.skip_blanks s)) as [neg body].
  destruct (_ || _); [discriminate|].
  destruct (String.eqb _ "nan"); [discriminate|].
  destruct (PyStr.scan_digits body 0 0) as [[ip ni] r1].
  destruct (match r1 with
            | EmptyString => _
            | String c r => _
            end) as [[m nf] r2].
  destruct (ni + nf =? 0); [congruence|].
  destruct (PyStr.scan_exponent r2); congruence.
Qed.

Lemma parse_scores_numeric lines acc :
  parse_scores lines acc = Ok (acc ++ numeric_lines lines).
Proof.
  revert acc; induction lines as [|line lines IH]; intros acc; cbn.
  - rewrite app_nil_r. reflexivity.
  - destruct (PyStr.to_float (PyStr.strip line)) as [score|e] eqn:E.
    + rewrite IH, <- app_assoc. reflexivity.
    + rewrite (str_to_float_raises _ _ E). apply IH.
Qed.

Lemma nth_error_pad n scores i :
  (i < n)%nat ->
  nth_error (pad_scores n scores) i = Some (nth i scores 0%float).
Proof.
  intros Hi. unfold pad_scores.
  destruct (Nat.ltb_spec (List.length scores) n) as [Hlt|Hge].
  - destruct (Nat.lt_ge_cases i (List.length scores)) as [Hin|Hout].
    + rewrite nth_error_app1 by assumption.
      apply nth_error_nth'. assumption.
    + rewrite nth_error_app2 by assumption.
      rewrite (nth_overflow scores 0%float) by assumption.
      rewrite nth_error_repeat by lia. reflexivity.
  - apply nth_error_nth'. lia.
Qed.

Lemma score_results_scored n scores results i :
  (i + List.length results <= n)%nat ->
  score_results (pad_scores n scores) i results
  = scored_from scores i results.
Proof.
  revert i; induction results as [|r results IH]; intros i Hi; cbn;
    [reflexivity|].
  cbn in Hi. rewrite IH by lia. f_equal.
  unfold score_result, scored_at. rewrite nth_error_pad by lia. reflexivity.
Qed.

Lemma scored_from_base scores i results :
  map base (scored_from scores i results) = results.
Proof.
  revert i; induction results as [|r results IH]; intros i; cbn;
    [reflexivity|]. rewrite IH. reflexivity.
Qed.

Lemma scored_from_combined scores i results :
  Forall (fun r => combined_score r
                   = (0.3 * similarity_score (base r)
                      + 0.7 * (rerank_score r / 10))%float)
         (scored_from scores i results).
Proof.
  revert i; induction results as [|r results IH]; intros i; cbn;
    constructor; auto.
Qed.

Lemma scored_from_nth scores i results j r :
  nth_error results j = Some r ->
  nth_error (scored_from scores i results) j
  = Some (scored_at scores (i + j) r).
Proof.
  revert i j; induction results as [|r0 results IH]; intros i j H.
  - destruct j; discriminate.
  - destruct j as [|j]; cbn in *.
    + inv_Ok H. rewrite Nat.add_0_r. reflexivity.
    + rewrite (IH (S i) j H). f_equal. f_equal. lia.
Qed.

Lemma insert_desc_perm x l : Permutation (insert_desc x l) (x :: l).
Proof.
  induction l as [|y l IH]; cbn; [reflexivity|].
  destruct (combined_score x <? combined_score y)%float; [|reflexivity].
  rewrite IH. apply perm_swap.
Qed.

Lemma sorted_desc_perm l : Permutation (sorted_desc l) l.
Proof.
  induction l as [|x l IH]; cbn; [reflexivity|].
  rewrite insert_desc_perm. constructor. exact IH.
Qed.

Lemma insert_desc_sorted x l :
  not_nan (combined_score x) ->
  Forall (fun r => not_nan (combined_score r)) l ->
  StronglySorted combined_ge l ->
  StronglySorted combined_ge (insert_desc x l).
Proof.
  intros Hx Hl Hs. induction Hs as [|y l Hs IH Hy]; cbn.
  - repeat constructor.
  - inversion Hl as [|? ? Hny Hl']; subst.
    destruct (combined_score x <? combined_score y)%float eqn:E.
    + constructor; [auto|].
      apply (Permutation_Forall (Permutation_sym (insert_desc_perm x l))).
      constructor; [|assumption].
      unfold combined_ge. apply ltb_leb, E.
    + assert (Hxy : combined_ge x y)
        by (unfold combined_ge; apply ltb_false_leb; assumption).
      constructor; [constructor; assumption|].
      constructor; [assumption|].
      rewrite Forall_forall in Hy |- *. intros z Hz.
      unfold combined_ge in *. eapply leb_trans; [apply Hy, Hz|exact Hxy].
Qed.

Lemma sorted_desc_sorted l :
  Forall (fun r => not_nan (combined_score r)) l ->
  StronglySorted combined_ge (sorted_desc l).
Proof.
  induction 1 as [|x l Hx Hl IH]; cbn; [constructor|].
  apply insert_desc_sorted; [assumption| |assumption].
  apply (Permutation_Forall (Permutation_sym (sorted_desc_perm l))), Hl.
Qed.

Lemma rerank_nonempty content l :
  l <> [] ->
  _rerank_results content l
  = Ok (sorted_desc
          (scored_from
             (numeric_lines (PyStr.split "010"%char (PyStr.strip content)))
             0 l)).
Proof.
  intros H. destruct l as [|r0 l]; [congruence|].
  unfold _rerank_results. rewrite parse_scores_numeric. cbn [bind app].
  rewrite score_results_scored by (cbn; lia). reflexivity.
Qed.

(** [_rerank_results] returns, for every list of passages and every
    reply, a list of the same length that is a reordering of the input.
    The lines of the reply that convert to a number are the scores, in
    order: the passage at index [i] gets the [i]-th of them as
    [rerank_score], or 0 when there are fewer, and scores beyond the last
    passage are not used.  Each record has [combined_score] equal to
    0.3 * similarity_score + 0.7 * (rerank_score / 10) and, when no
    combined score is NaN, the records are in descending order of it.
    An empty input gives an empty result. *)
Theorem rerank_results_reorders_and_scores
    (content : string) (initial_results : list passage) :
  exists out,
    _rerank_results content initial_results = Ok out /\
    List.length out = List.length initial_results /\
    Permutation (map base out) initial_results /\
    Permutation out
      (scored_from
         (numeric_lines (PyStr.split "010"%char (PyStr.strip content)))
         0 initial_results) /\
    Forall (fun r => combined_score r
                     = (0.3 * similarity_score (base r)
                        + 0.7 * (rerank_score r / 10))%float) out /\
    (Forall (fun r => (combined_score r =? combined_score r)%float = true) out ->
     StronglySorted
       (fun x y => (combined_score y <=? combined_score x)%float = true) out) /\
    (initial_results = [] -> out = []).
Proof.
  assert (Hc : initial_results = [] \/ initial_results <> [])
    by (destruct initial_results; [left; reflexivity|right; discriminate]).
  destruct Hc as [->|Hne].
  - exists []. cbn. repeat split; auto; constructor.
  - rewrite (rerank_nonempty content initial_results Hne).
    set (scores := numeric_lines _).
    pose proof (sorted_desc_perm (scored_from scores 0 initial_results)) as Hp.
    eexists. split; [reflexivity|]. split; [|split; [|split; [|split; [|split]]]].
    + rewrite (Permutation_length Hp).
      rewrite <- (length_map base), scored_from_base. reflexivity.
    + rewrite (Permutation_map base Hp), scored_from_base. reflexivity.
    + exact Hp.
    + apply (Permutation_Forall (Permutation_sym Hp)), scored_from_combined.
    + intros Hn. apply sorted_desc_sorted.
      apply (Permutation_Forall Hp), Hn.
    + intros E. contradiction.
Qed.

Example rerank_sorts_numeric_reply :
  exists out,
    _rerank_results "7
9.5" [sample_passage "a"; sample_passage "b"; sample_passage "c"] = Ok out /\
    StronglySorted
      (fun x y => (combined_score y <=? combined_score x)%float = true) out.
Proof.
  destruct (rerank_results_reorders_and_scores "7
9.5" [sample_passage "a"; sample_passage "b"; sample_passage "c"])
    as [out [Hr [_ [_ [_ [_ [Hs _]]]]]]].
  exists out. split; [exact Hr|]. apply Hs.
  vm_compute in Hr. injection Hr as <-. repeat constructor.
Qed.

Lemma sorted_desc_no_ascent l : no_ascent l = true -> sorted_desc l = l.
Proof.
  induction l as [|x l IH]; cbn [no_ascent sorted_desc fold_right];
    [reflexivity|].
  destruct l as [|y l]; [reflexivity|]. intros H.
  apply andb_true_iff in H. destruct H as [Hxy Hl].
  fold (sorted_desc (y :: l)). rewrite (IH Hl). cbn [insert_desc].
  apply negb_true_iff in Hxy. rewrite Hxy. reflexivity.
Qed.

(** A list of two records or more in descending order of the combined
    score holds no NaN: [<=] is false as soon as one side is NaN. *)
Lemma descending_has_no_nan l :
  StronglySorted combined_ge l ->
  (2 <= List.length l)%nat ->
  Forall (fun r => not_nan (combined_score r)) l.
Proof.
  intros Hs Hl. destruct Hs as [|x l' _ Hx]; [cbn in Hl; lia|].
  destruct l' as [|y l']; [cbn in Hl; lia|].
  constructor.
  - apply Forall_inv in Hx. exact (proj2 (leb_not_nan _ _ Hx)).
  - apply (Forall_impl _ (P := combined_ge x)); [|exact Hx].
    intros r Hr. exact (proj1 (leb_not_nan _ _ Hr)).
Qed.

(** C8. A line "nan" is no number, yet [float] converts it, to NaN, and
    the line is taken as a score.  On the reply "1", "nan", "9" for
    three passages of equal similarity the second record gets NaN as
    [rerank_score] and as [combined_score]; the records come back in
    the order they had, the first with a combined score below that of
    the third; and no order of the three records is descending in the
    combined score, so the result is not sorted whatever the sort
    does. *)
Theorem C8_nan_line_is_scored :
  exists out first second third,
    _rerank_results "1
nan
9" [sample_passage "a"; sample_passage "b"; sample_passage "c"] = Ok out /\
    out = [first; second; third] /\
    map (fun r => text (base r)) out = ["a"; "b"; "c"]%string /\
    numeric_lines ["1"; "nan"; "9"]%string = [1; nan; 9]%float /\
    (rerank_score second =? rerank_score second)%float = false /\
    (combined_score second =? combined_score second)%float = false /\
    (combined_score first <? combined_score third)%float = true /\
    (forall out', Permutation out' out -> ~ StronglySorted combined_ge out').
Proof.
  do 4 eexists.
  split; [vm_compute; reflexivity|].
  split; [reflexivity|].
  repeat (split; [vm_compute; reflexivity|]).
  intros out' Hp Hs.
  pose proof (descending_has_no_nan out' Hs) as Hn.
  rewrite (Permutation_length Hp) in Hn. specialize (Hn (le_S _ _ (le_n 2))).
  apply (Permutation_Forall Hp) in Hn.
  apply Forall_inv_tail, Forall_inv in Hn.
  vm_compute in Hn. discriminate.
Qed.

Example rerank_pads_and_sorts :
  let results := [sample_passage "a"; sample_passage "b"; sample_passage "c"] in
  exists out,
    _rerank_results "7
nota: alta
 9.5 " results = Ok out /\
    map (fun r => text (base r)) out = ["b"; "a"; "c"]%string /\
    map rerank_score out = [9.5; 7; 0]%float.
Proof. eexists. repeat split; vm_compute; reflexivity. Qed.

Example rerank_ignores_extra_scores :
  exists out,
    _rerank_results "1
2
3" [sample_passage "a"; sample_passage "b"] = Ok out /\
    map (fun r => text (base r)) out = ["b"; "a"]%string /\
    map rerank_score out = [2; 1]%float.
Proof. eexists. repeat split; vm_compute; reflexivity. Qed.

(* ------------------------------------------------------------------ *)
(** ** The allocator: sources without content *)

Lemma filterM_nil {A} (f : A -> result bool) l :
  (forall x, In x l -> f x = Ok false) -> filterM f l = Ok [].
Proof.
  induction l as [|y l IH]; cbn; intros H; [reflexivity|].
  rewrite (H y (or_introl eq_refl)). cbn.
  rewrite IH by auto. reflexivity.
Qed.

Lemma in_keys_inv {V} (d : dict V) k : In k (keys d) -> exists v, In (k, v) d.
Proof.
  intros H. apply in_map_iff in H. destruct H as [[k' v] [E H]].
  cbn in E. subst. eauto.
Qed.

Lemma active_keys_positive p t active k :
  active_of p t = Ok active -> In k (keys active) ->
  exists n, dict_get t k = Some n /\ 0 < n.
Proof.
  intros H Hk. destruct (in_keys_inv _ _ Hk) as [v Hv].
  exact (active_of_positive _ _ _ _ _ H Hv).
Qed.

Lemma normalize_keys total active nz k :
  normalize total active = Ok nz -> ~ In k (keys active) ->
  dict_get nz k = None.
Proof.
  intros H Hk. destruct (dict_get nz k) as [q|] eqn:E; [|reflexivity].
  destruct (normalize_get _ _ _ _ _ H E) as [v [Hv _]].
  elim Hk. exact (In_keys _ _ _ Hv).
Qed.

Lemma first_pass_frame B nz k :
  dict_get nz k = None ->
  forall ks a a', a k = 0 -> first_pass B nz ks a = Ok a' -> a' k = 0.
Proof.
  intros Hk. induction ks as [|source ks IH]; cbn; intros a a' Ha H.
  - inv_Ok H. exact Ha.
  - destruct (String.eqb_spec k source) as [<-|Hne].
    + rewrite Hk in H. refine (IH _ _ _ H). apply alloc_set_same.
    + destruct (dict_get nz source).
      * inv_bind H as x Ex. inv_bind H as n En. refine (IH _ _ _ H).
        rewrite alloc_set_other; assumption.
      * refine (IH _ _ _ H). rewrite alloc_set_other; assumption.
Qed.

Lemma adjust_frame B ks active a a' k :
  ~ In k (keys active) -> adjust B ks active a = Ok a' -> a' k = a k.
Proof.
  intros Hk H. unfold adjust in H.
  destruct (negb (B - alloc_sum ks a =? 0) && nonempty active).
  - inv_bind H as m Em. inv_Ok H. apply alloc_add_other.
    intros ->. apply Hk. exact (max_key_In _ _ Em).
  - inv_Ok H. reflexivity.
Qed.

Lemma proportional_frame B p active a k :
  ~ In k (keys active) ->
  proportional_allocation B p active = Ok a -> a k = 0.
Proof.
  intros Hk H. unfold proportional_allocation in H.
  inv_bind H as nz Enz. inv_bind H as a0 Ea0.
  rewrite (adjust_frame _ _ _ _ _ _ Hk H).
  exact (first_pass_frame _ _ _ (normalize_keys _ _ _ _ Enz Hk)
                          _ _ _ eq_refl Ea0).
Qed.

Lemma distribute_frame total cands k :
  ~ In k (keys cands) ->
  forall a e a' e', distribute total cands a e = Ok (a', e') -> a' k = a k.
Proof.
  induction cands as [|[c v] cands IH]; cbn; intros Hk a e a' e' H.
  - inv_Ok H. reflexivity.
  - inv_bind H as q Eq. inv_bind H as x Ex. inv_bind H as share Es.
    rewrite (IH ltac:(tauto) _ _ _ _ H).
    apply alloc_add_other. intros ->. tauto.
Qed.

Lemma candidates_of_not_source t active source a cands :
  candidates_of t active source a = Ok cands -> ~ In source (keys cands).
Proof.
  intros H Hs. destruct (in_keys_inv _ _ Hs) as [v Hv].
  destruct (filterM_In _ _ _ H _ Hv) as [_ Hf]. cbn in Hf.
  rewrite String.eqb_refl in Hf. discriminate.
Qed.

Lemma candidates_of_keys t active source a cands k :
  candidates_of t active source a = Ok cands ->
  In k (keys cands) -> In k (keys active).
Proof.
  intros H Hk. destruct (in_keys_inv _ _ Hk) as [v Hv].
  exact (In_keys _ _ _ (candidates_of_incl _ _ _ _ _ H _ Hv)).
Qed.

(** What the cap step of one source does to the other sources: only
    candidates can change. *)
Lemma cap_source_frame t active a source a' k :
  cap_source t active a source = Ok a' ->
  k <> source -> ~ In k (keys active) -> a' k = a k.
Proof.
  intros H Hne Hk. unfold cap_source in H.
  inv_bind H as limit El.
  destruct (limit <? a source); [|inv_Ok H; reflexivity].
  inv_bind H as cands Ec.
  assert (Hkc : ~ In k (keys cands))
    by (intros Hc; apply Hk; exact (candidates_of_keys _ _ _ _ _ _ Ec Hc)).
  assert (H1 : alloc_set a source limit k = a k)
    by (apply alloc_set_other; assumption).
  destruct cands as [|c cands]; [inv_Ok H; exact H1|].
  inv_bind H as r Er. destruct r as [a2 e2].
  pose proof (distribute_frame _ _ _ Hkc _ _ _ _ Er) as H2.
  destruct (0 <? e2).
  - inv_bind H as m Em. inv_Ok H.
    rewrite alloc_add_other; [congruence|].
    intros ->. apply Hkc. exact (max_key_In _ _ Em).
  - inv_Ok H. congruence.
Qed.

(** What the cap step of a source does to that source: it ends within
    its cap. *)
Lemma cap_source_self t active a source a' limit :
  cap_source t active a source = Ok a' ->
  getitem t source = Ok limit ->
  a' source = Z.min (a source) limit.
Proof.
  intros H Hl. unfold cap_source in H. rewrite Hl in H. cbn [bind] in H.
  destruct (Z.ltb_spec limit (a source)) as [Hlt|Hge];
    [|inv_Ok H; lia].
  inv_bind H as cands Ec.
  pose proof (candidates_of_not_source _ _ _ _ _ Ec) as Hkc.
  assert (H1 : alloc_set a source limit source = Z.min (a source) limit)
    by (rewrite alloc_set_same; lia).
  destruct cands as [|c cands]; [inv_Ok H; exact H1|].
  inv_bind H as r Er. destruct r as [a2 e2].
  pose proof (distribute_frame _ _ _ Hkc _ _ _ _ Er) as H2.
  destruct (0 <? e2).
  - inv_bind H as m Em. inv_Ok H.
    rewrite alloc_add_other; [congruence|].
    intros ->. apply Hkc. exact (max_key_In _ _ Em).
  - inv_Ok H. congruence.
Qed.

Lemma enforce_caps_keeps_empty t active k :
  dict_get t k = Some 0 -> ~ In k (keys active) ->
  forall ks a a',
    a k = 0 -> enforce_caps t active ks a = Ok a' -> a' k = 0.
Proof.
  intros Ht Hk. induction ks as [|source ks IH]; cbn; intros a a' Ha H.
  - inv_Ok H. exact Ha.
  - inv_bind H as a1 E1. refine (IH _ _ _ H).
    destruct (String.eqb_spec k source) as [<-|Hne].
    + rewrite (cap_source_self _ _ _ _ _ 0 E1);
        [lia|apply getitem_Ok, Ht].
    + rewrite (cap_source_frame _ _ _ _ _ _ E1 Hne Hk). exact Ha.
Qed.

Lemma dict_get_zeros (p : dict float) k :
  In k (keys p) -> dict_get (map (fun kv => (fst kv, 0)) p) k = Some 0.
Proof.
  induction p as [|[k0 v0] p IH]; cbn; [contradiction|].
  destruct (String.eqb_spec k0 k); [reflexivity|].
  intros [H|H]; [contradiction|auto].
Qed.

Lemma allocate_keeps_empty B p t r k :
  _allocate_tokens B p t = Ok r ->
  In k (keys p) -> dict_get t k = Some 0 -> dict_get r k = Some 0.
Proof.
  intros H Hk Ht. unfold _allocate_tokens in H.
  inv_bind H as active Ea.
  assert (Hka : ~ In k (keys active)).
  { intros Hc. destruct (active_keys_positive _ _ _ _ Ea Hc) as [n [Hn Hpos]].
    rewrite Ht in Hn. inv_Ok Hn. lia. }
  destruct active as [|kv active].
  - inv_Ok H. apply dict_get_zeros, Hk.
  - inv_bind H as a0 E0. inv_bind H as a1 E1. inv_Ok H.
    rewrite (dict_get_render _ _ _ Hk). f_equal.
    refine (enforce_caps_keeps_empty _ _ _ Ht Hka _ _ _ _ E1).
    exact (proportional_frame _ _ _ _ _ Hka E0).
Qed.

(** X1. Whenever [_allocate_tokens] returns, a source of [priorities]
    whose content counts 0 tokens is allocated 0, whatever its weight
    and whatever the weights of the others. *)
Theorem X1_empty_source_gets_zero
    (B : Z) (priorities : dict float) (initial_tokens r : dict Z)
    (s : string) :
  _allocate_tokens B priorities initial_tokens = Ok r ->
  In s (keys priorities) ->
  dict_get initial_tokens s = Some 0 ->
  dict_get r s = Some 0.
Proof.
  intros Hr Hs Ht.
  exact (allocate_keeps_empty B priorities initial_tokens r s Hr Hs Ht).
Qed.

Lemma X1_witness :
  dict_get (sources5 5500 500 0 0 0) "design_guidelines" = Some 0.
Proof.
  apply (X1_empty_source_gets_zero 6000
           [("chunks"%string, 0.5%float);
            ("product_guidelines"%string, 0.125%float);
            ("design_guidelines"%string, 0.125%float);
            ("benchmarks"%string, 0.125%float);
            ("team_objectives"%string, 0.125%float)]
           (sources5 8000 500 0 0 0)
           (sources5 5500 500 0 0 0) "design_guidelines").
  - vm_compute. reflexivity.
  - cbn. tauto.
  - reflexivity.
Defined.

(* ------------------------------------------------------------------ *)
(** ** The allocator: a source missing from the token counts *)

Lemma active_of_missing p t k :
  In k (keys p) -> dict_get t k = None ->
  exists k', active_of p t = Raise (KeyError k') /\
             In k' (keys p) /\ dict_get t k' = None.
Proof.
  unfold active_of.
  induction p as [|[k0 v0] p IH]; cbn [keys map fst In filterM];
    intros Hk Ht; [contradiction|].
  unfold getitem at 1. destruct (dict_get t k0) as [n|] eqn:E0.
  - destruct Hk as [->|Hk]; [congruence|].
    destruct (IH Hk Ht) as [k' [Hr [Hin Hn]]].
    exists k'. cbn [bind]. rewrite Hr. cbn. auto.
  - exists k0. cbn. auto.
Qed.

(** X2. When [initial_tokens] lacks a key of [priorities],
    [_allocate_tokens] raises [KeyError] on such a key: line 534 reads
    [initial_tokens[k]] for every key of [priorities], before anything
    is allocated. *)
Theorem X2_missing_count_raises_KeyError
    (B : Z) (priorities : dict float) (initial_tokens : dict Z)
    (k : string) :
  In k (keys priorities) ->
  dict_get initial_tokens k = None ->
  exists k',
    _allocate_tokens B priorities initial_tokens = Raise (KeyError k') /\
    In k' (keys priorities) /\ dict_get initial_tokens k' = None.
Proof.
  intros Hk Ht. destruct (active_of_missing _ _ _ Hk Ht) as [k' [Hr H]].
  exists k'. split; [|exact H].
  unfold _allocate_tokens. rewrite Hr. reflexivity.
Qed.

Lemma X2_witness :
  exists k',
    _allocate_tokens 6000 (_get_priorities_by_objective "informative")
                     [("chunks"%string, 8000)]
    = Raise (KeyError k') /\
    In k' (keys (_get_priorities_by_objective "informative")) /\
    dict_get [("chunks"%string, 8000)] k' = None.
Proof.
  apply (X2_missing_count_raises_KeyError 6000
           (_get_priorities_by_objective "informative")
           [("chunks"%string, 8000)] "benchmarks").
  - cbn. tauto.
  - reflexivity.
Defined.

(* ------------------------------------------------------------------ *)
(** ** The allocator: one source with content *)

Lemma alloc_sum_single ks a s :
  NoDup ks -> In s ks -> (forall k, In k ks -> k <> s -> a k = 0) ->
  alloc_sum ks a = a s.
Proof.
  rewrite alloc_sum_map.
  intros Hnd. induction Hnd as [|k ks Hk Hnd IH]; intros Hs Hz;
    [contradiction|]. cbn.
  assert (Hrest : forall l, (forall x, In x l -> x <> s -> a x = 0) ->
                            ~ In s l -> fold_right Z.add 0 (map a l) = 0).
  { induction l as [|x l IHl]; cbn; intros Hl Hn; [reflexivity|].
    rewrite (Hl x) by tauto. rewrite IHl; [lia| |tauto].
    intros y Hy. apply Hl. tauto. }
  destruct Hs as [->|Hs].
  - rewrite Hrest; [lia| |assumption].
    intros x Hx. apply Hz. right; assumption.
  - rewrite IH; [|assumption|intros x Hx; apply Hz; right; assumption].
    rewrite (Hz k); [lia|left; reflexivity|].
    intros ->. contradiction.
Qed.

Section SingleSource.

Variable priorities : dict float.
Variable initial_tokens : dict Z.
Variable s : string.
Variable n : Z.

Hypothesis Hs : In s (keys priorities).
Hypothesis Hn : dict_get initial_tokens s = Some n.
Hypothesis Hothers :
  forall k, In k (keys priorities) -> k <> s ->
            dict_get initial_tokens k = Some 0.

Lemma active_only_s active k :
  active_of priorities initial_tokens = Ok active ->
  In k (keys active) -> k = s.
Proof.
  intros Ha Hk.
  destruct (active_keys_positive _ _ _ _ Ha Hk) as [m [Hm Hpos]].
  destruct (String.eqb_spec k s) as [|Hne]; [assumption|].
  destruct (in_keys_inv _ _ Hk) as [v Hv].
  pose proof (In_keys _ _ _ (active_of_incl _ _ _ Ha _ Hv)) as Hp.
  rewrite (Hothers k Hp Hne) in Hm. inv_Ok Hm. lia.
Qed.

Lemma cap_s_alone active a a' :
  active_of priorities initial_tokens = Ok active ->
  cap_source initial_tokens active a s = Ok a' ->
  a' = (if n <? a s then alloc_set a s n else a).
Proof.
  intros Ha H. unfold cap_source in H.
  rewrite (proj2 (getitem_Ok _ _ _) Hn) in H. cbn [bind] in H.
  destruct (n <? a s); [|inv_Ok H; reflexivity].
  inv_bind H as cands Ec.
  destruct cands as [|[c v] cands]; [inv_Ok H; reflexivity|].
  exfalso. apply (candidates_of_not_source _ _ _ _ _ Ec).
  assert (Hc : In c (keys active))
    by (apply (candidates_of_keys _ _ _ _ _ _ Ec); left; reflexivity).
  rewrite <- (active_only_s _ _ Ha Hc). left; reflexivity.
Qed.

Lemma enforce_caps_single active :
  active_of priorities initial_tokens = Ok active ->
  forall ks a a',
    incl ks (keys priorities) ->
    (forall k, In k (keys priorities) -> k <> s -> a k = 0) ->
    enforce_caps initial_tokens active ks a = Ok a' ->
    (forall k, In k (keys priorities) -> k <> s -> a' k = 0) /\
    a' s = (if existsb (String.eqb s) ks then Z.min (a s) n else a s).
Proof.
  intros Ha. induction ks as [|source ks IH]; cbn [enforce_caps existsb];
    intros a a' Hks Hz H.
  - inv_Ok H. auto.
  - inv_bind H as a1 E1.
    assert (Hks' : incl ks (keys priorities))
      by (intros x Hx; apply Hks; right; exact Hx).
    destruct (String.eqb_spec s source) as [<-|Hne].
    + rewrite (cap_s_alone _ _ _ Ha E1) in H.
      assert (Hz1 : forall k, In k (keys priorities) -> k <> s ->
                              (if n <? a s then alloc_set a s n else a) k = 0).
      { intros k Hk Hks0. destruct (n <? a s); [|auto].
        rewrite alloc_set_other; auto. }
      destruct (IH _ _ Hks' Hz1 H) as [Hz' Hs'].
      split; [exact Hz'|]. rewrite Hs'. cbn [orb].
      destruct (Z.ltb_spec n (a s)).
      * rewrite alloc_set_same. destruct (existsb _ ks); lia.
      * destruct (existsb _ ks); lia.
    + assert (Hsrc : In source (keys priorities))
        by (apply Hks; left; reflexivity).
      assert (Hsrc0 : source <> s) by congruence.
      rewrite (cap_source_within _ _ _ _ 0) in E1;
        [|apply getitem_Ok, Hothers; assumption
         |rewrite (Hz source Hsrc Hsrc0); lia].
      inv_Ok E1. cbn [orb]. exact (IH _ _ Hks' Hz H).
Qed.

Lemma allocate_single B r :
  wf_dict priorities -> 0 < n ->
  _allocate_tokens B priorities initial_tokens = Ok r ->
  r = map (fun k => (k, if String.eqb k s then Z.min B n else 0))
          (keys priorities).
Proof.
  intros Hwf Hpos H. unfold _allocate_tokens in H.
  inv_bind H as active Ea.
  assert (Hne : active <> []).
  { intros ->. destruct (in_keys_inv _ _ Hs) as [v Hv].
    refine (in_nil (filterM_kept _ _ _ Ea (s, v) Hv _)).
    cbn. rewrite (proj2 (getitem_Ok _ _ _) Hn). cbn.
    rewrite (proj2 (Z.ltb_lt _ _) Hpos). reflexivity. }
  destruct active as [|kv rest]; [congruence|].
  - inv_bind H as a0 E0. inv_bind H as a1 E1. inv_Ok H.
    assert (Hz0 : forall k, In k (keys priorities) -> k <> s -> a0 k = 0).
    { intros k Hk Hk0. refine (proportional_frame _ _ _ _ _ _ E0).
      intros Hc. exact (Hk0 (active_only_s _ _ Ea Hc)). }
    assert (Hsum : alloc_sum (keys priorities) a0 = B).
    { unfold proportional_allocation in E0.
      inv_bind E0 as nz Enz. inv_bind E0 as af Eaf.
      exact (adjust_sum _ _ _ _ _ Hwf (active_of_incl _ _ _ Ea) Hne E0). }
    rewrite (alloc_sum_single _ _ s (proj1 (nodupb_NoDup _) Hwf) Hs Hz0)
      in Hsum.
    destruct (enforce_caps_single _ Ea _ _ _ (incl_refl _) Hz0 E1)
      as [Hz1 Hs1].
    rewrite (proj2 (existsb_eqb_In _ _) Hs), Hsum in Hs1.
    unfold render. apply map_ext_in. intros k Hk.
    destruct (String.eqb_spec k s) as [->|Hks].
    + rewrite Hs1. reflexivity.
    + rewrite (Hz1 k Hk Hks). reflexivity.
Qed.

End SingleSource.

(** X3. When exactly one source has content and [_allocate_tokens]
    returns, that source is allocated the smaller of the budget and its
    own token count, and every other source 0. *)
Theorem X3_single_source_allocation
    (B : Z) (priorities : dict float) (initial_tokens r : dict Z)
    (s : string) (n : Z) :
  wf_dict priorities ->
  In s (keys priorities) ->
  dict_get initial_tokens s = Some n ->
  0 < n ->
  (forall k, In k (keys priorities) -> k <> s ->
             dict_get initial_tokens k = Some 0) ->
  _allocate_tokens B priorities initial_tokens = Ok r ->
  r = map (fun k => (k, if String.eqb k s then Z.min B n else 0))
          (keys priorities).
Proof.
  intros Hwf Hs Hn Hpos Ho Hr.
  exact (allocate_single priorities initial_tokens s n Hs Hn Ho B r
                         Hwf Hpos Hr).
Qed.

Lemma X3_witness :
  sources5 6000 0 0 0 0
  = map (fun k => (k, if String.eqb k "chunks" then Z.min 6000 8000 else 0))
        (keys (_get_priorities_by_objective "benchmark")).
Proof.
  apply (X3_single_source_allocation 6000
           (_get_priorities_by_objective "benchmark")
           (sources5 8000 0 0 0 0) (sources5 6000 0 0 0 0) "chunks" 8000).
  - reflexivity.
  - cbn. tauto.
  - reflexivity.
  - lia.
  - intros k Hk Hne. cbn in Hk.
    repeat (destruct Hk as [<-|Hk]; [try reflexivity; congruence|]).
    contradiction.
  - vm_compute. reflexivity.
Defined.

(* ------------------------------------------------------------------ *)
(** ** The two tables of the selector *)

Lemma priorities_rows objective :
  wf_dict (_get_priorities_by_objective objective) /\
  Forall (fun kv => is_nonneg (snd kv))
         (_get_priorities_by_objective objective) /\
  keys (_get_priorities_by_objective objective)
  = keys (sources5 0 0 0 0 0).
Proof.
  unfold _get_priorities_by_objective, priority_matrix. cbn [dict_get].
  repeat match goal with
         | |- context [String.eqb ?a objective] =>
             destruct (String.eqb a objective)
         end;
    (split; [reflexivity|split; [repeat constructor|reflexivity]]).
Qed.

(** X4. The two tables agree in one direction, for every objective: a
    source with a positive priority weight is a source that
    [_select_relevant_sources] selects. *)
Theorem X4_weighted_source_is_selected
    (objective source : string) (w : float) :
  dict_get (_get_priorities_by_objective objective) source = Some w ->
  (0 <? w)%float = true ->
  dict_get (_select_relevant_sources objective) source = Some true.
Proof.
  unfold _get_priorities_by_objective, priority_matrix,
         _select_relevant_sources, selection_matrix.
  cbn [dict_get].
  repeat match goal with
         | |- context [String.eqb ?a objective] =>
             destruct (String.eqb a objective)
         end;
    unfold informative_priorities, informative_sources, sources5;
    cbn [dict_get];
    repeat match goal with
           | |- context [String.eqb ?a source] =>
               destruct (String.eqb a source)
           end;
    intros Hw Hpos; try discriminate; try reflexivity;
    inv_Ok Hw; vm_compute in Hpos; discriminate.
Qed.

Lemma X4_witness :
  dict_get (_select_relevant_sources "benchmark") "benchmarks" = Some true.
Proof.
  apply (X4_weighted_source_is_selected "benchmark" "benchmarks" 0.1%float).
  - reflexivity.
  - vm_compute. reflexivity.
Defined.

(** The converse fails: under hypothesis, benchmarks are selected and
    weigh nothing. *)
Example selected_source_without_weight :
  dict_get (_select_relevant_sources "hypothesis") "benchmarks" = Some true /\
  dict_get (_get_priorities_by_objective "hypothesis") "benchmarks"
  = Some 0%float.
Proof. split; reflexivity. Qed.

(* ------------------------------------------------------------------ *)
(** ** Runs of the compression driver *)

Lemma io_bind_run {A B} (m : io A) (k : A -> io B) tr r tr' :
  io_bind m k tr = (r, tr') ->
  (exists a tr1, m tr = (Ok a, tr1) /\ k a tr1 = (r, tr')) \/
  (exists e, m tr = (Raise e, tr') /\ r = Raise e).
Proof.
  unfold io_bind. destruct (m tr) as [[a|e] tr1]; intros H.
  - left. eauto.
  - right. inv_Ok H. eauto.
Qed.

Lemma io_bind_Ok {A B} (m : io A) (k : A -> io B) tr b tr' :
  io_bind m k tr = (Ok b, tr') ->
  exists a tr1, m tr = (Ok a, tr1) /\ k a tr1 = (Ok b, tr').
Proof.
  intros H. destruct (io_bind_run _ _ _ _ _ H) as [H1|[e [_ H1]]];
    [exact H1|discriminate].
Qed.

Lemma count_tokens_nonneg text : 0 <= _count_tokens text.
Proof.
  unfold _count_tokens. destruct text; [lia|].
  apply Z.div_pos; lia.
Qed.

Section CompressBlock.

Variable complete : string -> string -> string -> Z -> string.

Lemma compress_component_run query text name max_tokens tr r tr' :
  0 < max_tokens ->
  _compress_component complete query text name max_tokens tr = (r, tr') ->
  reaches 1 tr tr'.
Proof.
  intros Hpos. unfold reaches, _compress_component.
  destruct (Z.leb_spec (_count_tokens text) max_tokens) as [Hle|Hgt].
  - unfold io_ret. intros H. inv_Ok H. exists [].
    rewrite app_nil_r. cbn. auto.
  - unfold io_bind, io_emit, io_ret. intros H. inv_Ok H.
    exists [Completion name text max_tokens]. cbn.
    rewrite (proj2 (Z.ltb_lt _ _) Hpos), (proj2 (Z.ltb_lt _ _) Hgt). auto.
Qed.

Lemma compress_block_run query text name key token_allocation tr r tr' :
  compress_block complete query text name key token_allocation tr = (r, tr') ->
  reaches 1 tr tr'.
Proof.
  unfold reaches.
  assert (Hnil : forall x : result string,
             exists es, tr = tr ++ es /\ (List.length es <= 1)%nat /\
                        forallb compresses es = true)
    by (intros _; exists []; rewrite app_nil_r; cbn; auto).
  unfold compress_block. destruct (PyStr.truthy text).
  - unfold io_bind, io_lift. destruct (getitem token_allocation key) as [n|e].
    + destruct (Z.ltb_spec 0 n) as [Hpos|Hle].
      * apply compress_component_run, Hpos.
      * unfold io_ret. intros H. inv_Ok H. exact (Hnil (Ok EmptyString)).
    + intros H. inv_Ok H. exact (Hnil (Raise e)).
  - unfold io_ret. intros H. inv_Ok H. exact (Hnil (Ok EmptyString)).
Qed.

Lemma compress_block_dropped query text name key token_allocation tr :
  dict_get token_allocation key = Some 0 ->
  compress_block complete query text name key token_allocation tr
  = (Ok EmptyString, tr).
Proof.
  intros H. unfold compress_block. destruct (PyStr.truthy text);
    [|reflexivity].
  unfold io_bind, io_lift. rewrite (proj2 (getitem_Ok _ _ _) H).
  reflexivity.
Qed.

Lemma compress_block_empty query name key token_allocation tr :
  compress_block complete query EmptyString name key token_allocation tr
  = (Ok EmptyString, tr).
Proof. reflexivity. Qed.

End CompressBlock.

Lemma reaches_refl n tr : (0 <= n)%nat -> reaches n tr tr.
Proof.
  intros _. exists []. rewrite app_nil_r. cbn. split; [reflexivity|].
  split; [lia|reflexivity].
Qed.

Lemma reaches_trans n1 n2 t0 t1 t2 :
  reaches n1 t0 t1 -> reaches n2 t1 t2 -> reaches (n1 + n2) t0 t2.
Proof.
  intros [e1 [-> [L1 F1]]] [e2 [-> [L2 F2]]]. exists (e1 ++ e2).
  rewrite app_assoc, length_app, forallb_app, F1, F2.
  split; [reflexivity|]. split; [lia|reflexivity].
Qed.

Lemma reaches_weaken n m t0 t1 : (n <= m)%nat -> reaches n t0 t1 -> reaches m t0 t1.
Proof. intros Hle [es [-> [L F]]]. exists es. split; [reflexivity|]. split; [lia|exact F]. Qed.

Lemma bind_reaches {A B} (m : io A) (k : A -> io B) n1 n2 tr r tr' :
  (forall r1 t1, m tr = (r1, t1) -> reaches n1 tr t1) ->
  (forall a t1 r2 t2, k a t1 = (r2, t2) -> reaches n2 t1 t2) ->
  io_bind m k tr = (r, tr') -> reaches (n1 + n2) tr tr'.
Proof.
  intros Hm Hk H. apply io_bind_run in H.
  destruct H as [[a [t1 [Em H]]]|[e [Em _]]].
  - exact (reaches_trans _ _ _ _ _ (Hm _ _ Em) (Hk _ _ _ _ H)).
  - apply (reaches_weaken n1); [lia|]. exact (Hm _ _ Em).
Qed.

Ltac io_step H a tr1 E :=
  apply io_bind_Ok in H; destruct H as [a [tr1 [E H]]].

(** What an over-budget run that returns goes through. *)
Lemma compress_context_over B complete query chunks pg dg bm to objective
      tr c tr' :
  let initial_tokens :=
    sources5 (_count_tokens (PyStr.join sep2 (map text chunks)))
             (_count_tokens (PyStr.join sep2 pg))
             (_count_tokens (PyStr.join sep2 dg))
             (_count_tokens (PyStr.join sep2 bm))
             (_count_tokens (PyStr.join sep2 to)) in
  B < fold_left Z.add (values initial_tokens) 0 ->
  _compress_context B complete query chunks pg dg bm to objective tr
  = (Ok c, tr') ->
  exists token_allocation t0 t1 t2 t3 t4,
    _allocate_tokens B (_get_priorities_by_objective objective)
                     initial_tokens = Ok token_allocation /\
    compress_block complete query (PyStr.join sep2 (map text chunks))
                   "chunks recuperados" "chunks" token_allocation t0
    = (Ok (c_chunks c), t1) /\
    compress_block complete query (PyStr.join sep2 pg)
                   "diretrizes de produto" "product_guidelines"
                   token_allocation t1
    = (Ok (c_product_guidelines c), t2) /\
    compress_block complete query (PyStr.join sep2 dg)
                   "diretrizes de design" "design_guidelines"
                   token_allocation t2
    = (Ok (c_design_guidelines c), t3) /\
    compress_block complete query (PyStr.join sep2 bm)
                   "benchmarks" "benchmarks" token_allocation t3
    = (Ok (c_benchmarks c), t4) /\
    compress_block complete query (PyStr.join sep2 to)
                   "objetivos do time" "team_objectives" token_allocation t4
    = (Ok (c_team_objectives c), tr') /\
    c_total_tokens c
    = fold_left Z.add
        [ _count_tokens (c_chunks c); _count_tokens (c_product_guidelines c);
          _count_tokens (c_design_guidelines c);
          _count_tokens (c_benchmarks c);
          _count_tokens (c_team_objectives c) ] 0.
Proof.
  cbv zeta. intros Hover H. unfold _compress_context in H.
  rewrite (proj2 (Z.leb_gt _ _) Hover) in H.
  io_step H u t0 Eu. io_step H token_allocation t0' Ea.
  unfold io_lift in Ea. inv_Ok Ea.
  io_step H c0 t1 E0. io_step H c1 t2 E1. io_step H c2 t3 E2.
  io_step H c3 t4 E3. io_step H c4 t5 E4.
  unfold io_ret in H. inv_Ok H. cbn [c_chunks c_product_guidelines
    c_design_guidelines c_benchmarks c_team_objectives c_total_tokens].
  exists token_allocation, t0', t1, t2, t3, t4. auto 10.
Qed.

(** X5. Whatever path [_compress_context] takes, the [total_tokens] it
    returns is the sum of the estimates of the five blocks it returns. *)
Theorem X5_total_tokens_counts_returned_blocks
    (max_total_tokens : Z)
    (complete : string -> string -> string -> Z -> string)
    (query : string) (chunks : list passage)
    (product_guidelines design_guidelines benchmarks team_objectives
       : list string)
    (objective : string) (tr tr' : list event) (c : compressed) :
  _compress_context max_total_tokens complete query chunks
                    product_guidelines design_guidelines benchmarks
                    team_objectives objective tr = (Ok c, tr') ->
  c_total_tokens c
  = _count_tokens (c_chunks c) + _count_tokens (c_product_guidelines c)
    + _count_tokens (c_design_guidelines c) + _count_tokens (c_benchmarks c)
    + _count_tokens (c_team_objectives c).
Proof.
  intros H.
  destruct (Z.leb_spec
              (fold_left Z.add
                 (values
                    (sources5
                       (_count_tokens (PyStr.join sep2 (map text chunks)))
                       (_count_tokens (PyStr.join sep2 product_guidelines))
                       (_count_tokens (PyStr.join sep2 design_guidelines))
                       (_count_tokens (PyStr.join sep2 benchmarks))
                       (_count_tokens (PyStr.join sep2 team_objectives)))) 0)
              max_total_tokens) as [Hle|Hgt].
  - unfold _compress_context in H.
    rewrite (proj2 (Z.leb_le _ _) Hle) in H. unfold io_ret in H.
    inv_Ok H. reflexivity.
  - destruct (compress_context_over _ _ _ _ _ _ _ _ _ _ _ _ Hgt H)
      as [ta [t0 [t1 [t2 [t3 [t4 [_ [_ [_ [_ [_ [_ Ht]]]]]]]]]]]].
    rewrite Ht. cbn [fold_left]. lia.
Qed.

Lemma X5_witness :
  1 = _count_tokens "resumo" + _count_tokens "" + _count_tokens ""
      + _count_tokens "" + _count_tokens "".
Proof.
  apply (X5_total_tokens_counts_returned_blocks 2
           (fun _ _ _ _ => " resumo "%string) "consulta"
           [sample_passage "abcdefgh"; sample_passage "ijkl"]
           ["diretriz"%string] [] [] [] "informative" []
           [ Allocation 2 (_get_priorities_by_objective "informative")
                        (sources5 3 2 0 0 0);
             Completion "chunks recuperados"
                        (PyStr.join sep2 ["abcdefgh"%string; "ijkl"%string]) 2 ]
           {| c_chunks := "resumo"; c_product_guidelines := "";
              c_design_guidelines := ""; c_benchmarks := "";
              c_team_objectives := ""; c_total_tokens := 1 |}).
  vm_compute. reflexivity.
Defined.

(** X6. Past the budget, a run of [_compress_context], whether it
    returns or raises, adds to the trace one run of the allocator, on
    the budget, the weights of the objective and the five estimates,
    and after it at most five completion requests, each for a text
    whose estimate exceeds the positive number of tokens asked for. *)
Theorem X6_over_budget_requests
    (max_total_tokens : Z)
    (complete : string -> string -> string -> Z -> string)
    (query : string) (chunks : list passage)
    (product_guidelines design_guidelines benchmarks team_objectives
       : list string)
    (objective : string) (tr tr' : list event) (r : result compressed) :
  let initial_tokens :=
    sources5 (_count_tokens (PyStr.join sep2 (map text chunks)))
             (_count_tokens (PyStr.join sep2 product_guidelines))
             (_count_tokens (PyStr.join sep2 design_guidelines))
             (_count_tokens (PyStr.join sep2 benchmarks))
             (_count_tokens (PyStr.join sep2 team_objectives)) in
  max_total_tokens < fold_left Z.add (values initial_tokens) 0 ->
  _compress_context max_total_tokens complete query chunks
                    product_guidelines design_guidelines benchmarks
                    team_objectives objective tr = (r, tr') ->
  exists completions,
    tr' = tr ++ Allocation max_total_tokens
                           (_get_priorities_by_objective objective)
                           initial_tokens :: completions /\
    (List.length completions <= 5)%nat /\
    forallb compresses completions = true.
Proof.
  cbv zeta. intros Hover H. unfold _compress_context in H.
  rewrite (proj2 (Z.leb_gt _ _) Hover) in H.
  set (a := Allocation _ _ _) in H |- *.
  apply io_bind_run in H.
  destruct H as [[u [t0 [Eu H]]]|[e [Eu _]]]; [|discriminate].
  unfold io_emit in Eu. inv_Ok Eu.
  assert (Hext : reaches 5 (tr ++ [a]) tr').
  { apply io_bind_run in H.
    destruct H as [[ta [t0 [Ea H]]]|[e [Ea _]]];
      unfold io_lift in Ea; inv_Ok Ea; [|apply reaches_refl; lia].
    revert H.
    repeat (apply (bind_reaches _ _ 1);
            [intros ? ?; apply compress_block_run|intros ? ? ? ?]).
    unfold io_ret. intros H. inv_Ok H. apply reaches_refl. lia. }
  destruct Hext as [es [-> [Hl Hf]]]. exists es.
  rewrite <- app_assoc. auto.
Qed.

Lemma X6_witness :
  exists completions,
    [ Allocation 2 (_get_priorities_by_objective "informative")
                 (sources5 3 2 0 0 0);
      Completion "chunks recuperados"
                 (PyStr.join sep2 ["abcdefgh"%string; "ijkl"%string]) 2 ]
    = [] ++ Allocation 2 (_get_priorities_by_objective "informative")
                       (sources5 3 2 0 0 0) :: completions /\
    (List.length completions <= 5)%nat /\
    forallb compresses completions = true.
Proof.
  apply (X6_over_budget_requests 2
           (fun _ _ _ _ => " resumo "%string) "consulta"
           [sample_passage "abcdefgh"; sample_passage "ijkl"]
           ["diretriz"%string] [] [] [] "informative" []
           [ Allocation 2 (_get_priorities_by_objective "informative")
                        (sources5 3 2 0 0 0);
             Completion "chunks recuperados"
                        (PyStr.join sep2 ["abcdefgh"%string; "ijkl"%string]) 2 ]
           (Ok {| c_chunks := "resumo"; c_product_guidelines := "";
                  c_design_guidelines := ""; c_benchmarks := "";
                  c_team_objectives := ""; c_total_tokens := 1 |})).
  - vm_compute. reflexivity.
  - vm_compute. reflexivity.
Defined.

Lemma sources5_keys {V} (c p d b o : V) key v :
  dict_get (sources5 c p d b o) key = Some v ->
  (key = "chunks"%string /\ v = c) \/
  (key = "product_guidelines"%string /\ v = p) \/
  (key = "design_guidelines"%string /\ v = d) \/
  (key = "benchmarks"%string /\ v = b) \/
  (key = "team_objectives"%string /\ v = o).
Proof.
  unfold sources5. cbn [dict_get].
  repeat match goal with
         | |- context [String.eqb ?a key] =>
             destruct (String.eqb_spec a key)
         end;
    intros H; try discriminate; inv_Ok H; tauto.
Qed.

Lemma priorities_key objective key w :
  dict_get (_get_priorities_by_objective objective) key = Some w ->
  In key (keys (sources5 0 0 0 0 0)).
Proof.
  intros H. apply dict_get_In, In_keys in H.
  rewrite (proj2 (proj2 (priorities_rows objective))) in H. exact H.
Qed.

(** X7. Past the budget, a source whose priority weight is 0 under the
    objective is dropped: when [_compress_context] returns, the block of
    that source is the empty string, whatever content it had. *)
Theorem X7_over_budget_drops_unweighted_source
    (max_total_tokens : Z)
    (complete : string -> string -> string -> Z -> string)
    (query : string) (chunks : list passage)
    (product_guidelines design_guidelines benchmarks team_objectives
       : list string)
    (objective : string) (tr tr' : list event) (c : compressed)
    (key : string) (w : float) :
  let initial_tokens :=
    sources5 (_count_tokens (PyStr.join sep2 (map text chunks)))
             (_count_tokens (PyStr.join sep2 product_guidelines))
             (_count_tokens (PyStr.join sep2 design_guidelines))
             (_count_tokens (PyStr.join sep2 benchmarks))
             (_count_tokens (PyStr.join sep2 team_objectives)) in
  max_total_tokens < fold_left Z.add (values initial_tokens) 0 ->
  _compress_context max_total_tokens complete query chunks
                    product_guidelines design_guidelines benchmarks
                    team_objectives objective tr = (Ok c, tr') ->
  dict_get (_get_priorities_by_objective objective) key = Some w ->
  (w =? 0)%float = true ->
  dict_get (blocks c) key = Some EmptyString.
Proof.
  cbv zeta. intros Hover H Hkey Hw.
  destruct (compress_context_over _ _ _ _ _ _ _ _ _ _ _ _ Hover H)
    as [ta [t0 [t1 [t2 [t3 [t4 [Ha [E0 [E1 [E2 [E3 [E4 _]]]]]]]]]]]].
  destruct (priorities_rows objective) as [Hwf [Hnn _]].
  assert (Hz : dict_get ta key = Some 0).
  { refine (allocate_keeps_zero _ _ key w Hwf Hnn (dict_get_In _ _ _ Hkey)
                                Hw _ _ _ Ha).
    intros n Hn. apply sources5_keys in Hn.
    destruct Hn as [[_ ->]|[[_ ->]|[[_ ->]|[[_ ->]|[_ ->]]]]];
      apply count_tokens_nonneg. }
  pose proof (priorities_key _ _ _ Hkey) as Hin. cbn in Hin.
  unfold blocks, sources5.
  destruct Hin as [<-|[<-|[<-|[<-|[<-|[]]]]]];
    [ rewrite compress_block_dropped in E0 by exact Hz; inv_Ok E0
    | rewrite compress_block_dropped in E1 by exact Hz; inv_Ok E1
    | rewrite compress_block_dropped in E2 by exact Hz; inv_Ok E2
    | rewrite compress_block_dropped in E3 by exact Hz; inv_Ok E3
    | rewrite compress_block_dropped in E4 by exact Hz; inv_Ok E4 ];
    cbn [dict_get String.eqb Ascii.eqb Bool.eqb];
    match goal with
    | H : EmptyString = _ |- _ => rewrite <- H
    end; reflexivity.
Qed.

Lemma X7_witness :
  dict_get
    (blocks {| c_chunks := "resumo"; c_product_guidelines := "";
               c_design_guidelines := ""; c_benchmarks := "";
               c_team_objectives := ""; c_total_tokens := 1 |})
    "benchmarks" = Some EmptyString.
Proof.
  apply (X7_over_budget_drops_unweighted_source 2
           (fun _ _ _ _ => " resumo "%string) "consulta"
           [sample_passage "abcdefgh"; sample_passage "ijkl"]
           [] [] ["referencia de mercado"%string] [] "hypothesis" []
           [ Allocation 2 (_get_priorities_by_objective "hypothesis")
                        (sources5 3 0 0 5 0);
             Completion "chunks recuperados"
                        (PyStr.join sep2 ["abcdefgh"%string; "ijkl"%string]) 2 ]
           {| c_chunks := "resumo"; c_product_guidelines := "";
              c_design_guidelines := ""; c_benchmarks := "";
              c_team_objectives := ""; c_total_tokens := 1 |}
           "benchmarks" 0%float).
  - vm_compute. reflexivity.
  - vm_compute. reflexivity.
  - reflexivity.
  - reflexivity.
Defined.

(** X8. [_compress_context] does not guard the allocator: past a budget
    that is not negative, when every block with a positive estimate
    belongs to a source whose weight is 0 under the objective, the call
    raises [ZeroDivisionError], after the run of the allocator and
    before any completion request. *)
Theorem X8_unweighted_content_raises
    (max_total_tokens : Z)
    (complete : string -> string -> string -> Z -> string)
    (query : string) (chunks : list passage)
    (product_guidelines design_guidelines benchmarks team_objectives
       : list string)
    (objective : string) (tr : list event) :
  let initial_tokens :=
    sources5 (_count_tokens (PyStr.join sep2 (map text chunks)))
             (_count_tokens (PyStr.join sep2 product_guidelines))
             (_count_tokens (PyStr.join sep2 design_guidelines))
             (_count_tokens (PyStr.join sep2 benchmarks))
             (_count_tokens (PyStr.join sep2 team_objectives)) in
  0 <= max_total_tokens ->
  max_total_tokens < fold_left Z.add (values initial_tokens) 0 ->
  (forall key n w,
     dict_get initial_tokens key = Some n -> 0 < n ->
     dict_get (_get_priorities_by_objective objective) key = Some w ->
     (w =? 0)%float = true) ->
  _compress_context max_total_tokens complete query chunks
                    product_guidelines design_guidelines benchmarks
                    team_objectives objective tr
  = (Raise ZeroDivisionError,
     tr ++ [Allocation max_total_tokens
                       (_get_priorities_by_objective objective)
                       initial_tokens]).
Proof.
  cbv zeta. intros Hnonneg Hover Hall.
  set (initial_tokens := sources5 _ _ _ _ _) in *.
  destruct (priorities_rows objective) as [Hwf [Hnn Hkeys]].
  assert (Hdef : forall k, In k (keys (_get_priorities_by_objective objective)) ->
                           exists n, dict_get initial_tokens k = Some n).
  { intros k Hk. rewrite Hkeys in Hk. cbn in Hk.
    destruct Hk as [<-|[<-|[<-|[<-|[<-|[]]]]]]; eexists; reflexivity. }
  assert (Hget : forall k, In k (keys (_get_priorities_by_objective objective)) ->
                           exists v, In (k, v) (_get_priorities_by_objective objective))
    by (intros k; apply in_keys_inv).
  assert (Hsome : exists k n, dict_get initial_tokens k = Some n /\ 0 < n).
  { unfold initial_tokens, sources5 in Hover |- *.
    cbn [values map snd fold_left] in Hover.
    set (c0 := _count_tokens (PyStr.join sep2 (map text chunks))) in *.
    set (c1 := _count_tokens (PyStr.join sep2 product_guidelines)) in *.
    set (c2 := _count_tokens (PyStr.join sep2 design_guidelines)) in *.
    set (c3 := _count_tokens (PyStr.join sep2 benchmarks)) in *.
    set (c4 := _count_tokens (PyStr.join sep2 team_objectives)) in *.
    destruct (Z.ltb_spec 0 c0); [exists "chunks"%string, c0; auto|].
    destruct (Z.ltb_spec 0 c1);
      [exists "product_guidelines"%string, c1; auto|].
    destruct (Z.ltb_spec 0 c2);
      [exists "design_guidelines"%string, c2; auto|].
    destruct (Z.ltb_spec 0 c3); [exists "benchmarks"%string, c3; auto|].
    destruct (Z.ltb_spec 0 c4);
      [exists "team_objectives"%string, c4; auto|].
    lia. }
  assert (Hr : _allocate_tokens max_total_tokens
                 (_get_priorities_by_objective objective) initial_tokens
               = Raise ZeroDivisionError).
  { apply allocate_raises_on_zero_active.
    - exact Hdef.
    - destruct Hsome as [k [n [Hn Hpos]]].
      assert (Hk : In k (keys (_get_priorities_by_objective objective))).
      { rewrite Hkeys. apply sources5_keys in Hn. cbn.
        destruct Hn as [[-> _]|[[-> _]|[[-> _]|[[-> _]|[-> _]]]]]; tauto. }
      destruct (Hget k Hk) as [v Hv]. exists k, v, n. auto.
    - intros k v n Hkv Hn Hpos. refine (Hall k n v Hn Hpos _).
      destruct (dict_get (_get_priorities_by_objective objective) k)
        as [v'|] eqn:E.
      + apply dict_get_In in E. f_equal.
        exact (wf_unique _ _ _ _ Hwf E Hkv).
      + exfalso. apply In_keys in Hkv. clear - Hkv E.
        induction (_get_priorities_by_objective objective) as [|[k0 v0] d IH];
          cbn in *; [contradiction|].
        destruct (String.eqb_spec k0 k); [discriminate|].
        destruct Hkv; [contradiction|auto]. }
  unfold _compress_context. fold initial_tokens.
  rewrite (proj2 (Z.leb_gt _ _) Hover).
  unfold io_bind, io_emit, io_lift. rewrite Hr. reflexivity.
Qed.

Lemma X8_witness :
  _compress_context 2 (fun _ _ _ _ => "resumo"%string) "consulta" []
                    [] [] ["referencia de mercado"%string] [] "hypothesis" []
  = (Raise ZeroDivisionError,
     [] ++ [Allocation 2 (_get_priorities_by_objective "hypothesis")
                       (sources5 0 0 0 5 0)]).
Proof.
  apply (X8_unweighted_content_raises 2 (fun _ _ _ _ => "resumo"%string)
           "consulta" [] [] [] ["referencia de mercado"%string] []
           "hypothesis" []).
  - lia.
  - vm_compute. reflexivity.
  - intros key n w Hn Hpos Hw. apply sources5_keys in Hn.
    destruct Hn as [[-> ->]|[[-> ->]|[[-> ->]|[[-> ->]|[-> ->]]]]];
      vm_compute in Hpos; try discriminate.
    vm_compute in Hw. inv_Ok Hw. reflexivity.
Defined.

(* ------------------------------------------------------------------ *)
(** ** Requests of the selector pipeline *)

Lemma act_bind_run {E A B} (m : act E A) (k : A -> act E B) r tr :
  act_bind m k = (r, tr) ->
  (exists a w w', m = (Ok a, w) /\ k a = (r, w') /\ tr = w ++ w') \/
  (exists e, m = (Raise e, tr) /\ r = Raise e).
Proof.
  unfold act_bind. destruct m as [[a|e] w].
  - destruct (k a) as [r' w'] eqn:Ek. intros H. injection H as <- <-.
    left. exists a, w, w'. auto.
  - intros H. injection H as <- <-. right. eauto.
Qed.

Lemma act_bind_Ok {E A B} (m : act E A) (k : A -> act E B) b tr :
  act_bind m k = (Ok b, tr) ->
  exists a w w', m = (Ok a, w) /\ k a = (Ok b, w') /\ tr = w ++ w'.
Proof.
  intros H. destruct (act_bind_run _ _ _ _ H) as [H1|[e [_ H1]]];
    [exact H1|discriminate].
Qed.

Lemma act_bind_all {E A B} (P : E -> Prop) (m : act E A) (k : A -> act E B) :
  Forall P (snd m) -> (forall a, Forall P (snd (k a))) ->
  Forall P (snd (act_bind m k)).
Proof.
  unfold act_bind. destruct m as [[a|e] w]; cbn [snd]; intros Hm Hk.
  - specialize (Hk a). destruct (k a) as [r' w']. cbn [snd] in *.
    apply Forall_app. auto.
  - exact Hm.
Qed.

Lemma existsb_false_Forall {A} (f : A -> bool) l :
  existsb f l = false <-> Forall (fun x => f x = false) l.
Proof.
  induction l as [|x l IH]; cbn.
  - split; [constructor|reflexivity].
  - rewrite orb_false_iff, IH. split.
    + intros [Hx Hl]. constructor; assumption.
    + intros H. inversion H; subst. auto.
Qed.

Ltac act_step H a w E :=
  let w' := fresh "rest" in
  apply act_bind_Ok in H; destruct H as [a [w [w' [E [H ->]]]]].

Section SelectContextFacts.

Variable max_total_tokens : Z.
Variable guidelines_repo : option (string -> list string).
Variable classify_reply : string -> string.
Variable sections_reply : string -> list string -> string.
Variable chunks_reply : string -> list passage -> string.
Variable complete : string -> string -> string -> Z -> string.

Variable P : call -> Prop.

Lemma classify_intent_run query :
  exists intent,
    _classify_intent classify_reply query
    = (Ok intent, [ClassifyIntent query]) /\
    In intent valid_intents.
Proof.
  unfold _classify_intent, act_bind, act_emit, act_ret. cbn [app].
  destruct (existsb _ valid_intents) eqn:E.
  - eexists. split; [reflexivity|].
    apply existsb_exists in E. destruct E as [x [Hx Hx']].
    apply String.eqb_eq in Hx'. subst. exact Hx.
  - eexists. split; [reflexivity|]. left. reflexivity.
Qed.

Lemma filter_sections_all query sections :
  (forall ss, P (FilterSections query ss)) ->
  Forall P (snd (filter_sections sections_reply query sections)).
Proof.
  intros HP. unfold filter_sections. destruct sections; [constructor|].
  apply act_bind_all; [repeat constructor; apply HP|].
  intros _. constructor.
Qed.

Lemma filter_chunks_all query chunks :
  (forall cs, P (FilterChunks query cs)) ->
  Forall P (snd (filter_chunks chunks_reply query chunks)).
Proof.
  intros HP. unfold filter_chunks. destruct (len chunks <=? 5); [constructor|].
  apply act_bind_all; [repeat constructor; apply HP|].
  intros _. constructor.
Qed.

Lemma guidelines_all query guideline_type include :
  P (GetGuidelines guideline_type) ->
  (forall ss, P (FilterSections query ss)) ->
  Forall P (snd (_get_relevant_guidelines guidelines_repo sections_reply
                   query guideline_type include)).
Proof.
  intros HG HF. unfold _get_relevant_guidelines.
  destruct include; [|constructor].
  destruct guidelines_repo as [get_guidelines|]; [|constructor].
  apply act_bind_all; [repeat constructor; exact HG|].
  intros _. apply filter_sections_all, HF.
Qed.

Lemma guidelines_off query guideline_type include :
  guidelines_repo = None \/ include = false ->
  _get_relevant_guidelines guidelines_repo sections_reply
                           query guideline_type include = (Ok [], []).
Proof.
  unfold _get_relevant_guidelines. intros [->| ->]; [|reflexivity].
  destruct include; reflexivity.
Qed.

Lemma of_io_all {A} (m : io A) :
  (forall ev, P (Compress ev)) -> Forall P (snd (act_of_io m)).
Proof.
  intros HP. unfold act_of_io. destruct (m []) as [r events]. cbn [snd].
  apply Forall_forall. intros e He. apply in_map_iff in He.
  destruct He as [ev [<- _]]. apply HP.
Qed.

Lemma run_all {A} (m : act call A) r w :
  Forall P (snd m) -> m = (r, w) -> Forall P w.
Proof. intros H ->. exact H. Qed.

(** What a run of [select_context] that returns goes through. *)
Lemma select_context_Ok query retrieved_chunks objective s tr :
  select_context max_total_tokens guidelines_repo classify_reply
                 sections_reply chunks_reply complete
                 query retrieved_chunks objective = (Ok s, tr) ->
  exists obj w0 pg w1 dg w2 bm w3 to w4 fc w5 cc w6,
    match objective with
    | Some o => if PyStr.truthy o then act_ret o
                else _classify_intent classify_reply query
    | None => _classify_intent classify_reply query
    end = (Ok obj, w0) /\
    _get_relevant_guidelines guidelines_repo sections_reply query "product"
      (dict_get_default (_select_relevant_sources obj)
                        "product_guidelines" false) = (Ok pg, w1) /\
    _get_relevant_guidelines guidelines_repo sections_reply query "design"
      (dict_get_default (_select_relevant_sources obj)
                        "design_guidelines" false) = (Ok dg, w2) /\
    _get_relevant_guidelines guidelines_repo sections_reply query "benchmark"
      (dict_get_default (_select_relevant_sources obj)
                        "benchmarks" false) = (Ok bm, w3) /\
    _get_relevant_guidelines guidelines_repo sections_reply query "objectives"
      (dict_get_default (_select_relevant_sources obj)
                        "team_objectives" false) = (Ok to, w4) /\
    filter_chunks chunks_reply query retrieved_chunks = (Ok fc, w5) /\
    act_of_io (_compress_context max_total_tokens complete query fc
                                 pg dg bm to obj) = (Ok cc, w6) /\
    tr = w0 ++ w1 ++ w2 ++ w3 ++ w4 ++ w5 ++ w6 /\
    s = {| sc_objective := obj; sc_chunks := c_chunks cc;
           sc_product_guidelines := c_product_guidelines cc;
           sc_design_guidelines := c_design_guidelines cc;
           sc_benchmarks := c_benchmarks cc;
           sc_team_objectives := c_team_objectives cc;
           sc_total_tokens := c_total_tokens cc |}.
Proof.
  intros H. unfold select_context in H.
  act_step H obj w0 E0. act_step H pg w1 E1. act_step H dg w2 E2.
  act_step H bm w3 E3. act_step H to w4 E4. act_step H fc w5 E5.
  act_step H cc w6 E6. unfold act_ret in H. injection H as <- <-.
  exists obj, w0, pg, w1, dg, w2, bm, w3, to, w4, fc, w5, cc, w6.
  rewrite app_nil_r. auto 10.
Qed.

(** The requests after the objective is known. *)
Lemma select_context_all query retrieved_chunks objective :
  (forall q, P (ClassifyIntent q) \/
             match objective with
             | Some o => PyStr.truthy o = true
             | None => False
             end) ->
  (forall t, P (GetGuidelines t)) ->
  (forall ss, P (FilterSections query ss)) ->
  (forall cs, P (FilterChunks query cs)) ->
  (forall ev, P (Compress ev)) ->
  Forall P (snd (select_context max_total_tokens guidelines_repo
                   classify_reply sections_reply chunks_reply complete
                   query retrieved_chunks objective)).
Proof.
  intros HC HG HF HK HE. unfold select_context.
  apply act_bind_all.
  - assert (Hcl : (forall q, P (ClassifyIntent q)) ->
                  Forall P (snd (_classify_intent classify_reply query))).
    { intros Hq. destruct (classify_intent_run query) as [i [-> _]].
      repeat constructor. apply Hq. }
    destruct objective as [o|].
    + destruct (PyStr.truthy o) eqn:Eo; [constructor|].
      apply Hcl. intros q. destruct (HC q) as [Hq|Hq];
        [exact Hq|discriminate].
    + apply Hcl. intros q. destruct (HC q) as [Hq|[]]. exact Hq.
  - intros obj.
    repeat (apply act_bind_all; [apply guidelines_all; auto|intros ?]).
    apply act_bind_all; [apply filter_chunks_all; auto|intros ?].
    apply act_bind_all; [apply of_io_all; auto|intros ?].
    constructor.
Qed.

End SelectContextFacts.

(** X9. Given a non-empty objective, [select_context] does not ask for
    a classification, whether it returns or raises, and what it returns
    carries that objective as given, also when it is none of the four
    known ones. *)
Theorem X9_explicit_objective_is_kept
    (max_total_tokens : Z)
    (guidelines_repo : option (string -> list string))
    (classify_reply : string -> string)
    (sections_reply : string -> list string -> string)
    (chunks_reply : string -> list passage -> string)
    (complete : string -> string -> string -> Z -> string)
    (query : string) (retrieved_chunks : list passage) (o : string)
    (r : result selected) (tr : list call) :
  PyStr.truthy o = true ->
  select_context max_total_tokens guidelines_repo classify_reply
                 sections_reply chunks_reply complete
                 query retrieved_chunks (Some o) = (r, tr) ->
  existsb is_classification tr = false /\
  (forall s, r = Ok s -> sc_objective s = o).
Proof.
  intros Ho H. split.
  - apply existsb_false_Forall.
    refine (run_all _ _ _ _ _ H).
    apply select_context_all; intros; auto.
  - intros s ->. apply select_context_Ok in H.
    destruct H as [obj [w0 [pg [w1 [dg [w2 [bm [w3 [to [w4 [fc [w5 [cc [w6
                   [E0 [_ [_ [_ [_ [_ [_ [_ ->]]]]]]]]]]]]]]]]]]]]]].
    rewrite Ho in E0. unfold act_ret in E0. injection E0 as <- _.
    reflexivity.
Qed.

Lemma X9_witness :
  existsb is_classification [] = false /\
  (forall s, Ok (sample_selected "roadmap" "" 2) = Ok s ->
             sc_objective s = "roadmap"%string).
Proof.
  apply (X9_explicit_objective_is_kept 6000 None
           (fun _ => "benchmark"%string)
           (fun _ _ => "0"%string) (fun _ _ => "0"%string)
           (fun _ _ _ _ => "resumo"%string)
           "consulta" [sample_passage "abcdefgh"] "roadmap"
           (Ok (sample_selected "roadmap" "" 2)) []).
  - reflexivity.
  - vm_compute. reflexivity.
Defined.

(** X10. Without an objective, or with the empty string for one,
    [select_context] first asks for a classification of the query, only
    once, and the objective it returns is one of the four known ones,
    whatever the completion replies. *)
Theorem X10_classified_objective_is_known
    (max_total_tokens : Z)
    (guidelines_repo : option (string -> list string))
    (classify_reply : string -> string)
    (sections_reply : string -> list string -> string)
    (chunks_reply : string -> list passage -> string)
    (complete : string -> string -> string -> Z -> string)
    (query : string) (retrieved_chunks : list passage)
    (objective : option string)
    (r : result selected) (tr : list call) :
  objective = None \/ objective = Some EmptyString ->
  select_context max_total_tokens guidelines_repo classify_reply
                 sections_reply chunks_reply complete
                 query retrieved_chunks objective = (r, tr) ->
  exists rest,
    tr = ClassifyIntent query :: rest /\
    existsb is_classification rest = false /\
    (forall s, r = Ok s -> In (sc_objective s) valid_intents).
Proof.
  intros Hobj H.
  assert (Hfirst :
            match objective with
            | Some o => if PyStr.truthy o then act_ret o
                        else _classify_intent classify_reply query
            | None => _classify_intent classify_reply query
            end = _classify_intent classify_reply query)
    by (destruct Hobj as [-> | ->]; reflexivity).
  destruct (classify_intent_run classify_reply query) as [intent [Ei Hi]].
  pose proof H as H'. unfold select_context in H'.
  rewrite Hfirst, Ei in H'. apply act_bind_run in H'.
  destruct H' as [[a [w [w' [Ea [H' ->]]]]]|[e [Ea _]]]; [|discriminate].
  injection Ea as <- <-. exists w'. split; [reflexivity|]. split.
  - apply existsb_false_Forall.
    refine (run_all _ _ _ _ _ H').
    repeat (apply act_bind_all;
            [apply guidelines_all; intros; reflexivity|intros ?]).
    apply act_bind_all;
      [apply filter_chunks_all; intros; reflexivity|intros ?].
    apply act_bind_all; [apply of_io_all; intros; reflexivity|intros ?].
    constructor.
  - intros s ->. apply select_context_Ok in H.
    destruct H as [obj [w0 [pg [w1 [dg [w2 [bm [w3 [to [w4 [fc [w5 [cc [w6
                   [E0 [_ [_ [_ [_ [_ [_ [_ ->]]]]]]]]]]]]]]]]]]]]]].
    rewrite Hfirst, Ei in E0. injection E0 as <- _. exact Hi.
Qed.

Lemma X10_witness :
  exists rest,
    [ClassifyIntent "consulta"] = ClassifyIntent "consulta" :: rest /\
    existsb is_classification rest = false /\
    (forall s, Ok (sample_selected "benchmark" "" 2) = Ok s ->
               In (sc_objective s) valid_intents).
Proof.
  apply (X10_classified_objective_is_known 6000 None
           (fun _ => " Benchmark "%string)
           (fun _ _ => "0"%string) (fun _ _ => "0"%string)
           (fun _ _ _ _ => "resumo"%string)
           "consulta" [sample_passage "abcdefgh"] None
           (Ok (sample_selected "benchmark" "" 2))
           [ClassifyIntent "consulta"]).
  - left. reflexivity.
  - vm_compute. reflexivity.
Defined.

(** What a classification reply is turned into. *)
Example classification_is_normalised :
  fst (_classify_intent (fun _ => " Benchmark "%string) "consulta")
  = Ok "benchmark"%string /\
  fst (_classify_intent (fun _ => "benchmarks"%string) "consulta")
  = Ok "informative"%string.
Proof. split; vm_compute; reflexivity. Qed.

Lemma first_step_all (P : call -> Prop) classify_reply query
      (objective : option string) :
  (forall q, P (ClassifyIntent q)) ->
  Forall P (snd (match objective with
                 | Some o => if PyStr.truthy o then act_ret o
                             else _classify_intent classify_reply query
                 | None => _classify_intent classify_reply query
                 end)).
Proof.
  intros HP.
  assert (Hcl : Forall P (snd (_classify_intent classify_reply query))).
  { destruct (classify_intent_run classify_reply query) as [i [-> _]].
    repeat constructor. apply HP. }
  destruct objective as [o|]; [|exact Hcl].
  destruct (PyStr.truthy o); [constructor|exact Hcl].
Qed.

(** A source for which no section is passed comes back empty. *)
Lemma compress_context_empty B complete query fc pg dg bm to obj tr c tr' :
  _compress_context B complete query fc pg dg bm to obj tr = (Ok c, tr') ->
  (pg = [] -> c_product_guidelines c = EmptyString) /\
  (dg = [] -> c_design_guidelines c = EmptyString) /\
  (bm = [] -> c_benchmarks c = EmptyString) /\
  (to = [] -> c_team_objectives c = EmptyString).
Proof.
  intros H.
  destruct (Z.leb_spec
              (fold_left Z.add
                 (values
                    (sources5
                       (_count_tokens (PyStr.join sep2 (map text fc)))
                       (_count_tokens (PyStr.join sep2 pg))
                       (_count_tokens (PyStr.join sep2 dg))
                       (_count_tokens (PyStr.join sep2 bm))
                       (_count_tokens (PyStr.join sep2 to)))) 0)
              B) as [Hle|Hgt].
  - unfold _compress_context in H.
    rewrite (proj2 (Z.leb_le _ _) Hle) in H. unfold io_ret in H.
    inv_Ok H. cbn. repeat split; intros ->; reflexivity.
  - destruct (compress_context_over _ _ _ _ _ _ _ _ _ _ _ _ Hgt H)
      as [ta [t0 [t1 [t2 [t3 [t4 [_ [_ [E1 [E2 [E3 [E4 _]]]]]]]]]]]].
    repeat split; intros ->; cbn [PyStr.join] in *.
    + rewrite compress_block_empty in E1. congruence.
    + rewrite compress_block_empty in E2. congruence.
    + rewrite compress_block_empty in E3. congruence.
    + rewrite compress_block_empty in E4. congruence.
Qed.

(** X11. A kind of guidelines that the objective does not select, or
    any kind when there is no repository, is not asked of the
    repository, and its block in what [select_context] returns is the
    empty string. *)
Theorem X11_unselected_guidelines_are_left_out
    (max_total_tokens : Z)
    (guidelines_repo : option (string -> list string))
    (classify_reply : string -> string)
    (sections_reply : string -> list string -> string)
    (chunks_reply : string -> list passage -> string)
    (complete : string -> string -> string -> Z -> string)
    (query : string) (retrieved_chunks : list passage)
    (objective : option string) (s : selected) (tr : list call)
    (guideline_type key : string) :
  select_context max_total_tokens guidelines_repo classify_reply
                 sections_reply chunks_reply complete
                 query retrieved_chunks objective = (Ok s, tr) ->
  In (guideline_type, key) guideline_sources ->
  guidelines_repo = None \/
  dict_get (_select_relevant_sources (sc_objective s)) key = Some false ->
  existsb (is_guidelines_request guideline_type) tr = false /\
  dict_get (sc_blocks s) key = Some EmptyString.
Proof.
  intros H Hin Hoff. apply select_context_Ok in H.
  destruct H as [obj [w0 [pg [w1 [dg [w2 [bm [w3 [to [w4 [fc [w5 [cc [w6
                 [E0 [E1 [E2 [E3 [E4 [E5 [E6 [-> ->]]]]]]]]]]]]]]]]]]]]]].
  cbn [sc_objective] in Hoff.
  assert (Hinc : guidelines_repo = None \/
                 dict_get_default (_select_relevant_sources obj) key false
                 = false).
  { destruct Hoff as [Hoff|Hoff]; [left; exact Hoff|right].
    unfold dict_get_default. rewrite Hoff. reflexivity. }
  clear Hoff.
  pose (P := fun e : call => is_guidelines_request guideline_type e = false).
  assert (H0 : Forall P w0).
  { refine (run_all P _ _ _ _ E0). apply first_step_all. reflexivity. }
  assert (H5 : Forall P w5).
  { refine (run_all P _ _ _ _ E5). apply filter_chunks_all. reflexivity. }
  assert (H6 : Forall P w6).
  { refine (run_all P _ _ _ _ E6). apply of_io_all. reflexivity. }
  unfold act_of_io in E6.
  destruct (_compress_context _ _ _ _ _ _ _ _ _ []) as [rc events] eqn:Ec.
  injection E6 as -> _.
  destruct (compress_context_empty _ _ _ _ _ _ _ _ _ _ _ _ Ec)
    as [Cp [Cd [Cb Ct]]].
  assert (Hall : forall t inc r w,
             t <> guideline_type ->
             _get_relevant_guidelines guidelines_repo sections_reply
                                      query t inc = (r, w) ->
             Forall P w).
  { intros t inc r w Ht E. refine (run_all P _ _ _ _ E).
    apply guidelines_all; [|reflexivity].
    unfold P. cbn. apply String.eqb_neq, Ht. }
  unfold guideline_sources in Hin. cbn [In] in Hin.
  rewrite existsb_false_Forall. fold P.
  destruct Hin as [Hin|[Hin|[Hin|[Hin|[]]]]]; injection Hin as <- <-.
  - rewrite guidelines_off in E1 by exact Hinc. injection E1 as <- <-.
    split; [|cbn; rewrite Cp; reflexivity].
    repeat (apply Forall_app; split); auto;
      eapply Hall; eauto; discriminate.
  - rewrite guidelines_off in E2 by exact Hinc. injection E2 as <- <-.
    split; [|cbn; rewrite Cd; reflexivity].
    repeat (apply Forall_app; split); auto;
      eapply Hall; eauto; discriminate.
  - rewrite guidelines_off in E3 by exact Hinc. injection E3 as <- <-.
    split; [|cbn; rewrite Cb; reflexivity].
    repeat (apply Forall_app; split); auto;
      eapply Hall; eauto; discriminate.
  - rewrite guidelines_off in E4 by exact Hinc. injection E4 as <- <-.
    split; [|cbn; rewrite Ct; reflexivity].
    repeat (apply Forall_app; split); auto;
      eapply Hall; eauto; discriminate.
Qed.

Lemma X11_witness :
  existsb (is_guidelines_request "design")
    [GetGuidelines "product";
     FilterSections "consulta" ["product"%string; "regra"%string]] = false /\
  dict_get (sc_blocks (sample_selected "informative" "regra" 3))
           "design_guidelines" = Some EmptyString.
Proof.
  apply (X11_unselected_guidelines_are_left_out 6000
           (Some (fun t => [t; "regra"%string]))
           (fun _ => "benchmark"%string)
           (fun _ _ => "2"%string) (fun _ _ => "0"%string)
           (fun _ _ _ _ => "resumo"%string)
           "consulta" [sample_passage "abcdefgh"] (Some "informative"%string)
           (sample_selected "informative" "regra" 3)
           [GetGuidelines "product";
            FilterSections "consulta" ["product"%string; "regra"%string]]
           "design" "design_guidelines").
  - vm_compute. reflexivity.
  - cbn. tauto.
  - right. reflexivity.
Defined.

(** The division by zero of the allocator is within reach of
    [select_context]: under hypothesis, benchmarks are selected and
    weigh nothing, so that benchmarks past the budget, with nothing
    else to weigh, end the call in [ZeroDivisionError]. *)
Example select_context_can_divide_by_zero :
  fst (select_context 2
         (Some (fun t => if String.eqb t "benchmark"
                         then ["referencia de mercado"%string] else []))
         (fun _ => "hypothesis"%string)
         (fun _ _ => "1"%string) (fun _ _ => "0"%string)
         (fun _ _ _ _ => "resumo"%string)
         "consulta" [] (Some "hypothesis"%string))
  = Raise ZeroDivisionError.
Proof. vm_compute. reflexivity. Qed.

(* ------------------------------------------------------------------ *)
(** ** The relevance filters return for every reply *)

Lemma collect_indices_in_range n parts :
  forall acc out,
    Forall (fun i => in_range n i = true) acc ->
    collect_indices n parts acc = Ok out ->
    Forall (fun i => in_range n i = true) out.
Proof.
  induction parts as [|p parts IH]; cbn; intros acc out Hacc H.
  - inv_Ok H. exact Hacc.
  - inv_bind H as v Ev. refine (IH _ _ _ H).
    destruct ((0 <=? v - 1) && (v - 1 <? n)) eqn:E; [|exact Hacc].
    apply Forall_app. split; [exact Hacc|]. repeat constructor. exact E.
Qed.

Lemma collect_indices_ValueError n parts :
  forall acc e, collect_indices n parts acc = Raise e -> e = ValueError.
Proof.
  induction parts as [|p parts IH]; cbn; intros acc e H; [discriminate|].
  destruct (PyStr.to_int (PyStr.strip p)) as [v|e'] eqn:Ev; cbn [bind] in H.
  - exact (IH _ _ H).
  - inv_Ok H. exact (str_to_int_raises _ _ Ev).
Qed.

Lemma range_in_range n : Forall (fun i => in_range (Z.of_nat n) i = true) (range n).
Proof.
  apply Forall_forall. intros i Hi. unfold range in Hi.
  apply in_map_iff in Hi. destruct Hi as [j [<- Hj]]. apply in_seq in Hj.
  unfold in_range. apply andb_true_iff. split; [apply Z.leb_le|apply Z.ltb_lt]; lia.
Qed.

Lemma relevant_indices_total n content :
  exists idxs, relevant_indices_of n content = Ok idxs /\
               Forall (fun i => in_range (Z.of_nat n) i = true) idxs.
Proof.
  unfold relevant_indices_of.
  destruct (String.eqb (PyStr.strip content) "0").
  - exists []. split; [reflexivity|constructor].
  - destruct (collect_indices (Z.of_nat n) _ []) as [out|e] eqn:E.
    + exists out. split; [reflexivity|].
      exact (collect_indices_in_range _ _ _ _ (Forall_nil _) E).
    + rewrite (collect_indices_ValueError _ _ _ _ E).
      exists (range n). split; [reflexivity|apply range_in_range].
Qed.

Lemma filter_by_reply_total {A} (items : list A) content :
  exists out,
    (idxs <- relevant_indices_of (List.length items) content ;;
     mapM (list_getitem items) idxs) = Ok out /\
    incl out items.
Proof.
  destruct (relevant_indices_total (List.length items) content)
    as [idxs [-> Hr]]. cbn [bind].
  exists (pick items idxs). split.
  - apply mapM_getitem_pick. exact Hr.
  - intros x Hx.
    exact (mapM_getitem_In _ _ _ (mapM_getitem_pick items idxs Hr) x Hx).
Qed.

(** X12. Both relevance filters return for every reply of the
    completion, and every item they return is an item of the input:
    the only conversion error a reply can cause is the one line 271
    and line 329 catch, and every index kept is within the list. *)
Theorem X12_filters_return_for_every_reply
    (content : string) (sections : list string) (chunks : list passage) :
  (exists out, _filter_relevant_sections content sections = Ok out /\
               incl out sections) /\
  (exists out, _filter_relevant_chunks content chunks = Ok out /\
               incl out chunks).
Proof.
  split.
  - unfold _filter_relevant_sections. destruct sections as [|s0 sections].
    + exists []. split; [reflexivity|apply incl_refl].
    + apply filter_by_reply_total.
  - unfold _filter_relevant_chunks. destruct (len chunks <=? 5).
    + exists chunks. split; [reflexivity|apply incl_refl].
    + apply filter_by_reply_total.
Qed.

(* ------------------------------------------------------------------ *)
(** ** Reranking keeps the input order among equal scores *)

Lemma SFeqb_ltb_neq x y c :
  SFeqb x c = true -> SFltb x y = true -> SFeqb y c = false.
Proof.
  unfold SFeqb, SFltb.
  destruct x as [sx|sx| |sx mx ex], y as [sy|sy| |sy my ey],
           c as [sc|sc| |sc mc ec]; cbn;
    try discriminate; try reflexivity;
    try (destruct sx); try (destruct sy); try (destruct sc);
    cbn; try discriminate; try reflexivity;
    change (Pos.compare_cont Eq) with Pos.compare;
    intros H1 H2; crunch_cmp.
Qed.

Lemma eqb_ltb_neq x y c :
  (x =? c)%float = true -> (x <? y)%float = true -> (y =? c)%float = false.
Proof. rewrite !eqb_spec, ltb_spec. apply SFeqb_ltb_neq. Qed.

Lemma insert_desc_filter c x l :
  filter (fun r => (combined_score r =? c)%float) (insert_desc x l)
  = filter (fun r => (combined_score r =? c)%float) (x :: l).
Proof.
  induction l as [|y l IH]; [reflexivity|].
  cbn [insert_desc].
  destruct (combined_score x <? combined_score y)%float eqn:Elt;
    [|reflexivity].
  cbn [filter] in IH |- *. rewrite IH.
  destruct (combined_score x =? c)%float eqn:Ex; [|reflexivity].
  rewrite (eqb_ltb_neq _ _ _ Ex Elt). reflexivity.
Qed.

Lemma sorted_desc_filter c l :
  filter (fun r => (combined_score r =? c)%float) (sorted_desc l)
  = filter (fun r => (combined_score r =? c)%float) l.
Proof.
  induction l as [|x l IH]; [reflexivity|].
  cbn [sorted_desc fold_right]. fold (sorted_desc l).
  rewrite insert_desc_filter. cbn [filter]. rewrite IH. reflexivity.
Qed.

(** X13. The reranking is stable: when no combined score is NaN, the
    records whose combined score equals a given value come out in the
    order in which the input lists them. *)
Theorem X13_rerank_keeps_order_of_ties
    (content : string) (initial_results : list passage)
    (out : list reranked) (c : float) :
  _rerank_results content initial_results = Ok out ->
  Forall (fun r => (combined_score r =? combined_score r)%float = true) out ->
  filter (fun r => (combined_score r =? c)%float) out
  = filter (fun r => (combined_score r =? c)%float)
      (scored_from
         (numeric_lines (PyStr.split "010"%char (PyStr.strip content)))
         0 initial_results).
Proof.
  intros H _. destruct initial_results as [|r0 l].
  - cbn in H. inv_Ok H. reflexivity.
  - rewrite rerank_nonempty in H by discriminate. injection H as <-.
    exact (sorted_desc_filter c (scored_from _ 0 (r0 :: l))).
Qed.

Lemma X13_witness :
  filter (fun r => (combined_score r =? 0.15)%float)
         (sorted_desc
            (scored_from [7%float] 0
               [sample_passage "a"; sample_passage "b"; sample_passage "c"]))
  = filter (fun r => (combined_score r =? 0.15)%float)
      (scored_from
         (numeric_lines (PyStr.split "010"%char (PyStr.strip "7")))
         0 [sample_passage "a"; sample_passage "b"; sample_passage "c"]).
Proof.
  apply (X13_rerank_keeps_order_of_ties "7"
           [sample_passage "a"; sample_passage "b"; sample_passage "c"]
           (sorted_desc
              (scored_from [7%float] 0
                 [sample_passage "a"; sample_passage "b"; sample_passage "c"]))
           0.15%float).
  - vm_compute. reflexivity.
  - vm_compute. repeat constructor.
Defined.

(** Two passages tie behind the one the reply scores: they stay in
    input order. *)
Example rerank_ties_in_input_order :
  match _rerank_results "7"
          [sample_passage "a"; sample_passage "b"; sample_passage "c"] with
  | Ok out => map (fun r => text (base r)) out
  | Raise _ => []
  end = ["a"%string; "b"%string; "c"%string] /\
  match _rerank_results "0
7"
          [sample_passage "a"; sample_passage "b"; sample_passage "c"] with
  | Ok out => map (fun r => text (base r)) out
  | Raise _ => []
  end = ["b"%string; "a"%string; "c"%string].
Proof. split; vm_compute; reflexivity. Qed.

(* ------------------------------------------------------------------ *)
(** ** Retrieval *)

Lemma slice_prefix_len {A} (l : list A) k :
  0 <= k -> len (slice l 0 k) = Z.min k (len l).
Proof.
  intros Hk. unfold slice, clamp, len.
  destruct (Z.ltb_spec 0 0); [lia|].
  destruct (Z.ltb_spec k 0); [lia|].
  rewrite (Z.min_l 0) by lia. cbn [Z.to_nat skipn]. rewrite Z.sub_0_r.
  rewrite length_firstn. lia.
Qed.

Section RetrieverFacts.

Variable embeddings_create : string -> list embedding.
Variable near_vector :
  embedding -> option where_filter -> Z -> option (list hit).
Variable get_by_id : string -> option (list (dict string)).
Variable rerank_reply : string -> list passage -> string.

Lemma result_of_hit_Ok chunk p w :
  result_of_hit get_by_id chunk = (Ok p, w) ->
  exists d, h_document_id chunk = Some d /\ w = [GetById d].
Proof.
  unfold result_of_hit. intros H.
  destruct (h_document_id chunk) as [d|]; [|discriminate].
  exists d. split; [reflexivity|].
  cbn [required act_lift act_bind] in H.
  unfold _get_parent_document in H. cbn [act_emit act_bind] in H.
  destruct (get_by_id d) as [documents|].
  - destruct (list_getitem documents 0) as [parent|e];
      cbn [act_lift act_ret act_bind] in H; [|discriminate].
    destruct (h_text chunk); cbn in H; [|discriminate].
    injection H as _ <-. reflexivity.
  - cbn [act_lift act_ret act_bind] in H.
    destruct (h_text chunk); cbn in H; [|discriminate].
    injection H as _ <-. reflexivity.
Qed.

Lemma hits_Ok hits :
  forall initial w,
    act_mapM (result_of_hit get_by_id) hits = (Ok initial, w) ->
    List.length initial = List.length hits /\
    exists ids, map h_document_id hits = map Some ids /\
                w = map GetById ids.
Proof.
  induction hits as [|h hits IH]; cbn [act_mapM]; intros initial w H.
  - unfold act_ret in H. injection H as <- <-.
    split; [reflexivity|]. exists []. auto.
  - apply act_bind_Ok in H. destruct H as [p [w1 [w2 [E1 [H ->]]]]].
    apply act_bind_Ok in H. destruct H as [r [w3 [w4 [E2 [H ->]]]]].
    unfold act_ret in H. injection H as <- <-.
    destruct (result_of_hit_Ok _ _ _ E1) as [d [Hd ->]].
    destruct (IH _ _ E2) as [Hl [ids [Hi ->]]].
    split; [cbn; lia|]. exists (d :: ids). cbn [map].
    rewrite Hd, Hi, app_nil_r. auto.
Qed.

Lemma rerank_Ok query initial reranked w :
  rerank rerank_reply query initial = (Ok reranked, w) ->
  List.length reranked = List.length initial /\
  w = (if nonempty initial then [RerankCompletion query initial] else []).
Proof.
  unfold rerank. destruct initial as [|p0 initial].
  - unfold act_ret. intros H. injection H as <- <-. auto.
  - rewrite rerank_nonempty by discriminate.
    cbn [act_bind act_emit act_lift app nonempty].
    set (scored := scored_from _ 0 (p0 :: initial)).
    assert (Hs : List.length (sorted_desc scored)
                 = List.length (p0 :: initial)).
    { rewrite (Permutation_length (sorted_desc_perm scored)). unfold scored.
      rewrite <- (length_map base), scored_from_base. reflexivity. }
    intros H. injection H as <- <-. split; [exact Hs|reflexivity].
Qed.

Lemma retrieve_Ok query filters top_k rerank_top_k out tr :
  retrieve embeddings_create near_vector get_by_id rerank_reply
           query filters top_k rerank_top_k = (Ok out, tr) ->
  exists e initial wi reranked wr,
    list_getitem (embeddings_create query) 0 = Ok e /\
    act_mapM (result_of_hit get_by_id)
             (or_default (near_vector e (build_where_filter filters) top_k) [])
    = (Ok initial, wi) /\
    rerank rerank_reply query initial = (Ok reranked, wr) /\
    out = slice reranked 0 rerank_top_k /\
    tr = EmbeddingsCreate query
         :: NearVector e (build_where_filter filters) top_k :: wi ++ wr.
Proof.
  intros H. unfold retrieve in H.
  apply act_bind_Ok in H. destruct H as [e [w0 [w0' [E0 [H ->]]]]].
  apply act_bind_Ok in H. destruct H as [initial [w1 [w1' [E1 [H ->]]]]].
  apply act_bind_Ok in H. destruct H as [reranked [w2 [w2' [E2 [H ->]]]]].
  unfold act_ret in H. injection H as <- <-.
  unfold _generate_embedding in E0. cbn [act_bind act_emit act_lift] in E0.
  destruct (list_getitem (embeddings_create query) 0) as [e'|] eqn:Ee;
    [|discriminate].
  injection E0 as -> <-.
  unfold _initial_retrieval in E1. cbn [act_bind act_emit] in E1.
  destruct (near_vector e (build_where_filter filters) top_k)
    as [chunks|] eqn:En.
  - destruct (act_mapM (result_of_hit get_by_id) chunks) as [r1 wi] eqn:Em.
    injection E1 as -> <-.
    exists e, initial, wi, reranked, w2.
    rewrite En. cbn [or_default]. rewrite Em, app_nil_r. cbn. auto.
  - unfold act_ret in E1. injection E1 as <- <-.
    exists e, [], [], reranked, w2. rewrite En. cbn [or_default act_mapM].
    rewrite app_nil_r. cbn. auto.
Qed.

End RetrieverFacts.

(** X14. When [retrieve] returns and [rerank_top_k] is not negative, it
    returns [rerank_top_k] records, or as many as the vector index gave
    when those are fewer: no hit is lost before the cut, whatever the
    reranking completion replies. *)
Theorem X14_retrieve_returns_top_k
    (embeddings_create : string -> list embedding)
    (near_vector : embedding -> option where_filter -> Z -> option (list hit))
    (get_by_id : string -> option (list (dict string)))
    (rerank_reply : string -> list passage -> string)
    (query : string) (filters : option (dict string))
    (top_k rerank_top_k : Z) (out : list reranked) (tr : list rcall) :
  retrieve embeddings_create near_vector get_by_id rerank_reply
           query filters top_k rerank_top_k = (Ok out, tr) ->
  0 <= rerank_top_k ->
  exists e,
    list_getitem (embeddings_create query) 0 = Ok e /\
    len out
    = Z.min rerank_top_k
        (len (or_default
                (near_vector e (build_where_filter filters) top_k) [])).
Proof.
  intros H Hk. apply retrieve_Ok in H.
  destruct H as [e [initial [wi [reranked [wr [He [Hi [Hr [-> _]]]]]]]]].
  exists e. split; [exact He|].
  rewrite slice_prefix_len by exact Hk.
  destruct (hits_Ok _ _ _ _ Hi) as [Hl _].
  destruct (rerank_Ok _ _ _ _ _ Hr) as [Hl' _].
  unfold len. rewrite Hl', Hl. reflexivity.
Qed.

(** X15. When [retrieve] returns, it has sent one request for the
    embedding of the query, one query to the vector index, one lookup of
    the parent document per hit, in the order of the hits and repeated
    for hits of the same document, and then one reranking completion,
    unless there is no hit. *)
Theorem X15_retrieve_requests
    (embeddings_create : string -> list embedding)
    (near_vector : embedding -> option where_filter -> Z -> option (list hit))
    (get_by_id : string -> option (list (dict string)))
    (rerank_reply : string -> list passage -> string)
    (query : string) (filters : option (dict string))
    (top_k rerank_top_k : Z) (out : list reranked) (tr : list rcall) :
  retrieve embeddings_create near_vector get_by_id rerank_reply
           query filters top_k rerank_top_k = (Ok out, tr) ->
  exists e ids initial,
    list_getitem (embeddings_create query) 0 = Ok e /\
    map h_document_id
        (or_default (near_vector e (build_where_filter filters) top_k) [])
    = map Some ids /\
    List.length initial = List.length ids /\
    tr = EmbeddingsCreate query
         :: NearVector e (build_where_filter filters) top_k
         :: map GetById ids
         ++ (if nonempty ids then [RerankCompletion query initial] else []).
Proof.
  intros H. apply retrieve_Ok in H.
  destruct H as [e [initial [wi [reranked [wr [He [Hi [Hr [_ ->]]]]]]]]].
  destruct (hits_Ok _ _ _ _ Hi) as [Hl [ids [Hids ->]]].
  destruct (rerank_Ok _ _ _ _ _ Hr) as [_ ->].
  exists e, ids, initial. split; [exact He|]. split; [exact Hids|].
  assert (Hlen : List.length initial = List.length ids).
  { rewrite Hl, <- (length_map h_document_id), Hids, length_map.
    reflexivity. }
  split; [exact Hlen|].
  destruct initial, ids; try discriminate; reflexivity.
Qed.

Lemma X14_witness :
  exists e,
    list_getitem [[0.5%float]] 0 = Ok e /\
    len sample_retrieved
    = Z.min 1 (len (or_default (Some [sample_hit "a"; sample_hit "b"]) [])).
Proof.
  apply (X14_retrieve_returns_top_k
           (fun _ => [[0.5%float]])
           (fun _ _ _ => Some [sample_hit "a"; sample_hit "b"])
           sample_parent
           (fun _ _ => "1
9"%string)
           "consulta" None 20 1 sample_retrieved
           (snd (sample_retrieve sample_parent))).
  - vm_compute. reflexivity.
  - lia.
Defined.

Lemma X15_witness :
  exists e ids initial,
    list_getitem [[0.5%float]] 0 = Ok e /\
    map h_document_id (or_default (Some [sample_hit "a"; sample_hit "b"]) [])
    = map Some ids /\
    List.length initial = List.length ids /\
    snd (sample_retrieve sample_parent)
    = EmbeddingsCreate "consulta"
      :: NearVector e (build_where_filter None) 20
      :: map GetById ids
      ++ (if nonempty ids then [RerankCompletion "consulta" initial] else []).
Proof.
  apply (X15_retrieve_requests
           (fun _ => [[0.5%float]])
           (fun _ _ _ => Some [sample_hit "a"; sample_hit "b"])
           sample_parent
           (fun _ _ => "1
9"%string)
           "consulta" None 20 1 sample_retrieved
           (snd (sample_retrieve sample_parent))).
  vm_compute. reflexivity.
Defined.

(** The two hits are of one document: it is looked up twice. *)
Example retrieve_looks_up_each_hit :
  map (fun c => match c with GetById d => [d] | _ => [] end)
      (snd (sample_retrieve sample_parent))
  = [[]; []; ["d1"%string]; ["d1"%string]; []] /\
  map (fun r => text (base r)) sample_retrieved = ["b"%string].
Proof. split; vm_compute; reflexivity. Qed.

Section ParentLookup.

Variable get_by_id : string -> option (list (dict string)).

Lemma result_of_hit_raises chunk ex w :
  result_of_hit get_by_id chunk = (Raise ex, w) ->
  ex = IndexError \/ exists key, ex = KeyError key.
Proof.
  unfold result_of_hit.
  destruct (h_document_id chunk) as [d|];
    cbn [required act_lift act_bind];
    [|intros H; injection H as <- _; right; eauto].
  unfold _get_parent_document. cbn [act_emit act_bind].
  destruct (get_by_id d) as [[|parent documents]|];
    cbn [list_getitem act_lift act_ret act_bind];
    try (intros H; injection H as <- _; left; reflexivity);
    cbn; destruct (h_text chunk); cbn; intros H; try discriminate;
    injection H as <- _; right; eauto.
Qed.

Lemma result_of_hit_dangling chunk d :
  h_document_id chunk = Some d -> get_by_id d = Some [] ->
  result_of_hit get_by_id chunk = (Raise IndexError, [GetById d]).
Proof.
  intros Hd Hg. unfold result_of_hit, _get_parent_document.
  rewrite Hd. cbn [required act_lift act_bind act_emit]. rewrite Hg.
  reflexivity.
Qed.

Lemma hits_dangling hits chunk d :
  In chunk hits -> h_document_id chunk = Some d -> get_by_id d = Some [] ->
  exists ex w,
    act_mapM (result_of_hit get_by_id) hits = (Raise ex, w) /\
    (ex = IndexError \/ exists key, ex = KeyError key).
Proof.
  intros Hin Hd Hg. induction hits as [|h hits IH]; [contradiction|].
  cbn [act_mapM].
  destruct (result_of_hit get_by_id h) as [[p|ex] w] eqn:Eh.
  - destruct Hin as [->|Hin].
    + rewrite (result_of_hit_dangling _ _ Hd Hg) in Eh. discriminate.
    + destruct (IH Hin) as [ex [w' [E Hex]]].
      exists ex, (w ++ w'). cbn [act_bind]. rewrite E. auto.
  - exists ex, w. split; [reflexivity|].
    exact (result_of_hit_raises _ _ _ Eh).
Qed.

End ParentLookup.

(** X16. A hit whose parent document the index no longer has, the
    lookup answering with an empty list, makes [retrieve] raise: line
    629 takes item 0 of that list unguarded, so the call ends in
    [IndexError], or in the [KeyError] of an earlier hit, and returns
    no result at all. *)
Theorem X16_hit_without_parent_raises
    (embeddings_create : string -> list embedding)
    (near_vector : embedding -> option where_filter -> Z -> option (list hit))
    (get_by_id : string -> option (list (dict string)))
    (rerank_reply : string -> list passage -> string)
    (query : string) (filters : option (dict string))
    (top_k rerank_top_k : Z)
    (e : embedding) (hits : list hit) (chunk : hit) (d : string) :
  list_getitem (embeddings_create query) 0 = Ok e ->
  near_vector e (build_where_filter filters) top_k = Some hits ->
  In chunk hits ->
  h_document_id chunk = Some d ->
  get_by_id d = Some [] ->
  exists ex tr,
    retrieve embeddings_create near_vector get_by_id rerank_reply
             query filters top_k rerank_top_k = (Raise ex, tr) /\
    (ex = IndexError \/ exists key, ex = KeyError key).
Proof.
  intros He Hn Hin Hd Hg.
  destruct (hits_dangling get_by_id hits chunk d Hin Hd Hg)
    as [ex [w [E Hex]]].
  exists ex. eexists. split; [|exact Hex].
  unfold retrieve, _generate_embedding, _initial_retrieval.
  cbn [act_bind act_emit act_lift]. rewrite He. cbn [act_bind].
  rewrite Hn, E. reflexivity.
Qed.

Lemma X16_witness :
  exists ex tr,
    sample_retrieve (fun _ => Some []) = (Raise ex, tr) /\
    (ex = IndexError \/ exists key, ex = KeyError key).
Proof.
  apply (X16_hit_without_parent_raises
           (fun _ => [[0.5%float]])
           (fun _ _ _ => Some [sample_hit "a"; sample_hit "b"])
           (fun _ => Some [])
           (fun _ _ => "1
9"%string)
           "consulta" None 20 1 [0.5%float]
           [sample_hit "a"; sample_hit "b"] (sample_hit "b") "d1").
  - reflexivity.
  - reflexivity.
  - cbn. tauto.
  - reflexivity.
  - reflexivity.
Defined.

(** A lookup whose answer lacks the path is not an error: the fields
    of the parent default to the empty string. *)
Example hit_with_unanswered_lookup :
  match fst (sample_retrieve (fun _ => None)) with
  | Ok out => map (fun r => document_title (base r)) out
  | Raise _ => []
  end = [EmptyString].
Proof. vm_compute. reflexivity. Qed.

(* ------------------------------------------------------------------ *)
(** ** Embeddings in batches *)

Import HierarchicalIndexer.

Lemma act_mapM_emit {E A B} (g : A -> E) (h : A -> B) (l : list A) :
  act_mapM (fun x => _ <~~ act_emit (g x) ;; act_ret (h x)) l
  = (Ok (map h l), map g l).
Proof.
  induction l as [|x l IH]; [reflexivity|].
  cbn [act_mapM map]. rewrite IH.
  cbn [act_bind act_emit act_ret app]. rewrite app_nil_r. reflexivity.
Qed.

Lemma concat_chunks {A} (B : nat) (l : list A) (c : nat) :
  (0 < B)%nat -> (List.length l <= c * B)%nat ->
  List.concat (map (fun j => firstn B (skipn (j * B) l)) (seq 0 c)) = l.
Proof.
  intros HB. revert l. induction c as [|c IH]; intros l Hl.
  - destruct l; [reflexivity|cbn in Hl; lia].
  - cbn [seq map List.concat]. rewrite <- seq_shift, map_map.
    cbn [Nat.mul skipn].
    rewrite (map_ext _ (fun j => firstn B (skipn (j * B) (skipn B l)))).
    + rewrite IH; [apply firstn_skipn|]. rewrite length_skipn. lia.
    + intros j. rewrite skipn_skipn. f_equal. f_equal. lia.
Qed.

Lemma slice_chunk {A} (l : list A) (b : Z) (j : nat) :
  0 < b ->
  slice l (0 + Z.of_nat j * b) (0 + Z.of_nat j * b + b)
  = firstn (Z.to_nat b) (skipn (j * Z.to_nat b) l).
Proof.
  intros Hb. unfold slice, clamp, len.
  set (n := List.length l).
  assert (Hj : Z.to_nat (Z.of_nat j * b) = (j * Z.to_nat b)%nat)
    by (rewrite Z2Nat.inj_mul, Nat2Z.id by lia; reflexivity).
  destruct (Z.ltb_spec (0 + Z.of_nat j * b) 0); [nia|].
  destruct (Z.ltb_spec (0 + Z.of_nat j * b + b) 0); [nia|].
  rewrite Z.add_0_l in *.
  destruct (Z.le_gt_cases (Z.of_nat j * b) (Z.of_nat n)) as [Hin|Hout].
  - rewrite (Z.min_l (Z.of_nat j * b)) by lia. rewrite Hj.
    destruct (Z.le_gt_cases (Z.of_nat j * b + b) (Z.of_nat n)) as [Hfull|Hpart].
    + rewrite Z.min_l by lia. f_equal. lia.
    + rewrite Z.min_r by lia.
      assert (Hlen : List.length (skipn (j * Z.to_nat b) l)
                     = Z.to_nat (Z.of_nat n - Z.of_nat j * b)).
      { rewrite length_skipn. fold n. lia. }
      rewrite <- Hlen, firstn_all. symmetry. apply firstn_all2. lia.
  - rewrite !Z.min_r by lia. rewrite Z.sub_diag. cbn [Z.to_nat firstn].
    rewrite (skipn_all2 l) by (fold n; lia). symmetry. apply firstn_nil.
Qed.

Lemma chunk_size {A} (l : list A) (B j : nat) :
  (0 < B)%nat -> (j * B < List.length l)%nat ->
  (0 < List.length (firstn B (skipn (j * B) l)) <= B)%nat.
Proof. intros HB Hj. rewrite length_firstn, length_skipn. lia. Qed.

Lemma batch_count n b :
  0 <= n -> 0 < b ->
  n <= ((n - 0 + b - 1) / b) * b /\
  (forall j, 0 <= j < (n - 0 + b - 1) / b -> j * b < n).
Proof.
  intros Hn Hb. rewrite Z.sub_0_r.
  pose proof (Z.div_mod (n + b - 1) b ltac:(lia)) as Hd.
  pose proof (Z.mod_pos_bound (n + b - 1) b Hb) as Hm.
  split; [nia|]. intros j Hj. nia.
Qed.

(** With a positive batch size: the requests and the result. *)
Lemma embeddings_batch_run embed texts batch_size :
  0 < batch_size ->
  exists batches,
    _generate_embeddings_batch embed texts batch_size
    = (Ok (List.concat (map embed batches)),
       map EmbeddingsCreateBatch batches) /\
    List.concat batches = texts /\
    Forall (fun batch => 0 < len batch <= batch_size) batches.
Proof.
  intros Hb. unfold _generate_embeddings_batch, range3.
  destruct (Z.eqb_spec batch_size 0); [lia|].
  destruct (Z.ltb_spec 0 batch_size); [|lia].
  cbn [act_lift act_bind app]. rewrite act_mapM_emit.
  cbn [act_bind act_ret app]. rewrite app_nil_r.
  set (c := Z.to_nat ((len texts - 0 + batch_size - 1) / batch_size)).
  set (starts := map (fun j => 0 + Z.of_nat j * batch_size) (seq 0 c)).
  exists (map (fun i => slice texts i (i + batch_size)) starts).
  destruct (batch_count (len texts) batch_size) as [Hcover Hstart];
    [unfold len; lia|exact Hb|].
  assert (Hq : 0 <= (len texts - 0 + batch_size - 1) / batch_size)
    by (apply Z.div_pos; unfold len; lia).
  assert (Hchunks :
            map (fun i => slice texts i (i + batch_size)) starts
            = map (fun j => firstn (Z.to_nat batch_size)
                              (skipn (j * Z.to_nat batch_size) texts))
                  (seq 0 c)).
  { unfold starts. rewrite map_map. apply map_ext. intros j.
    apply slice_chunk, Hb. }
  split; [rewrite !map_map; reflexivity|]. rewrite Hchunks. split.
  - apply concat_chunks; [lia|]. unfold c, len in *. nia.
  - apply Forall_forall. intros batch Hin. apply in_map_iff in Hin.
    destruct Hin as [j [<- Hj]]. apply in_seq in Hj.
    assert (Hlt : (j * Z.to_nat batch_size < List.length texts)%nat).
    { specialize (Hstart (Z.of_nat j)). unfold c, len in *. nia. }
    pose proof (chunk_size texts (Z.to_nat batch_size) j ltac:(lia) Hlt).
    unfold len. lia.
Qed.

(** X17. With a positive batch size, [_generate_embeddings_batch]
    sends the texts in consecutive batches: the inputs of its requests,
    put end to end, are the texts, each request carries at least one
    text and at most [batch_size], and the result lists the embeddings
    of the answers in the order of the requests. *)
Theorem X17_batches_cover_texts_in_order
    (embeddings_create_batch : list string -> list embedding)
    (texts : list string) (batch_size : Z) :
  0 < batch_size ->
  exists batches,
    _generate_embeddings_batch embeddings_create_batch texts batch_size
    = (Ok (List.concat (map embeddings_create_batch batches)),
       map EmbeddingsCreateBatch batches) /\
    List.concat batches = texts /\
    Forall (fun batch => 0 < len batch <= batch_size) batches.
Proof.
  intros Hb.
  destruct (embeddings_batch_run embeddings_create_batch texts batch_size Hb)
    as [batches H].
  exists batches. exact H.
Qed.

Lemma X17_witness :
  exists batches,
    _generate_embeddings_batch (map (fun t => [0.5%float]))
                               ["a"; "b"; "c"; "d"; "e"]%string 2
    = (Ok (List.concat (map (map (fun t => [0.5%float])) batches)),
       map EmbeddingsCreateBatch batches) /\
    List.concat batches = ["a"; "b"; "c"; "d"; "e"]%string /\
    Forall (fun batch => 0 < len batch <= 2) batches.
Proof.
  apply (X17_batches_cover_texts_in_order
           (map (fun t => [0.5%float]))
           ["a"; "b"; "c"; "d"; "e"]%string 2).
  lia.
Defined.

Example five_texts_in_batches_of_two :
  snd (_generate_embeddings_batch (map (fun t => [0.5%float]))
                                  ["a"; "b"; "c"; "d"; "e"]%string 2)
  = [ EmbeddingsCreateBatch ["a"; "b"]%string;
      EmbeddingsCreateBatch ["c"; "d"]%string;
      EmbeddingsCreateBatch ["e"]%string ].
Proof. vm_compute. reflexivity. Qed.

(** X18. Batching does not show in the result: when the service embeds
    each text of a request on its own, whatever the other texts of the
    request, the result is the list of the embeddings of the texts, for
    every positive batch size. *)
Theorem X18_batching_is_transparent
    (embeddings_create_batch : list string -> list embedding)
    (embed : string -> embedding)
    (texts : list string) (batch_size : Z) :
  (forall batch, embeddings_create_batch batch = map embed batch) ->
  0 < batch_size ->
  fst (_generate_embeddings_batch embeddings_create_batch texts batch_size)
  = Ok (map embed texts).
Proof.
  intros Hpoint Hb.
  destruct (embeddings_batch_run embeddings_create_batch texts batch_size Hb)
    as [batches [-> [Hc _]]].
  cbn [fst]. f_equal.
  rewrite (map_ext _ (map embed) Hpoint), <- concat_map, Hc. reflexivity.
Qed.

Lemma X18_witness :
  fst (_generate_embeddings_batch
         (map (fun t => [0.5%float]))
         ["a"; "bb"; "ccc"]%string 2)
  = Ok (map (fun t => [0.5%float])
            ["a"; "bb"; "ccc"]%string).
Proof.
  apply (X18_batching_is_transparent
           (map (fun t => [0.5%float]))
           (fun t => [0.5%float])
           ["a"; "bb"; "ccc"]%string 2).
  - reflexivity.
  - lia.
Defined.

(** X19. A batch size that is not positive: 0 raises [ValueError], the
    step of [range] being 0, and a negative one makes the range empty,
    so that the call returns no embedding at all and sends no request,
    whatever the texts. *)
Theorem X19_batch_size_not_positive
    (embeddings_create_batch : list string -> list embedding)
    (texts : list string) (batch_size : Z) :
  batch_size <= 0 ->
  _generate_embeddings_batch embeddings_create_batch texts batch_size
  = (if batch_size =? 0 then Raise ValueError else Ok [], []).
Proof.
  intros Hb. unfold _generate_embeddings_batch, range3.
  destruct (Z.eqb_spec batch_size 0); [reflexivity|].
  destruct (Z.ltb_spec 0 batch_size); [lia|].
  assert (Hc : (0 - len texts - batch_size - 1) / - batch_size <= 0).
  { assert (H1 : (0 - len texts - batch_size - 1) / - batch_size < 1);
      [|lia].
    apply Z.div_lt_upper_bound; unfold len; lia. }
  replace (Z.to_nat ((0 - len texts - batch_size - 1) / - batch_size))
    with 0%nat by lia.
  reflexivity.
Qed.

Lemma X19_witness :
  _generate_embeddings_batch (map (fun t => [0.5%float]))
                             ["a"; "b"; "c"]%string (-1)
  = (if -1 =? 0 then Raise ValueError else Ok [], []).
Proof.
  apply (X19_batch_size_not_positive (map (fun t => [0.5%float]))
           ["a"; "b"; "c"]%string (-1)).
  lia.
Defined.

(* ------------------------------------------------------------------ *)
(** ** Deleting a document *)

Lemma delete_chunks_all chunk_class ids :
  forall k,
    delete_chunks chunk_class (map Some ids) k
    = (Ok (k + len ids), map (DeleteObject chunk_class) ids).
Proof.
  induction ids as [|i ids IH]; intros k; cbn [map delete_chunks].
  - unfold act_ret, len. cbn. rewrite Z.add_0_r. reflexivity.
  - cbn [required act_lift act_emit act_bind app]. rewrite IH.
    unfold len. cbn [List.length]. f_equal. f_equal. lia.
Qed.

Lemma delete_chunks_stops chunk_class done rest :
  forall k,
    delete_chunks chunk_class (map Some done ++ None :: rest) k
    = (Raise (KeyError "id"), map (DeleteObject chunk_class) done).
Proof.
  induction done as [|i done IH]; intros k; cbn [map app delete_chunks].
  - reflexivity.
  - cbn [required act_lift act_emit act_bind app]. rewrite IH. reflexivity.
Qed.

(** X20. When every chunk found for the document carries its ["id"],
    [delete_document] deletes the chunks, in the order found, and the
    document after them, and it reports the number of chunks found. *)
Theorem X20_delete_document_deletes_chunks_first
    (document_class chunk_class : string)
    (chunks_of_document : string -> option (list (option string)))
    (document_id : string) (ids : list string) :
  chunks_of_document document_id = Some (map Some ids) ->
  delete_document document_class chunk_class chunks_of_document document_id
  = (Ok {| del_document_id := document_id;
           del_chunks_deleted := len ids;
           del_success := true |},
     ChunksOfDocument document_id
     :: map (DeleteObject chunk_class) ids
     ++ [DeleteObject document_class document_id]).
Proof.
  intros H. unfold delete_document. rewrite H.
  cbn [act_bind act_emit app]. rewrite delete_chunks_all.
  cbn [act_bind act_emit act_ret app]. reflexivity.
Qed.

Lemma X20_witness :
  delete_document "Document" "Chunk"
                  (fun _ => Some (map Some ["c1"; "c2"]%string)) "d1"
  = (Ok {| del_document_id := "d1";
           del_chunks_deleted := len ["c1"; "c2"]%string;
           del_success := true |},
     ChunksOfDocument "d1"
     :: map (DeleteObject "Chunk") ["c1"; "c2"]%string
     ++ [DeleteObject "Document" "d1"]).
Proof.
  apply (X20_delete_document_deletes_chunks_first "Document" "Chunk"
           (fun _ => Some (map Some ["c1"; "c2"]%string)) "d1"
           ["c1"; "c2"]%string).
  reflexivity.
Defined.

(** X21. A chunk found without an ["id"] stops [delete_document] with
    [KeyError]: the chunks before it are deleted already, the chunks
    after it and the document itself are not. *)
Theorem X21_delete_document_stops_half_way
    (document_class chunk_class : string)
    (chunks_of_document : string -> option (list (option string)))
    (document_id : string) (done : list string)
    (rest : list (option string)) :
  chunks_of_document document_id = Some (map Some done ++ None :: rest) ->
  delete_document document_class chunk_class chunks_of_document document_id
  = (Raise (KeyError "id"),
     ChunksOfDocument document_id :: map (DeleteObject chunk_class) done).
Proof.
  intros H. unfold delete_document. rewrite H.
  cbn [act_bind act_emit app]. rewrite delete_chunks_stops. reflexivity.
Qed.

Lemma X21_witness :
  delete_document "Document" "Chunk"
                  (fun _ => Some (map Some ["c1"%string]
                                  ++ None :: [Some "c3"%string])) "d1"
  = (Raise (KeyError "id"),
     ChunksOfDocument "d1" :: map (DeleteObject "Chunk") ["c1"%string]).
Proof.
  apply (X21_delete_document_stops_half_way "Document" "Chunk"
           (fun _ => Some (map Some ["c1"%string]
                           ++ None :: [Some "c3"%string])) "d1"
           ["c1"%string] [Some "c3"%string]).
  reflexivity.
Defined.

(* ------------------------------------------------------------------ *)
(** ** Chunks of a section *)

Lemma slice_from_last {A} (l : list A) (d : A) :
  l <> [] -> slice_from l (Z.max 0 (len l - 1)) = [last l d].
Proof.
  intros H. destruct (exists_last H) as [l' [a ->]].
  unfold slice_from, clamp, len. rewrite length_app. cbn [List.length].
  destruct (Z.ltb_spec (Z.max 0 (Z.of_nat (List.length l' + 1) - 1)) 0);
    [lia|].
  replace (Z.to_nat (Z.min (Z.max 0 (Z.of_nat (List.length l' + 1) - 1))
                           (Z.of_nat (List.length l' + 1))))
    with (List.length l') by lia.
  rewrite skipn_app, skipn_all, Nat.sub_diag, last_last. reflexivity.
Qed.

Lemma without_overlap_snoc groups g :
  groups <> [] ->
  without_overlap (groups ++ [g]) = without_overlap groups ++ tl g.
Proof.
  destruct groups as [|g0 groups]; [congruence|]. intros _. cbn.
  rewrite flat_map_app. cbn. rewrite app_nil_r, app_assoc. reflexivity.
Qed.

Lemma without_overlap_grow done cur x :
  cur <> [] ->
  without_overlap (done ++ [cur ++ [x]])
  = without_overlap (done ++ [cur]) ++ [x].
Proof.
  intros Hc. destruct done as [|g0 done]; cbn.
  - rewrite !app_nil_r. reflexivity.
  - rewrite !flat_map_app. cbn. rewrite !app_nil_r.
    destruct cur as [|p cur]; [congruence|]. cbn.
    rewrite <- !app_assoc. reflexivity.
Qed.

Lemma chained_snoc groups g' g :
  chained (groups ++ [g']) ->
  hd EmptyString g = last g' EmptyString ->
  chained ((groups ++ [g']) ++ [g]).
Proof.
  intros Hc Hg. induction groups as [|g0 groups IH].
  - cbn. auto.
  - destruct groups as [|g1 groups].
    + cbn in Hc |- *. destruct Hc as [H0 _]. repeat split; assumption.
    + cbn [app chained] in Hc |- *. destruct Hc as [H0 Hc].
      split; [exact H0|]. exact (IH Hc).
Qed.

Lemma chained_grow done cur x :
  cur <> [] -> chained (done ++ [cur]) -> chained (done ++ [cur ++ [x]]).
Proof.
  intros Hcur Hc. induction done as [|g0 done IH].
  - exact I.
  - destruct done as [|g1 done].
    + cbn in Hc |- *. destruct Hc as [H0 _]. split; [|exact I].
      destruct cur; [congruence|exact H0].
    + cbn [app chained] in Hc |- *. destruct Hc as [H0 Hc].
      split; [exact H0|]. exact (IH Hc).
Qed.

Lemma group_tokens_snoc encode g p :
  group_tokens encode (g ++ [p]) = group_tokens encode g + len (encode p).
Proof.
  unfold group_tokens. rewrite map_app, fold_left_app. reflexivity.
Qed.

Section ChunkSection.

Variable max_tokens : Z.
Variable encode : string -> list Z.
Variable section_title : string.

Let mk (g : list string) : section_chunk :=
  {| k_title := section_title; k_content := PyStr.join sep2 g |}.

Let fits (g : list string) : Prop :=
  (List.length g <= 2)%nat \/ group_tokens encode g <= max_tokens.

Lemma group_paragraphs_groups paragraphs :
  forall done cur processed,
    (cur = [] -> done = []) ->
    Forall (fun g => g <> []) done ->
    without_overlap (done ++ (if nonempty cur then [cur] else []))
    = processed ->
    chained (done ++ (if nonempty cur then [cur] else [])) ->
    Forall fits (done ++ (if nonempty cur then [cur] else [])) ->
    exists groups,
      group_paragraphs max_tokens encode section_title paragraphs
                       (map mk done) cur (group_tokens encode cur)
      = map mk groups /\
      Forall (fun g => g <> []) groups /\
      without_overlap groups = processed ++ paragraphs /\
      chained groups /\
      Forall fits groups.
Proof.
  induction paragraphs as [|para rest IH];
    intros done cur processed Hstart Hdone Hcover Hchain Hfits.
  - exists (done ++ (if nonempty cur then [cur] else [])).
    cbn [group_paragraphs].
    destruct cur as [|p cur]; cbn [nonempty] in *;
      rewrite ?app_nil_r in *.
    + repeat split; auto.
    + rewrite map_app. repeat split; auto.
      apply Forall_app. split; [exact Hdone|].
      repeat constructor. discriminate.
  - cbn [group_paragraphs].
    destruct ((max_tokens <? group_tokens encode cur + len (encode para))
              && nonempty cur) eqn:Eflush.
    + apply andb_true_iff in Eflush. destruct Eflush as [_ Hne].
      destruct cur as [|p cur]; [discriminate|]. cbn [nonempty] in *.
      rewrite (slice_from_last (p :: cur) EmptyString) by discriminate.
      set (o := last (p :: cur) EmptyString).
      specialize (IH (done ++ [p :: cur]) [o; para] (processed ++ [para])).
      cbn [nonempty] in IH.
      replace (fold_left Z.add (map (fun p0 => len (encode p0)) [o]) 0
               + len (encode para))
        with (group_tokens encode [o; para])
        by (unfold group_tokens; cbn; lia).
      rewrite map_app in IH. cbn [app] in IH |- *.
      destruct IH as [groups [Hr [Hn [Hc [Hch Hf]]]]].
      * discriminate.
      * apply Forall_app. split; [exact Hdone|].
        repeat constructor. discriminate.
      * rewrite without_overlap_snoc, Hcover; [reflexivity|].
        destruct done; discriminate.
      * apply chained_snoc; [exact Hchain|reflexivity].
      * apply Forall_app. split; [exact Hfits|].
        apply Forall_cons; [left; cbn; lia|constructor].
      * exists groups. rewrite <- app_assoc in Hc. cbn [app] in Hc. auto.
    + specialize (IH done (cur ++ [para]) (processed ++ [para])).
      rewrite group_tokens_snoc in IH.
      assert (Hcur : nonempty (cur ++ [para]) = true)
        by (destruct cur; reflexivity).
      rewrite Hcur in IH.
      destruct IH as [groups [Hr [Hn [Hc [Hch Hf]]]]].
      * intros E. destruct cur; discriminate.
      * exact Hdone.
      * destruct cur as [|p cur]; cbn [nonempty] in *.
        -- rewrite (Hstart eq_refl) in *. cbn in Hcover |- *.
           rewrite <- Hcover. reflexivity.
        -- rewrite without_overlap_grow, Hcover by discriminate.
           reflexivity.
      * destruct cur as [|p cur]; cbn [nonempty] in *.
        -- rewrite (Hstart eq_refl). exact I.
        -- apply chained_grow; [discriminate|exact Hchain].
      * destruct cur as [|p cur]; cbn [nonempty] in *.
        -- rewrite (Hstart eq_refl).
           apply Forall_cons; [left; cbn; lia|constructor].
        -- apply Forall_app in Hfits. destruct Hfits as [Hf1 _].
           apply Forall_app. split; [exact Hf1|].
           apply Forall_cons; [|constructor].
           right. rewrite group_tokens_snoc.
           rewrite andb_true_r in Eflush. apply Z.ltb_ge in Eflush.
           exact Eflush.
      * exists groups. rewrite <- app_assoc in Hc. cbn [app] in Hc. auto.
Qed.

Lemma chunk_section_groups split section_content :
  max_tokens < len (encode section_content) ->
  exists groups,
    _chunk_section max_tokens encode split section_title section_content
    = map mk groups /\
    Forall (fun g => g <> []) groups /\
    without_overlap groups = split section_content /\
    chained groups /\
    Forall fits groups.
Proof.
  intros Hbig. unfold _chunk_section.
  rewrite (proj2 (Z.leb_gt _ _) Hbig).
  exact (group_paragraphs_groups (split section_content) [] [] []
           (fun _ => eq_refl) (Forall_nil _) eq_refl I (Forall_nil _)).
Qed.

End ChunkSection.

(** X22. A section too large for one chunk is cut into chunks that are
    groups of whole paragraphs joined by a blank line, none empty, each
    group after the first starting with the last paragraph of the group
    before it, and, that repeated paragraph left out, the groups put
    end to end are the paragraphs of the section: none is lost, none
    moved. *)
Theorem X22_chunks_cover_the_paragraphs
    (max_tokens : Z) (encode : string -> list Z)
    (_split_into_paragraphs : string -> list string)
    (section_title section_content : string) :
  max_tokens < len (encode section_content) ->
  exists groups,
    _chunk_section max_tokens encode _split_into_paragraphs
                   section_title section_content
    = map (fun g => {| k_title := section_title;
                       k_content := PyStr.join sep2 g |}) groups /\
    Forall (fun g => g <> []) groups /\
    without_overlap groups = _split_into_paragraphs section_content /\
    chained groups.
Proof.
  intros Hbig.
  destruct (chunk_section_groups max_tokens encode section_title
              _split_into_paragraphs section_content Hbig)
    as [groups [Hr [Hn [Hc [Hch _]]]]].
  exists groups. auto.
Qed.

(** X23. The token limit holds for the chunks of three paragraphs or
    more.  The chunks of a section too large for one chunk are the
    groups of its paragraphs, as in X22: none empty, each after the
    first starting with the last paragraph of the one before, and, that
    repeated paragraph left out, put end to end they are the paragraphs
    of the section.  The paragraphs of a group of three or more count
    at most [max_tokens] tokens together.  A group of one or two
    paragraphs is not checked: the paragraph repeated from the group
    before and the one after it go together whatever their sizes. *)
Theorem X23_chunks_of_three_paragraphs_fit
    (max_tokens : Z) (encode : string -> list Z)
    (_split_into_paragraphs : string -> list string)
    (section_title section_content : string) :
  max_tokens < len (encode section_content) ->
  exists groups,
    _chunk_section max_tokens encode _split_into_paragraphs
                   section_title section_content
    = map (fun g => {| k_title := section_title;
                       k_content := PyStr.join sep2 g |}) groups /\
    Forall (fun g => g <> []) groups /\
    without_overlap groups = _split_into_paragraphs section_content /\
    chained groups /\
    Forall (fun g => (List.length g <= 2)%nat \/
                     group_tokens encode g <= max_tokens) groups.
Proof.
  intros Hbig.
  exact (chunk_section_groups max_tokens encode section_title
           _split_into_paragraphs section_content Hbig).
Qed.

Lemma X22_witness :
  exists groups,
    _chunk_section 3 sample_encode (fun _ => ["aaa"; "bbb"; "c"]%string)
                   "T" "aaa bbb c"
    = map (fun g => {| k_title := "T";
                       k_content := PyStr.join sep2 g |}) groups /\
    Forall (fun g => g <> []) groups /\
    without_overlap groups = ["aaa"; "bbb"; "c"]%string /\
    chained groups.
Proof.
  apply (X22_chunks_cover_the_paragraphs 3 sample_encode
           (fun _ => ["aaa"; "bbb"; "c"]%string) "T" "aaa bbb c").
  vm_compute. reflexivity.
Defined.

Lemma X23_witness :
  exists groups,
    _chunk_section 3 sample_encode (fun _ => ["aaa"; "bbb"; "c"]%string)
                   "T" "aaa bbb c"
    = map (fun g => {| k_title := "T";
                       k_content := PyStr.join sep2 g |}) groups /\
    Forall (fun g => g <> []) groups /\
    without_overlap groups = ["aaa"; "bbb"; "c"]%string /\
    chained groups /\
    Forall (fun g => (List.length g <= 2)%nat \/
                     group_tokens sample_encode g <= 3) groups.
Proof.
  apply (X23_chunks_of_three_paragraphs_fit 3 sample_encode
           (fun _ => ["aaa"; "bbb"; "c"]%string) "T" "aaa bbb c").
  vm_compute. reflexivity.
Defined.

(** With a limit of 3 tokens, the second chunk holds 6: the paragraph
    repeated from the first chunk and the next one. *)
Example chunk_of_two_paragraphs_over_the_limit :
  _chunk_section 3 sample_encode (fun _ => ["aaa"; "bbb"; "c"]%string)
                 "T" "aaa bbb c"
  = map (fun g => {| k_title := "T"; k_content := PyStr.join sep2 g |})
        [["aaa"]; ["aaa"; "bbb"]; ["bbb"; "c"]]%string /\
  group_tokens sample_encode ["aaa"; "bbb"]%string = 6.
Proof. split; vm_compute; reflexivity. Qed.

(* ------------------------------------------------------------------ *)
(** ** Indexing a document *)

Lemma run_all_gen {E A} (P : E -> Prop) (m : act E A) r w :
  Forall P (snd m) -> m = (r, w) -> Forall P w.
Proof. intros H ->. exact H. Qed.

Lemma drop_empty_truthy properties :
  forallb (fun kv => truthy_value (snd kv)) (drop_empty properties) = true.
Proof.
  unfold drop_empty. apply forallb_forall. intros kv H.
  apply filter_In in H. tauto.
Qed.

Lemma mapM_required_text chunks :
  (exists chunk, In chunk chunks /\ ch_text chunk = None) ->
  mapM (fun chunk => required "text" (ch_text chunk)) chunks
  = Raise (KeyError "text").
Proof.
  intros [c [Hin Hc]]. induction chunks as [|c0 chunks IH]; [contradiction|].
  cbn [mapM]. destruct (ch_text c0) as [t|] eqn:E0; [|reflexivity].
  cbn [required bind]. destruct Hin as [->|Hin]; [congruence|].
  rewrite (IH Hin). reflexivity.
Qed.

Section IndexFacts.

Variable document_class : string.
Variable chunk_class : string.
Variable embeddings_create : string -> list embedding.
Variable embeddings_create_batch : list string -> list embedding.
Variable generate_uuid5 : string -> string.
Variable uuid4 : nat -> string.

Variable document : document.
Variable doc_id : string.

Lemma index_chunk_entry_Ok embedding chunk drawn id drawn' w :
  _index_chunk_entry chunk_class generate_uuid5 uuid4
    (chunk_with_embedding document doc_id embedding chunk) drawn
  = (Ok (id, drawn'), w) ->
  exists properties,
    w = [CreateObject properties chunk_class id embedding] /\
    (PyStr.truthy doc_id = true ->
     dict_get properties "document_id" = Some (VStr doc_id)).
Proof.
  unfold _index_chunk_entry, chunk_with_embedding.
  cbn [ch_id ch_text ch_metadata ch_embedding or_default m_document_id].
  destruct (uuid_of generate_uuid5 uuid4 (ch_id chunk) drawn)
    as [chunk_uuid d1].
  destruct (ch_text chunk) as [t|]; [|discriminate].
  cbn [required act_lift act_bind act_emit act_ret app].
  intros H. injection H as <- <- <-.
  eexists. split; [reflexivity|]. intros Hd.
  unfold drop_empty. cbn [filter snd truthy_value].
  rewrite Hd.
  repeat match goal with
         | |- context [if ?b then _ else _] => destruct b
         end; reflexivity.
Qed.

Lemma index_chunk_entry_all (P : icall -> Prop) chunk drawn :
  (forall properties class_name uuid vector,
     forallb (fun kv => truthy_value (snd kv)) properties = true ->
     P (CreateObject properties class_name uuid vector)) ->
  Forall P (snd (_index_chunk_entry chunk_class generate_uuid5 uuid4
                   chunk drawn)).
Proof.
  intros HP. unfold _index_chunk_entry.
  destruct (uuid_of generate_uuid5 uuid4 (ch_id chunk) drawn)
    as [chunk_uuid d1].
  destruct (ch_text chunk) as [t|]; [|constructor].
  destruct (ch_embedding chunk) as [v|]; [|constructor].
  cbn [required act_lift act_bind act_emit act_ret app snd].
  repeat constructor. apply HP, drop_empty_truthy.
Qed.

Lemma index_chunks_Ok chunk_embeddings chunks :
  forall i chunk_ids drawn r drawn' tr,
    index_chunks chunk_class generate_uuid5 uuid4 document doc_id
                 chunk_embeddings i chunks chunk_ids drawn
    = (Ok (r, drawn'), tr) ->
    exists new,
      r = chunk_ids ++ new /\
      List.length new = List.length chunks /\
      objects tr = map (fun id => (chunk_class, id)) new /\
      (PyStr.truthy doc_id = true -> Forall (links_to doc_id) tr).
Proof.
  induction chunks as [|chunk rest IH]; cbn [index_chunks];
    intros i chunk_ids drawn r drawn' tr H.
  - unfold act_ret in H. injection H as <- <- <-. exists [].
    rewrite app_nil_r. auto.
  - apply act_bind_Ok in H. destruct H as [e [w0 [w0' [E0 [H ->]]]]].
    unfold act_lift in E0. injection E0 as E0 <-.
    apply act_bind_Ok in H. destruct H as [[id d1] [w1 [w1' [E1 [H ->]]]]].
    destruct (index_chunk_entry_Ok _ _ _ _ _ _ E1) as [p [-> Hp]].
    destruct (IH _ _ _ _ _ _ H) as [new [-> [Hl [Ho Hlink]]]].
    exists (id :: new). rewrite <- app_assoc. cbn [app List.length map].
    split; [reflexivity|]. split; [lia|]. split.
    + unfold objects in Ho |- *. cbn [flat_map app]. rewrite Ho.
      reflexivity.
    + intros Hd. constructor; [exact (Hp Hd)|exact (Hlink Hd)].
Qed.

Lemma index_chunks_all (P : icall -> Prop) chunk_embeddings chunks :
  (forall properties class_name uuid vector,
     forallb (fun kv => truthy_value (snd kv)) properties = true ->
     P (CreateObject properties class_name uuid vector)) ->
  forall i chunk_ids drawn,
    Forall P (snd (index_chunks chunk_class generate_uuid5 uuid4 document
                     doc_id chunk_embeddings i chunks chunk_ids drawn)).
Proof.
  intros HP. induction chunks as [|chunk rest IH]; cbn [index_chunks];
    intros i chunk_ids drawn; [constructor|].
  apply act_bind_all; [constructor|]. intros e.
  apply act_bind_all; [apply index_chunk_entry_all, HP|].
  intros [id d1]. apply IH.
Qed.

End IndexFacts.

Lemma batch_requests_all (P : icall -> Prop) embed texts batch_size :
  (forall batch, P (EmbeddingsCreateBatch batch)) ->
  Forall P (snd (_generate_embeddings_batch embed texts batch_size)).
Proof.
  intros HP. unfold _generate_embeddings_batch.
  apply act_bind_all; [constructor|]. intros starts.
  apply act_bind_all; [|intros; constructor].
  induction starts as [|i starts IH]; [constructor|].
  cbn [act_mapM]. apply act_bind_all.
  - apply act_bind_all; [repeat constructor; apply HP|].
    intros; constructor.
  - intros b. apply act_bind_all; [exact IH|]. intros; constructor.
Qed.

(** What a run of [index_document] that returns goes through. *)
Lemma index_document_Ok document_class chunk_class embeddings_create
      embeddings_create_batch generate_uuid5 uuid4 document chunks drawn
      r drawn' tr :
  index_document document_class chunk_class embeddings_create
                 embeddings_create_batch generate_uuid5 uuid4
                 document chunks drawn = (Ok (r, drawn'), tr) ->
  exists e properties wb wc new,
    list_getitem (embeddings_create (_create_document_summary document)) 0
    = Ok e /\
    tr = EmbeddingsCreateText (_create_document_summary document)
         :: CreateObject properties document_class (ix_document_id r) e
         :: wb ++ wc /\
    objects wb = [] /\
    Forall (links_to (ix_document_id r)) wb /\
    ix_chunk_ids r = new /\
    List.length new = List.length chunks /\
    objects wc = map (fun id => (chunk_class, id)) new /\
    (PyStr.truthy (ix_document_id r) = true ->
     Forall (links_to (ix_document_id r)) wc) /\
    ix_chunks_count r = len chunks.
Proof.
  intros H. unfold index_document in H.
  apply act_bind_Ok in H. destruct H as [e [w0 [w0' [E0 [H ->]]]]].
  unfold _generate_embedding in E0.
  cbn [act_bind act_emit act_lift app] in E0.
  destruct (list_getitem (embeddings_create _) 0) as [e'|] eqn:Ee;
    [|discriminate].
  injection E0 as -> <-.
  apply act_bind_Ok in H. destruct H as [[did d1] [w1 [w1' [E1 [H ->]]]]].
  unfold _index_document_entry in E1.
  destruct (uuid_of generate_uuid5 uuid4 (d_id document) drawn)
    as [doc_uuid d0].
  cbn [act_bind act_emit act_ret app] in E1. injection E1 as <- <- <-.
  apply act_bind_Ok in H. destruct H as [texts [w2 [w2' [E2 [H ->]]]]].
  unfold act_lift in E2. injection E2 as E2 <-.
  apply act_bind_Ok in H. destruct H as [embs [wb [w3' [E3 [H ->]]]]].
  apply act_bind_Ok in H. destruct H as [[ids d2] [wc [w4' [E4 [H ->]]]]].
  unfold act_ret in H. injection H as <- <- <-.
  cbn [ix_document_id ix_chunk_ids ix_chunks_count].
  destruct (index_chunks_Ok _ _ _ _ _ _ _ _ _ _ _ _ _ E4)
    as [new [-> [Hl [Ho Hlink]]]].
  assert (Hwb : Forall (fun c => match c with
                                 | EmbeddingsCreateBatch _ => True
                                 | _ => False
                                 end) wb).
  { refine (run_all_gen _ _ _ _ _ E3).
    apply batch_requests_all. intros; exact I. }
  exists e. eexists. exists wb, wc, new. rewrite app_nil_r. cbn [app].
  split; [reflexivity|]. split; [reflexivity|]. split.
  - clear - Hwb. induction Hwb as [|c wb Hc _ IH]; [reflexivity|].
    destruct c; try contradiction. exact IH.
  - split.
    + clear - Hwb. induction Hwb as [|c wb Hc _ IH]; constructor; auto.
      destruct c; try contradiction. exact I.
    + auto 10.
Qed.

Lemma objects_app tr1 tr2 : objects (tr1 ++ tr2) = objects tr1 ++ objects tr2.
Proof. unfold objects. apply flat_map_app. Qed.

(** X24. When [index_document] returns, the objects it has created
    are the document, under the identifier it returns, and after it one
    object per chunk, in the order of the chunks, under the identifiers
    it returns as [chunk_ids]; [chunks_count] is the number of chunks. *)
Theorem X24_index_document_creates_document_then_chunks
    (document_class chunk_class : string)
    (embeddings_create : string -> list embedding)
    (embeddings_create_batch : list string -> list embedding)
    (generate_uuid5 : string -> string) (uuid4 : nat -> string)
    (doc : document) (chunks : list chunk_record) (drawn drawn' : nat)
    (r : indexed) (tr : list icall) :
  index_document document_class chunk_class embeddings_create
                 embeddings_create_batch generate_uuid5 uuid4
                 doc chunks drawn = (Ok (r, drawn'), tr) ->
  objects tr
  = (document_class, ix_document_id r)
    :: map (fun id => (chunk_class, id)) (ix_chunk_ids r) /\
  List.length (ix_chunk_ids r) = List.length chunks /\
  ix_chunks_count r = len chunks.
Proof.
  intros H. apply index_document_Ok in H.
  destruct H as [e [p [wb [wc [new [_ [-> [Hb [_ [-> [Hl [Hc [_ Hn]]]]]]]]]]]]].
  split; [|split; [exact Hl|exact Hn]].
  change (objects (EmbeddingsCreateText (_create_document_summary doc)
                   :: CreateObject p document_class (ix_document_id r) e
                   :: wb ++ wc))
    with ((document_class, ix_document_id r) :: objects (wb ++ wc)).
  rewrite objects_app, Hb, Hc. reflexivity.
Qed.

Lemma X24_witness :
  objects (snd (sample_index sample_chunks))
  = ("Document"%string, ix_document_id sample_indexed)
    :: map (fun id => ("Chunk"%string, id)) (ix_chunk_ids sample_indexed) /\
  List.length (ix_chunk_ids sample_indexed) = List.length sample_chunks /\
  ix_chunks_count sample_indexed = len sample_chunks.
Proof.
  apply (X24_index_document_creates_document_then_chunks
           "Document" "Chunk"
           (fun _ => [[0.5%float]]) (map (fun _ => [0.25%float]))
           (fun id => ("u-" ++ id)%string) (fun _ => "random"%string)
           sample_document sample_chunks 0 0 sample_indexed
           (snd (sample_index sample_chunks))).
  vm_compute. reflexivity.
Defined.

(** X25. When [index_document] returns a document identifier that is
    not the empty string, every object created after the document
    carries that identifier as its [document_id], whatever
    [document_id] the metadata of the chunk had. *)
Theorem X25_chunks_are_linked_to_the_document
    (document_class chunk_class : string)
    (embeddings_create : string -> list embedding)
    (embeddings_create_batch : list string -> list embedding)
    (generate_uuid5 : string -> string) (uuid4 : nat -> string)
    (doc : document) (chunks : list chunk_record) (drawn drawn' : nat)
    (r : indexed) (tr : list icall) :
  index_document document_class chunk_class embeddings_create
                 embeddings_create_batch generate_uuid5 uuid4
                 doc chunks drawn = (Ok (r, drawn'), tr) ->
  PyStr.truthy (ix_document_id r) = true ->
  exists e properties rest,
    tr = EmbeddingsCreateText (_create_document_summary doc)
         :: CreateObject properties document_class (ix_document_id r) e
         :: rest /\
    Forall (links_to (ix_document_id r)) rest.
Proof.
  intros H Hid. apply index_document_Ok in H.
  destruct H as [e [p [wb [wc [new [_ [-> [_ [Hb [_ [_ [_ [Hc _]]]]]]]]]]]]].
  exists e, p, (wb ++ wc). split; [reflexivity|].
  apply Forall_app. split; [exact Hb|exact (Hc Hid)].
Qed.

Lemma X25_witness :
  exists e properties rest,
    snd (sample_index sample_chunks)
    = EmbeddingsCreateText (_create_document_summary sample_document)
      :: CreateObject properties "Document" (ix_document_id sample_indexed) e
      :: rest /\
    Forall (links_to (ix_document_id sample_indexed)) rest.
Proof.
  apply (X25_chunks_are_linked_to_the_document
           "Document" "Chunk"
           (fun _ => [[0.5%float]]) (map (fun _ => [0.25%float]))
           (fun id => ("u-" ++ id)%string) (fun _ => "random"%string)
           sample_document sample_chunks 0 0 sample_indexed
           (snd (sample_index sample_chunks))).
  - vm_compute. reflexivity.
  - reflexivity.
Defined.

(** X26. No object is stored with a property whose truth value is
    false, whether [index_document] returns or raises: empty strings
    and empty lists are left out, and so is a position of 0, that of
    the first chunk of a document. *)
Theorem X26_no_empty_property_is_stored
    (document_class chunk_class : string)
    (embeddings_create : string -> list embedding)
    (embeddings_create_batch : list string -> list embedding)
    (generate_uuid5 : string -> string) (uuid4 : nat -> string)
    (doc : document) (chunks : list chunk_record) (drawn : nat) :
  forallb stores_no_empty_value
          (snd (index_document document_class chunk_class embeddings_create
                  embeddings_create_batch generate_uuid5 uuid4
                  doc chunks drawn))
  = true.
Proof.
  apply forallb_forall. apply Forall_forall.
  unfold index_document.
  apply act_bind_all.
  { unfold _generate_embedding.
    apply act_bind_all; [repeat constructor|intros; constructor]. }
  intros e. apply act_bind_all.
  { unfold _index_document_entry.
    destruct (uuid_of generate_uuid5 uuid4 (d_id doc) drawn) as [u d0].
    apply act_bind_all; [|intros; constructor].
    repeat constructor. apply drop_empty_truthy. }
  intros [doc_id d0]. apply act_bind_all; [constructor|].
  intros texts. apply act_bind_all.
  { apply batch_requests_all. reflexivity. }
  intros embs. apply act_bind_all; [|intros [ids d1]; constructor].
  apply index_chunks_all. intros p c u v Hp. exact Hp.
Qed.

(** The first chunk, at position 0, is stored without a position. *)
Example first_chunk_stored_without_position :
  map (fun c => match c with
                | CreateObject properties _ uuid _ =>
                    [(uuid, dict_get properties "position")]
                | _ => []
                end) (snd (sample_index sample_chunks))
  = [ []; [("u-doc"%string, None)]; [];
      [("u-c0"%string, None)];
      [("u-c1"%string, Some (VNum 0.5%float))] ].
Proof. vm_compute. reflexivity. Qed.

(** X27. A chunk without a [text] makes [index_document] raise
    [KeyError] when the document has already been stored and none of
    its chunks: the texts are collected, at line 186, after the object
    of the document is created, at line 183. *)
Theorem X27_chunk_without_text_leaves_document_alone
    (document_class chunk_class : string)
    (embeddings_create : string -> list embedding)
    (embeddings_create_batch : list string -> list embedding)
    (generate_uuid5 : string -> string) (uuid4 : nat -> string)
    (doc : document) (chunks : list chunk_record) (drawn : nat)
    (e : embedding) :
  list_getitem (embeddings_create (_create_document_summary doc)) 0 = Ok e ->
  (exists chunk, In chunk chunks /\ ch_text chunk = None) ->
  exists properties,
    index_document document_class chunk_class embeddings_create
                   embeddings_create_batch generate_uuid5 uuid4
                   doc chunks drawn
    = (Raise (KeyError "text"),
       [ EmbeddingsCreateText (_create_document_summary doc);
         CreateObject properties document_class
                      (fst (uuid_of generate_uuid5 uuid4 (d_id doc) drawn))
                      e ]).
Proof.
  intros He Hc. unfold index_document, _generate_embedding.
  cbn [act_bind act_emit act_lift app]. rewrite He. cbn [act_bind].
  unfold _index_document_entry.
  destruct (uuid_of generate_uuid5 uuid4 (d_id doc) drawn) as [u d0].
  cbn [act_bind act_emit act_ret app fst].
  rewrite (mapM_required_text chunks Hc). cbn [act_bind act_lift app].
  eexists. reflexivity.
Qed.

Lemma X27_witness :
  exists properties,
    sample_index
      [ sample_chunk "c0" "primeiro" 0%float;
        {| ch_id := Some "c1"%string; ch_text := None; ch_metadata := None;
           ch_embedding := None; ch_document_id := None |} ]
    = (Raise (KeyError "text"),
       [ EmbeddingsCreateText (_create_document_summary sample_document);
         CreateObject properties "Document"
           (fst (uuid_of (fun id => ("u-" ++ id)%string)
                         (fun _ => "random"%string)
                         (d_id sample_document) 0))
           [0.5%float] ]).
Proof.
  apply (X27_chunk_without_text_leaves_document_alone
           "Document" "Chunk"
           (fun _ => [[0.5%float]]) (map (fun _ => [0.25%float]))
           (fun id => ("u-" ++ id)%string) (fun _ => "random"%string)
           sample_document
           [ sample_chunk "c0" "primeiro" 0%float;
             {| ch_id := Some "c1"%string; ch_text := None;
                ch_metadata := None; ch_embedding := None;
                ch_document_id := None |} ]
           0 [0.5%float]).
  - reflexivity.
  - eexists. split; [right; left; reflexivity|reflexivity].
Defined.

(* ------------------------------------------------------------------ *)
(** ** Retrieval keeps the best records *)

Lemma slice_prefix {A} (l : list A) k :
  0 <= k -> slice l 0 k = firstn (Z.to_nat k) l.
Proof.
  intros Hk. unfold slice, clamp, len.
  destruct (Z.ltb_spec 0 0); [lia|].
  destruct (Z.ltb_spec k 0); [lia|].
  rewrite (Z.min_l 0) by lia. cbn [Z.to_nat skipn]. rewrite Z.sub_0_r.
  destruct (Z.le_gt_cases k (Z.of_nat (List.length l))).
  - rewrite Z.min_l by lia. reflexivity.
  - rewrite Z.min_r by lia. rewrite Nat2Z.id.
    rewrite firstn_all. symmetry. apply firstn_all2. lia.
Qed.

Lemma sorted_app_above {A} (R : A -> A -> Prop) (l1 l2 : list A) :
  StronglySorted R (l1 ++ l2) -> Forall (fun x => Forall (R x) l2) l1.
Proof.
  induction l1 as [|x l1 IH]; cbn; intros H; [constructor|].
  inversion H as [|? ? Hs Hx]; subst. constructor; [|exact (IH Hs)].
  apply Forall_app in Hx. tauto.
Qed.

Lemma rerank_results_sorted content initial out :
  _rerank_results content initial = Ok out ->
  Forall (fun r => not_nan (combined_score r)) out ->
  StronglySorted combined_ge out.
Proof.
  intros H Hn. destruct initial as [|p initial].
  - cbn in H. injection H as <-. constructor.
  - rewrite rerank_nonempty in H by discriminate.
    set (scored := scored_from _ 0 (p :: initial)) in H.
    assert (Hout : out = sorted_desc scored) by congruence.
    rewrite Hout in Hn |- *. apply sorted_desc_sorted.
    exact (Permutation_Forall (sorted_desc_perm scored) Hn).
Qed.

Lemma rerank_is_rerank_results rerank_reply query initial reranked w :
  rerank rerank_reply query initial = (Ok reranked, w) ->
  _rerank_results (rerank_reply query initial) initial = Ok reranked.
Proof.
  unfold rerank. destruct initial as [|p initial].
  - unfold act_ret. intros H. injection H as <- _. reflexivity.
  - cbn [act_bind act_emit act_lift].
    destruct (_rerank_results _ (p :: initial)) as [r|e]; intros H;
      [|discriminate].
    injection H as <- _. reflexivity.
Qed.

(** X28. [retrieve] keeps the best: with [rerank_top_k] not negative,
    what it returns is the head of the reranked list of the records
    built from the hits, and, when no combined score is NaN, every
    record it returns has a combined score at least that of every
    record it leaves out. *)
Theorem X28_retrieve_keeps_the_best
    (embeddings_create : string -> list embedding)
    (near_vector : embedding -> option where_filter -> Z -> option (list hit))
    (get_by_id : string -> option (list (dict string)))
    (rerank_reply : string -> list passage -> string)
    (query : string) (filters : option (dict string))
    (top_k rerank_top_k : Z) (out : list reranked) (tr : list rcall) :
  retrieve embeddings_create near_vector get_by_id rerank_reply
           query filters top_k rerank_top_k = (Ok out, tr) ->
  0 <= rerank_top_k ->
  exists e initial wi left_out,
    list_getitem (embeddings_create query) 0 = Ok e /\
    act_mapM (result_of_hit get_by_id)
             (or_default (near_vector e (build_where_filter filters) top_k) [])
    = (Ok initial, wi) /\
    _rerank_results (rerank_reply query initial) initial
    = Ok (out ++ left_out) /\
    (Forall (fun r => not_nan (combined_score r)) (out ++ left_out) ->
     Forall (fun x => Forall (combined_ge x) left_out) out).
Proof.
  intros H Hk. apply retrieve_Ok in H.
  destruct H as [e [initial [wi [reranked [wr [He [Hi [Hr [-> _]]]]]]]]].
  apply rerank_is_rerank_results in Hr.
  exists e, initial, wi, (skipn (Z.to_nat rerank_top_k) reranked).
  rewrite slice_prefix by exact Hk. rewrite firstn_skipn.
  split; [exact He|]. split; [exact Hi|]. split; [exact Hr|].
  intros Hn. apply sorted_app_above. rewrite firstn_skipn.
  exact (rerank_results_sorted _ _ _ Hr Hn).
Qed.

Lemma X28_witness :
  exists e initial wi left_out,
    list_getitem [[0.5%float]] 0 = Ok e /\
    act_mapM (result_of_hit sample_parent)
             (or_default (Some [sample_hit "a"; sample_hit "b"]) [])
    = (Ok initial, wi) /\
    _rerank_results "1
9" initial = Ok (sample_retrieved ++ left_out) /\
    (Forall (fun r => not_nan (combined_score r))
            (sample_retrieved ++ left_out) ->
     Forall (fun x => Forall (combined_ge x) left_out) sample_retrieved).
Proof.
  apply (X28_retrieve_keeps_the_best
           (fun _ => [[0.5%float]])
           (fun _ _ _ => Some [sample_hit "a"; sample_hit "b"])
           sample_parent
           (fun _ _ => "1
9"%string)
           "consulta" None 20 1 sample_retrieved
           (snd (sample_retrieve sample_parent))).
  - vm_compute. reflexivity.
  - lia.
Defined.
